(** * Axiom City / OverMind: the city simulation and its action gate

    A shallow embedding of the TypeScript sources
      - [src/Axiom City/types.ts], [src/Axiom City/constants.tsx]
      - [src/Axiom City/App.tsx] and [src/unnamed/part_001] ([performAction])
      - [src/Axiom City/utils/simulation.ts] and [src/unnamed/part_003]
        ([updateSimulation], [simulateEnvironment])
      - the AI service appended to [src/Axiom City/constants.tsx]
        ([callLocalAI], [generateGameAction]).

    Numbers.  A JavaScript [number] is modelled as an exact rational [Q]:
    [Math.floor] is [Qfloor], comparisons are the order of [Q], and the
    values NaN and +-Infinity are not represented.  Every division of the
    modelled code has a divisor that is at least 1, so none is produced
    from rational inputs by a division; a double can still overflow to
    +-Infinity (and Infinity - Infinity is NaN) where the rational goes
    on.  The statements on the values of [updateSimulation] and
    [simulateEnvironment] that depend on this therefore carry the numeric
    range of their inputs as hypotheses ([statsInRange], [gridInRange],
    [boundedPollution]); inside it no value of the modelled code comes
    near the largest double, and outside it they say nothing.
    [Math.pow], [Math.atan2], [Math.cos] and [Math.sin] are host
    functions and stay parameters ([Host]); each call of [Math.random] is
    an explicit argument.

    The enum [BuildingType] has one member more than types.ts declares:
    [ResearchCentre], which constants.tsx and App.tsx name (see
    [BuildingType.t]).

    Objects.  [updateSimulation] copies its argument with a spread
    ([{ ...currentStats }]), which copies the top-level fields only: the
    nested [demographics], [jobs] and [budget] objects are references.
    They live in a heap ([gmap loc Obj]) and the stats record holds their
    locations. *)

From Stdlib Require Import ZArith QArith Qround Qabs Lqa Lia String Ascii.
From stdpp Require Import base decidable option list gmap.

Local Open Scope Z_scope.
Local Open Scope Q_scope.

(** ** JavaScript numbers *)

Definition Qltb (a b : Q) : bool := negb (Qle_bool b a).
Definition Qgtb (a b : Q) : bool := Qltb b a.
Definition Qgeb (a b : Q) : bool := Qle_bool b a.

Definition Math_floor (v : Q) : Q := inject_Z (Qfloor v).
Definition Math_min (a b : Q) : Q := if Qle_bool a b then a else b.
Definition Math_max (a b : Q) : Q := if Qle_bool a b then b else a.
Definition Math_abs (v : Q) : Q := Qabs v.
(** [Math.round] rounds halves towards +Infinity. *)
Definition Math_round (v : Q) : Z := Qfloor (v + (1 # 2)).

(** [v || 0] for an optional number: [undefined] and [0] both give [0]. *)
Definition or0 (v : option Q) : Q := default 0 v.
(** Truthiness of an optional number. *)
Definition truthy (v : option Q) : bool :=
  match v with Some q => negb (Qeq_bool q 0) | None => false end.

(** The host's floating-point library. *)
Record Host := {
  Math_pow : Q -> Q -> Q;
  Math_atan2 : Q -> Q -> Q;
  Math_cos : Q -> Q;
  Math_sin : Q -> Q
}.

(** ** types.ts *)

(** The enum [BuildingType], types.ts lines 8-30, declares the twenty
    members [None] to [Casino].  [ResearchCentre] is not one of them in
    the types.ts at hand: it is modelled from the code that names it, the
    catalog row keyed by [BuildingType.ResearchCentre] (constants.tsx,
    line 216) and the tests [=== BuildingType.ResearchCentre] of
    [performAction] (App.tsx, lines 260 and 296), as the member a later
    types.ts declares.  [declared] tells the members of types.ts from
    it. *)
Module BuildingType.
Inductive t :=
| None | Road | Residential | Commercial | Industrial | Park | School
| Hospital | Police | FireStation | GoldMine | Apartment | Mansion
| Water | Bridge
| MegaMall | SpacePort | University | Stadium | Casino | ResearchCentre.

#[global] Instance eq_dec : EqDecision t.
Proof. solve_decision. Defined.

Definition eqb (a b : t) : bool := bool_decide (a = b).

End BuildingType.

Module EconomicEvent.
Inductive t := None | Boom | Recession | Strike | Audit | Festival.

#[global] Instance eq_dec : EqDecision t.
Proof. solve_decision. Defined.

Definition eqb (a b : t) : bool := bool_decide (a = b).
End EconomicEvent.

(** The presentation fields [description] and [color] of a catalog row
    are left out. *)
Record BuildingConfig := {
  type : BuildingType.t;
  cost : Q;
  name : string;
  popGen : Q;
  incomeGen : Q;
  crime : option Q;
  pollution : option Q;
  maxAllowed : option Q
}.

Module Tile.
Record t := {
  x : Z;
  y : Z;
  buildingType : BuildingType.t;
  pollution : option Q;
  hasRoadAccess : option bool
}.

Definition set_buildingType (b : BuildingType.t) (a : t) : t :=
  {| x := x a; y := y a; buildingType := b;
     pollution := pollution a; hasRoadAccess := hasRoadAccess a |}.
Definition set_pollution (p : Q) (a : t) : t :=
  {| x := x a; y := y a; buildingType := buildingType a;
     pollution := Some p; hasRoadAccess := hasRoadAccess a |}.
Definition set_hasRoadAccess (c : bool) (a : t) : t :=
  {| x := x a; y := y a; buildingType := buildingType a;
     pollution := pollution a; hasRoadAccess := Some c |}.
End Tile.

Abbreviation Grid := (list (list Tile.t)).

(** [grid[y][x]] for array indices. *)
Definition tileAt (g : Grid) (yi xi : nat) : option Tile.t :=
  row ← g !! yi; row !! xi.

(** [grid[y][x] = t] on a grid whose rows are arrays. *)
Definition setTile (g : Grid) (yi xi : nat) (a : Tile.t) : Grid :=
  alter (fun row => <[xi := a]> row) yi g.

Record Vec2 := { vx : Q; vy : Q }.

Inductive TargetType := target_population | target_money | target_building_count.

Record AIGoal := {
  description : string;
  targetType : TargetType;
  targetValue : Q;
  goalBuildingType : option BuildingType.t;
  reward : Q;
  completed : bool
}.

(** [stats.research] and [stats.activePlanet] are used by App.tsx; their
    declaration is not part of the sources, the fields are those App.tsx
    reads and writes. *)
Record Research := {
  landExpansionLevel : Q;
  isResearchCentreBuilt : bool;
  isMarsDiscovered : bool;
  nauticalLevel : Q
}.

Inductive Planet := Earth | Mars.

Record Demographics := { children : Q; adults : Q; seniors : Q }.

Record Jobs := { commercial : Q; industrial : Q; total : Q; unemployment : Q }.

Record BudgetDetails := { tax : Q; business : Q; services : Q; welfare : Q }.

Record Budget := {
  income : Q;
  expenses : Q;
  details : BudgetDetails;
  lastMonthProfit : option Q
}.

(** Locations of the nested objects of a stats record. *)
Definition loc := nat.

Record CityStats := {
  money : Q;
  population : Q;
  day : Q;
  taxRate : Q;
  happiness : Q;
  education : Q;
  safety : Q;
  housingCapacity : Q;
  demographics : loc;
  jobs : loc;
  budget : loc;
  shadowEconomy : Q;
  supplyLevel : Q;
  loanPrincipal : Q;
  loanInterestRate : Q;
  activeEvent : EconomicEvent.t;
  eventDuration : Q;
  sharePrice : Q;
  investmentShares : Q;
  investmentAverageCost : Q;
  crimeRate : Q;
  security : Q;
  pollutionLevel : Q;
  windDirection : Vec2;
  windSpeed : Q;
  currentGoal : option AIGoal;
  unlockedGridSize : Q;
  research : Research;
  activePlanet : Planet
}.

Definition set_money (v : Q) (s : CityStats) : CityStats :=
  {| money := v; population := population s; day := day s;
     taxRate := taxRate s; happiness := happiness s;
     education := education s; safety := safety s;
     housingCapacity := housingCapacity s; demographics := demographics s;
     jobs := jobs s; budget := budget s; shadowEconomy := shadowEconomy s;
     supplyLevel := supplyLevel s; loanPrincipal := loanPrincipal s;
     loanInterestRate := loanInterestRate s; activeEvent := activeEvent s;
     eventDuration := eventDuration s; sharePrice := sharePrice s;
     investmentShares := investmentShares s;
     investmentAverageCost := investmentAverageCost s;
     crimeRate := crimeRate s; security := security s;
     pollutionLevel := pollutionLevel s; windDirection := windDirection s;
     windSpeed := windSpeed s; currentGoal := currentGoal s;
     unlockedGridSize := unlockedGridSize s; research := research s;
     activePlanet := activePlanet s |}.
Definition set_population (v : Q) (s : CityStats) : CityStats :=
  {| money := money s; population := v; day := day s; taxRate := taxRate s;
     happiness := happiness s; education := education s;
     safety := safety s; housingCapacity := housingCapacity s;
     demographics := demographics s; jobs := jobs s; budget := budget s;
     shadowEconomy := shadowEconomy s; supplyLevel := supplyLevel s;
     loanPrincipal := loanPrincipal s;
     loanInterestRate := loanInterestRate s; activeEvent := activeEvent s;
     eventDuration := eventDuration s; sharePrice := sharePrice s;
     investmentShares := investmentShares s;
     investmentAverageCost := investmentAverageCost s;
     crimeRate := crimeRate s; security := security s;
     pollutionLevel := pollutionLevel s; windDirection := windDirection s;
     windSpeed := windSpeed s; currentGoal := currentGoal s;
     unlockedGridSize := unlockedGridSize s; research := research s;
     activePlanet := activePlanet s |}.
Definition set_day (v : Q) (s : CityStats) : CityStats :=
  {| money := money s; population := population s; day := v;
     taxRate := taxRate s; happiness := happiness s;
     education := education s; safety := safety s;
     housingCapacity := housingCapacity s; demographics := demographics s;
     jobs := jobs s; budget := budget s; shadowEconomy := shadowEconomy s;
     supplyLevel := supplyLevel s; loanPrincipal := loanPrincipal s;
     loanInterestRate := loanInterestRate s; activeEvent := activeEvent s;
     eventDuration := eventDuration s; sharePrice := sharePrice s;
     investmentShares := investmentShares s;
     investmentAverageCost := investmentAverageCost s;
     crimeRate := crimeRate s; security := security s;
     pollutionLevel := pollutionLevel s; windDirection := windDirection s;
     windSpeed := windSpeed s; currentGoal := currentGoal s;
     unlockedGridSize := unlockedGridSize s; research := research s;
     activePlanet := activePlanet s |}.
Definition set_happiness (v : Q) (s : CityStats) : CityStats :=
  {| money := money s; population := population s; day := day s;
     taxRate := taxRate s; happiness := v; education := education s;
     safety := safety s; housingCapacity := housingCapacity s;
     demographics := demographics s; jobs := jobs s; budget := budget s;
     shadowEconomy := shadowEconomy s; supplyLevel := supplyLevel s;
     loanPrincipal := loanPrincipal s;
     loanInterestRate := loanInterestRate s; activeEvent := activeEvent s;
     eventDuration := eventDuration s; sharePrice := sharePrice s;
     investmentShares := investmentShares s;
     investmentAverageCost := investmentAverageCost s;
     crimeRate := crimeRate s; security := security s;
     pollutionLevel := pollutionLevel s; windDirection := windDirection s;
     windSpeed := windSpeed s; currentGoal := currentGoal s;
     unlockedGridSize := unlockedGridSize s; research := research s;
     activePlanet := activePlanet s |}.
Definition set_education (v : Q) (s : CityStats) : CityStats :=
  {| money := money s; population := population s; day := day s;
     taxRate := taxRate s; happiness := happiness s; education := v;
     safety := safety s; housingCapacity := housingCapacity s;
     demographics := demographics s; jobs := jobs s; budget := budget s;
     shadowEconomy := shadowEconomy s; supplyLevel := supplyLevel s;
     loanPrincipal := loanPrincipal s;
     loanInterestRate := loanInterestRate s; activeEvent := activeEvent s;
     eventDuration := eventDuration s; sharePrice := sharePrice s;
     investmentShares := investmentShares s;
     investmentAverageCost := investmentAverageCost s;
     crimeRate := crimeRate s; security := security s;
     pollutionLevel := pollutionLevel s; windDirection := windDirection s;
     windSpeed := windSpeed s; currentGoal := currentGoal s;
     unlockedGridSize := unlockedGridSize s; research := research s;
     activePlanet := activePlanet s |}.
Definition set_safety (v : Q) (s : CityStats) : CityStats :=
  {| money := money s; population := population s; day := day s;
     taxRate := taxRate s; happiness := happiness s;
     education := education s; safety := v;
     housingCapacity := housingCapacity s; demographics := demographics s;
     jobs := jobs s; budget := budget s; shadowEconomy := shadowEconomy s;
     supplyLevel := supplyLevel s; loanPrincipal := loanPrincipal s;
     loanInterestRate := loanInterestRate s; activeEvent := activeEvent s;
     eventDuration := eventDuration s; sharePrice := sharePrice s;
     investmentShares := investmentShares s;
     investmentAverageCost := investmentAverageCost s;
     crimeRate := crimeRate s; security := security s;
     pollutionLevel := pollutionLevel s; windDirection := windDirection s;
     windSpeed := windSpeed s; currentGoal := currentGoal s;
     unlockedGridSize := unlockedGridSize s; research := research s;
     activePlanet := activePlanet s |}.
Definition set_housingCapacity (v : Q) (s : CityStats) : CityStats :=
  {| money := money s; population := population s; day := day s;
     taxRate := taxRate s; happiness := happiness s;
     education := education s; safety := safety s; housingCapacity := v;
     demographics := demographics s; jobs := jobs s; budget := budget s;
     shadowEconomy := shadowEconomy s; supplyLevel := supplyLevel s;
     loanPrincipal := loanPrincipal s;
     loanInterestRate := loanInterestRate s; activeEvent := activeEvent s;
     eventDuration := eventDuration s; sharePrice := sharePrice s;
     investmentShares := investmentShares s;
     investmentAverageCost := investmentAverageCost s;
     crimeRate := crimeRate s; security := security s;
     pollutionLevel := pollutionLevel s; windDirection := windDirection s;
     windSpeed := windSpeed s; currentGoal := currentGoal s;
     unlockedGridSize := unlockedGridSize s; research := research s;
     activePlanet := activePlanet s |}.
Definition set_jobs (v : loc) (s : CityStats) : CityStats :=
  {| money := money s; population := population s; day := day s;
     taxRate := taxRate s; happiness := happiness s;
     education := education s; safety := safety s;
     housingCapacity := housingCapacity s; demographics := demographics s;
     jobs := v; budget := budget s; shadowEconomy := shadowEconomy s;
     supplyLevel := supplyLevel s; loanPrincipal := loanPrincipal s;
     loanInterestRate := loanInterestRate s; activeEvent := activeEvent s;
     eventDuration := eventDuration s; sharePrice := sharePrice s;
     investmentShares := investmentShares s;
     investmentAverageCost := investmentAverageCost s;
     crimeRate := crimeRate s; security := security s;
     pollutionLevel := pollutionLevel s; windDirection := windDirection s;
     windSpeed := windSpeed s; currentGoal := currentGoal s;
     unlockedGridSize := unlockedGridSize s; research := research s;
     activePlanet := activePlanet s |}.
Definition set_budget (v : loc) (s : CityStats) : CityStats :=
  {| money := money s; population := population s; day := day s;
     taxRate := taxRate s; happiness := happiness s;
     education := education s; safety := safety s;
     housingCapacity := housingCapacity s; demographics := demographics s;
     jobs := jobs s; budget := v; shadowEconomy := shadowEconomy s;
     supplyLevel := supplyLevel s; loanPrincipal := loanPrincipal s;
     loanInterestRate := loanInterestRate s; activeEvent := activeEvent s;
     eventDuration := eventDuration s; sharePrice := sharePrice s;
     investmentShares := investmentShares s;
     investmentAverageCost := investmentAverageCost s;
     crimeRate := crimeRate s; security := security s;
     pollutionLevel := pollutionLevel s; windDirection := windDirection s;
     windSpeed := windSpeed s; currentGoal := currentGoal s;
     unlockedGridSize := unlockedGridSize s; research := research s;
     activePlanet := activePlanet s |}.
Definition set_activeEvent (v : EconomicEvent.t) (s : CityStats) : CityStats :=
  {| money := money s; population := population s; day := day s;
     taxRate := taxRate s; happiness := happiness s;
     education := education s; safety := safety s;
     housingCapacity := housingCapacity s; demographics := demographics s;
     jobs := jobs s; budget := budget s; shadowEconomy := shadowEconomy s;
     supplyLevel := supplyLevel s; loanPrincipal := loanPrincipal s;
     loanInterestRate := loanInterestRate s; activeEvent := v;
     eventDuration := eventDuration s; sharePrice := sharePrice s;
     investmentShares := investmentShares s;
     investmentAverageCost := investmentAverageCost s;
     crimeRate := crimeRate s; security := security s;
     pollutionLevel := pollutionLevel s; windDirection := windDirection s;
     windSpeed := windSpeed s; currentGoal := currentGoal s;
     unlockedGridSize := unlockedGridSize s; research := research s;
     activePlanet := activePlanet s |}.
Definition set_eventDuration (v : Q) (s : CityStats) : CityStats :=
  {| money := money s; population := population s; day := day s;
     taxRate := taxRate s; happiness := happiness s;
     education := education s; safety := safety s;
     housingCapacity := housingCapacity s; demographics := demographics s;
     jobs := jobs s; budget := budget s; shadowEconomy := shadowEconomy s;
     supplyLevel := supplyLevel s; loanPrincipal := loanPrincipal s;
     loanInterestRate := loanInterestRate s; activeEvent := activeEvent s;
     eventDuration := v; sharePrice := sharePrice s;
     investmentShares := investmentShares s;
     investmentAverageCost := investmentAverageCost s;
     crimeRate := crimeRate s; security := security s;
     pollutionLevel := pollutionLevel s; windDirection := windDirection s;
     windSpeed := windSpeed s; currentGoal := currentGoal s;
     unlockedGridSize := unlockedGridSize s; research := research s;
     activePlanet := activePlanet s |}.
Definition set_sharePrice (v : Q) (s : CityStats) : CityStats :=
  {| money := money s; population := population s; day := day s;
     taxRate := taxRate s; happiness := happiness s;
     education := education s; safety := safety s;
     housingCapacity := housingCapacity s; demographics := demographics s;
     jobs := jobs s; budget := budget s; shadowEconomy := shadowEconomy s;
     supplyLevel := supplyLevel s; loanPrincipal := loanPrincipal s;
     loanInterestRate := loanInterestRate s; activeEvent := activeEvent s;
     eventDuration := eventDuration s; sharePrice := v;
     investmentShares := investmentShares s;
     investmentAverageCost := investmentAverageCost s;
     crimeRate := crimeRate s; security := security s;
     pollutionLevel := pollutionLevel s; windDirection := windDirection s;
     windSpeed := windSpeed s; currentGoal := currentGoal s;
     unlockedGridSize := unlockedGridSize s; research := research s;
     activePlanet := activePlanet s |}.
Definition set_crimeRate (v : Q) (s : CityStats) : CityStats :=
  {| money := money s; population := population s; day := day s;
     taxRate := taxRate s; happiness := happiness s;
     education := education s; safety := safety s;
     housingCapacity := housingCapacity s; demographics := demographics s;
     jobs := jobs s; budget := budget s; shadowEconomy := shadowEconomy s;
     supplyLevel := supplyLevel s; loanPrincipal := loanPrincipal s;
     loanInterestRate := loanInterestRate s; activeEvent := activeEvent s;
     eventDuration := eventDuration s; sharePrice := sharePrice s;
     investmentShares := investmentShares s;
     investmentAverageCost := investmentAverageCost s; crimeRate := v;
     security := security s; pollutionLevel := pollutionLevel s;
     windDirection := windDirection s; windSpeed := windSpeed s;
     currentGoal := currentGoal s; unlockedGridSize := unlockedGridSize s;
     research := research s; activePlanet := activePlanet s |}.
Definition set_security (v : Q) (s : CityStats) : CityStats :=
  {| money := money s; population := population s; day := day s;
     taxRate := taxRate s; happiness := happiness s;
     education := education s; safety := safety s;
     housingCapacity := housingCapacity s; demographics := demographics s;
     jobs := jobs s; budget := budget s; shadowEconomy := shadowEconomy s;
     supplyLevel := supplyLevel s; loanPrincipal := loanPrincipal s;
     loanInterestRate := loanInterestRate s; activeEvent := activeEvent s;
     eventDuration := eventDuration s; sharePrice := sharePrice s;
     investmentShares := investmentShares s;
     investmentAverageCost := investmentAverageCost s;
     crimeRate := crimeRate s; security := v;
     pollutionLevel := pollutionLevel s; windDirection := windDirection s;
     windSpeed := windSpeed s; currentGoal := currentGoal s;
     unlockedGridSize := unlockedGridSize s; research := research s;
     activePlanet := activePlanet s |}.
Definition set_pollutionLevel (v : Q) (s : CityStats) : CityStats :=
  {| money := money s; population := population s; day := day s;
     taxRate := taxRate s; happiness := happiness s;
     education := education s; safety := safety s;
     housingCapacity := housingCapacity s; demographics := demographics s;
     jobs := jobs s; budget := budget s; shadowEconomy := shadowEconomy s;
     supplyLevel := supplyLevel s; loanPrincipal := loanPrincipal s;
     loanInterestRate := loanInterestRate s; activeEvent := activeEvent s;
     eventDuration := eventDuration s; sharePrice := sharePrice s;
     investmentShares := investmentShares s;
     investmentAverageCost := investmentAverageCost s;
     crimeRate := crimeRate s; security := security s; pollutionLevel := v;
     windDirection := windDirection s; windSpeed := windSpeed s;
     currentGoal := currentGoal s; unlockedGridSize := unlockedGridSize s;
     research := research s; activePlanet := activePlanet s |}.
Definition set_windDirection (v : Vec2) (s : CityStats) : CityStats :=
  {| money := money s; population := population s; day := day s;
     taxRate := taxRate s; happiness := happiness s;
     education := education s; safety := safety s;
     housingCapacity := housingCapacity s; demographics := demographics s;
     jobs := jobs s; budget := budget s; shadowEconomy := shadowEconomy s;
     supplyLevel := supplyLevel s; loanPrincipal := loanPrincipal s;
     loanInterestRate := loanInterestRate s; activeEvent := activeEvent s;
     eventDuration := eventDuration s; sharePrice := sharePrice s;
     investmentShares := investmentShares s;
     investmentAverageCost := investmentAverageCost s;
     crimeRate := crimeRate s; security := security s;
     pollutionLevel := pollutionLevel s; windDirection := v;
     windSpeed := windSpeed s; currentGoal := currentGoal s;
     unlockedGridSize := unlockedGridSize s; research := research s;
     activePlanet := activePlanet s |}.
Definition set_windSpeed (v : Q) (s : CityStats) : CityStats :=
  {| money := money s; population := population s; day := day s;
     taxRate := taxRate s; happiness := happiness s;
     education := education s; safety := safety s;
     housingCapacity := housingCapacity s; demographics := demographics s;
     jobs := jobs s; budget := budget s; shadowEconomy := shadowEconomy s;
     supplyLevel := supplyLevel s; loanPrincipal := loanPrincipal s;
     loanInterestRate := loanInterestRate s; activeEvent := activeEvent s;
     eventDuration := eventDuration s; sharePrice := sharePrice s;
     investmentShares := investmentShares s;
     investmentAverageCost := investmentAverageCost s;
     crimeRate := crimeRate s; security := security s;
     pollutionLevel := pollutionLevel s; windDirection := windDirection s;
     windSpeed := v; currentGoal := currentGoal s;
     unlockedGridSize := unlockedGridSize s; research := research s;
     activePlanet := activePlanet s |}.
Definition set_research (v : Research) (s : CityStats) : CityStats :=
  {| money := money s; population := population s; day := day s;
     taxRate := taxRate s; happiness := happiness s;
     education := education s; safety := safety s;
     housingCapacity := housingCapacity s; demographics := demographics s;
     jobs := jobs s; budget := budget s; shadowEconomy := shadowEconomy s;
     supplyLevel := supplyLevel s; loanPrincipal := loanPrincipal s;
     loanInterestRate := loanInterestRate s; activeEvent := activeEvent s;
     eventDuration := eventDuration s; sharePrice := sharePrice s;
     investmentShares := investmentShares s;
     investmentAverageCost := investmentAverageCost s;
     crimeRate := crimeRate s; security := security s;
     pollutionLevel := pollutionLevel s; windDirection := windDirection s;
     windSpeed := windSpeed s; currentGoal := currentGoal s;
     unlockedGridSize := unlockedGridSize s; research := v;
     activePlanet := activePlanet s |}.

(** ** constants.tsx *)

Definition GRID_SIZE : Z := 45.

Definition mkConfig (t : BuildingType.t) (c : Q) (n : string) (pop inc : Q)
    (cr pol mx : option Q) : BuildingConfig :=
  {| type := t; cost := c; name := n; popGen := pop; incomeGen := inc;
     crime := cr; pollution := pol; maxAllowed := mx |}.

(** The catalog, lines 9-225.  Its last row, line 216, is keyed by
    [BuildingType.ResearchCentre]. *)
Definition BUILDINGS (t : BuildingType.t) : BuildingConfig :=
  match t with
  | BuildingType.None => mkConfig t 0 "Bulldoze" 0 0 None None None
  | BuildingType.Road => mkConfig t 10 "Road" 0 0 None None None
  | BuildingType.Residential => mkConfig t 200 "House" 10 0 None None None
  | BuildingType.Commercial => mkConfig t 200 "Shop" 0 15 None None None
  | BuildingType.Industrial =>
      mkConfig t 400 "Factory" 0 40 (Some 5) (Some 15) None
  | BuildingType.Park => mkConfig t 50 "Park" 1 0 None (Some (-10)) None
  | BuildingType.School => mkConfig t 500 "School" 0 (-10) (Some (-2)) None None
  | BuildingType.Hospital => mkConfig t 1000 "Hospital" 0 (-20) None None None
  | BuildingType.Police => mkConfig t 400 "Police" 0 (-10) (Some (-25)) None None
  | BuildingType.FireStation =>
      mkConfig t 450 "Fire Stn" 0 (-15) (Some (-5)) None None
  | BuildingType.GoldMine =>
      mkConfig t 1500 "Gold Mine" 0 600 (Some 0) (Some 10) None
  | BuildingType.Apartment => mkConfig t 100 "Flat" 2 0 (Some 2) None None
  | BuildingType.Mansion => mkConfig t 1000 "Mansion" 25 0 (Some (-5)) None None
  | BuildingType.Water => mkConfig t 0 "Water" 0 0 None None None
  | BuildingType.Bridge => mkConfig t 150 "Bridge" 0 0 None None None
  | BuildingType.Casino =>
      mkConfig t 3000 "Neon Casino" 0 300 (Some 30) None None
  | BuildingType.MegaMall =>
      mkConfig t 12000 "Mega Mall" 0 400 (Some 10) (Some 5) (Some 1)
  | BuildingType.SpacePort =>
      mkConfig t 250000 "Space Port" 0 5000 (Some 5) None (Some 1)
  | BuildingType.University =>
      mkConfig t 8000 "University" 0 (-100) (Some (-10)) None (Some 1)
  | BuildingType.Stadium =>
      mkConfig t 14000 "Stadium" 0 100 (Some 15) None (Some 1)
  | BuildingType.ResearchCentre =>
      mkConfig t 10000 "Research Lab" 0 (-5) None None (Some 1)
  end.

(** ** App.tsx: the action gate [performAction]

    The component state is the pair (grid, stats); [gridRef] and
    [statsRef] mirror it.  [setGrid g] publishes a grid, [setStats f]
    applies the updater [f] to the current stats. *)

Record AppState := { grid : Grid; stats : CityStats }.

Definition setGrid (g : Grid) (st : AppState) : AppState :=
  {| grid := g; stats := stats st |}.
Definition setStats (f : CityStats -> CityStats) (st : AppState) : AppState :=
  {| grid := grid st; stats := f (stats st) |}.

Definition set_isResearchCentreBuilt (b : bool) (r : Research) : Research :=
  {| landExpansionLevel := landExpansionLevel r; isResearchCentreBuilt := b;
     isMarsDiscovered := isMarsDiscovered r; nauticalLevel := nauticalLevel r |}.

(** [x < 0 || x >= GRID_SIZE || y < 0 || y >= GRID_SIZE] *)
Definition offGrid (x y : Z) : bool :=
  ((x <? 0) || (x >=? GRID_SIZE) || (y <? 0) || (y >=? GRID_SIZE))%Z.

(** The result is [None] when the code throws (on a grid that is smaller
    than [GRID_SIZE]: [currentGrid[y][x]] throws when the row is missing,
    and gives [undefined] when the row is there and the tile is not, on
    which the first read of [currentTile.buildingType] throws); otherwise
    the returned boolean and the state after the queued
    [setGrid]/[setStats] calls. *)

(** src/Axiom City/App.tsx, lines 229-303 *)
Module App.
Definition performAction (st : AppState) (action : string)
    (type : option BuildingType.t) (x y : Z) : option (bool * AppState) :=
  let currentGrid := grid st in
  let currentStats := stats st in
  if offGrid x y then Some (false, st) else
  let center := Math_floor (inject_Z GRID_SIZE / 2) in
  let halfSize := Math_floor (unlockedGridSize currentStats / 2) in
  let minBounds := center - halfSize in
  let maxBounds := center + halfSize in
  let isOutOfBounds :=
    Qltb (inject_Z x) minBounds || Qgtb (inject_Z x) maxBounds
    || Qltb (inject_Z y) minBounds || Qgtb (inject_Z y) maxBounds in
  if String.eqb action "BUILD" && isOutOfBounds then Some (false, st) else
  currentRow ← currentGrid !! Z.to_nat y;
  let currentTile := currentRow !! Z.to_nat x in
  if String.eqb action "DEMOLISH" then
    currentTile ← currentTile;
    let here := Tile.buildingType currentTile in
    if negb (BuildingType.eqb here BuildingType.None)
       && negb (BuildingType.eqb here BuildingType.Water) then
      let replacementType :=
        if BuildingType.eqb here BuildingType.Bridge
        then BuildingType.Water else BuildingType.None in
      let st :=
        if BuildingType.eqb here BuildingType.ResearchCentre
        then setStats (fun prev =>
               set_research (set_isResearchCentreBuilt false (research prev)) prev) st
        else st in
      let newGrid :=
        setTile currentGrid (Z.to_nat y) (Z.to_nat x)
          (Tile.set_buildingType replacementType currentTile) in
      let st := setGrid newGrid st in
      let demolishCost := 5 in
      let st := setStats (fun prev => set_money (money prev - demolishCost) prev) st in
      Some (true, st)
    else Some (false, st)
  else
    match type with
    | Some type =>
      if String.eqb action "BUILD" then
        let config := BUILDINGS type in
        currentTile ← currentTile;
        let here := Tile.buildingType currentTile in
        let isWater := BuildingType.eqb here BuildingType.Water in
        let isBridge := BuildingType.eqb type BuildingType.Bridge in
        if isWater && negb isBridge then Some (false, st) else
        if negb isWater && isBridge then Some (false, st) else
        let isEmpty := BuildingType.eqb here BuildingType.None
                       || BuildingType.eqb here BuildingType.Water in
        if isEmpty then
          if Qgeb (money currentStats) (cost config) then
            let newGrid :=
              setTile currentGrid (Z.to_nat y) (Z.to_nat x)
                (Tile.set_buildingType type currentTile) in
            let st := setGrid newGrid st in
            let st := setStats (fun prev =>
              let newResearch := research prev in
              let newResearch :=
                if BuildingType.eqb type BuildingType.ResearchCentre
                then set_isResearchCentreBuilt true newResearch
                else newResearch in
              set_research newResearch (set_money (money prev - cost config) prev)) st in
            Some (true, st)
          else Some (false, st)
        else Some (false, st)
      else Some (false, st)
    | None => Some (false, st)
    end.
End App.

(** src/unnamed/part_001, lines 212-257: the same gate before fog-of-war
    and research were added. *)
Module AppLegacy.
Definition performAction (st : AppState) (action : string)
    (type : option BuildingType.t) (x y : Z) : option (bool * AppState) :=
  let currentGrid := grid st in
  let currentStats := stats st in
  if offGrid x y then Some (false, st) else
  currentRow ← currentGrid !! Z.to_nat y;
  let currentTile := currentRow !! Z.to_nat x in
  if String.eqb action "DEMOLISH" then
    currentTile ← currentTile;
    let here := Tile.buildingType currentTile in
    if negb (BuildingType.eqb here BuildingType.None)
       && negb (BuildingType.eqb here BuildingType.Water) then
      let replacementType :=
        if BuildingType.eqb here BuildingType.Bridge
        then BuildingType.Water else BuildingType.None in
      let newGrid :=
        setTile currentGrid (Z.to_nat y) (Z.to_nat x)
          (Tile.set_buildingType replacementType currentTile) in
      let st := setGrid newGrid st in
      let demolishCost := 5 in
      let st := setStats (fun prev => set_money (money prev - demolishCost) prev) st in
      Some (true, st)
    else Some (false, st)
  else
    match type with
    | Some type =>
      if String.eqb action "BUILD" then
        let config := BUILDINGS type in
        currentTile ← currentTile;
        let here := Tile.buildingType currentTile in
        let isWater := BuildingType.eqb here BuildingType.Water in
        let isBridge := BuildingType.eqb type BuildingType.Bridge in
        if isWater && negb isBridge then Some (false, st) else
        if negb isWater && isBridge then Some (false, st) else
        let isEmpty := BuildingType.eqb here BuildingType.None
                       || BuildingType.eqb here BuildingType.Water in
        if isEmpty then
          if Qgeb (money currentStats) (cost config) then
            let newGrid :=
              setTile currentGrid (Z.to_nat y) (Z.to_nat x)
                (Tile.set_buildingType type currentTile) in
            let st := setGrid newGrid st in
            let st := setStats (fun prev => set_money (money prev - cost config) prev) st in
            Some (true, st)
          else Some (false, st)
        else Some (false, st)
      else Some (false, st)
    | None => Some (false, st)
    end.
End AppLegacy.

(** ** services/localAiService.ts (appended to constants.tsx, lines 227-666)

    The proposer is reached through [fetch].  What the outside world does
    at the [i]-th attempt of a call is an [Attempt]; the prompt only
    travels outwards and is not modelled, and neither is the logging. *)

#[local] Unset Elimination Schemes.
Inductive Json :=
| JNull
| JBool (b : bool)
| JNum (q : Q)
| JStr (s : string)
| JArr (items : list Json)
| JObj (fields : list (string * Json)).
#[local] Set Elimination Schemes.

(** [o.k] for a parsed value; [None] is [undefined]. *)
Definition field (k : string) (o : Json) : option Json :=
  match o with
  | JObj fields => snd <$> List.find (fun kv => String.eqb (fst kv) k) fields
  | _ => None
  end.

Inductive Attempt :=
| FetchRejects
    (* network failure, or the abort fired by the 5 minute timer *)
| NotOk (status : Z) (errorText : option string)
    (* [response.ok] is false; [None]: reading the body rejects *)
| Ok (content : option (option string)).
    (* [None]: [response.json()] rejects or [choices[0].message] is
       missing; [Some None]: the content is [undefined] or [null] *)

Definition MAX_RETRIES : nat := 1.

(** The loop [for (let i = 0; i <= MAX_RETRIES; i++)] with [n] iterations
    left; the result is the returned string, [None] for [null]. *)
Fixpoint callLocalAI_from (n i : nat) (net : nat -> Attempt) : option string :=
  match n with
  | O => None
  | S n' =>
    match net i with
    | FetchRejects | NotOk _ None | Ok None =>
        (* catch (e) *)
        if (i <? MAX_RETRIES)%nat then callLocalAI_from n' (S i) net else None
    | NotOk status (Some errorText) =>
        if (status >=? 500)%Z && (i <? MAX_RETRIES)%nat
        then callLocalAI_from n' (S i) net else None
    | Ok (Some content) => content
    end
  end.

Definition callLocalAI (net : nat -> Attempt) : option string :=
  callLocalAI_from (S MAX_RETRIES) 0 net.

Definition mockGameAction (stats : CityStats) : Json :=
  JObj [("action", JStr "WAIT"); ("buildingType", JNull);
        ("x", JNum 0); ("y", JNum 0);
        ("reasoning", JStr "AI is offline (Mock Mode). Holding position.")]%string.

(** Index of the last occurrence of [c]. *)
Fixpoint last_index (c : ascii) (s : string) : option nat :=
  match s with
  | EmptyString => None
  | String a s' =>
      match last_index c s' with
      | Some i => Some (S i)
      | None => if Ascii.eqb a c then Some O else None
      end
  end.

(** [content.match(/\{[\s\S]*\}/)]: the text from the first opening
    brace to the last closing brace after it. *)
Definition matchBraces (content : string) : option string :=
  i ← String.index 0 "{" content;
  let rest := String.substring i (String.length content - i) content in
  j ← last_index "}" rest;
  Some (String.substring 0 (S j) rest).

Definition is_integer (q : Q) : bool := Qeq_bool q (inject_Z (Qfloor q)).

(** [None] stands for the TypeError of reading through [undefined]. *)
Definition targetTileOf (grid : Grid) (x y : Q) : option Tile.t :=
  if is_integer x && is_integer y
  then tileAt grid (Z.to_nat (Qfloor y)) (Z.to_nat (Qfloor x))
  else None.

Definition blockedAction (x y : Q) : Json :=
  JObj [("action", JStr "WAIT"); ("buildingType", JNull);
        ("x", JNum 0); ("y", JNum 0);
        ("reasoning", JStr "Surveyors found site occupied. Conserving funds.");
        ("failedAttempt", JObj [("x", JNum x); ("y", JNum y)])]%string.

(** The enforcement layer, lines 555-578; [None] is an exception, which
    the caller catches. *)
Definition enforce (grid : Grid) (action : Json) : option Json :=
  match field "action" action with
  | Some (JStr a) =>
    if String.eqb a "BUILD" then
      match field "x" action, field "y" action with
      | Some (JNum x), Some (JNum y) =>
        if Qle_bool 0 x then
          row0 ← grid !! 0%nat;
          if Qltb x (inject_Z (Z.of_nat (length row0))) && Qle_bool 0 y
             && Qltb y (inject_Z (Z.of_nat (length grid)))
          then
            targetTile ← targetTileOf grid x y;
            if negb (BuildingType.eqb (Tile.buildingType targetTile) BuildingType.None)
            then Some (blockedAction x y)
            else Some action
          else Some action
        else Some action
      | _, _ => Some action
      end
    else Some action
  | _ => Some action
  end.

Definition generateGameAction (JSON_parse : string -> option Json)
    (net : nat -> Attempt) (stats : CityStats) (grid : Grid)
    (recentFailures : list (Q * Q)) : Json :=
  match callLocalAI net with
  | None | Some EmptyString => mockGameAction stats
  | Some content =>
    match matchBraces content with
    | None => mockGameAction stats
    | Some jsonStr =>
      match JSON_parse jsonStr ≫= enforce grid with
      | Some action => action
      | None => mockGameAction stats
      end
    end
  end.

(** ** The heap of nested stats objects *)

Inductive Obj :=
| ODemographics (d : Demographics)
| OJobs (j : Jobs)
| OBudget (b : Budget).

Abbreviation Heap := (gmap loc Obj).

(** Computations that read and write the heap; [None] is an exception
    (reading a field through a reference that is not an object of the
    expected shape). *)
Definition M (A : Type) : Type := Heap -> option (A * Heap).

#[global] Instance M_ret : MRet M := fun A a h => Some (a, h).
#[global] Instance M_bind : MBind M := fun A B k m h =>
  match m h with
  | Some (a, h') => k a h'
  | None => None
  end.

(** An object literal: a new object at a location not in use. *)
Definition alloc (o : Obj) : M loc := fun h =>
  let l := fresh (dom h) in Some (l, <[l := o]> h).

(** [stats.demographics.f] *)
Definition getD {A} (l : loc) (f : Demographics -> A) : M A := fun h =>
  match h !! l with
  | Some (ODemographics d) => Some (f d, h)
  | _ => None
  end.

(** [stats.demographics.f = ...] *)
Definition updD (l : loc) (f : Demographics -> Demographics) : M unit := fun h =>
  match h !! l with
  | Some (ODemographics d) => Some (tt, <[l := ODemographics (f d)]> h)
  | _ => None
  end.

(** [stats.budget.f = ...] *)
Definition updB (l : loc) (f : Budget -> Budget) : M unit := fun h =>
  match h !! l with
  | Some (OBudget b) => Some (tt, <[l := OBudget (f b)]> h)
  | _ => None
  end.

Definition set_children (v : Q) (d : Demographics) : Demographics :=
  {| children := v; adults := adults d; seniors := seniors d |}.
Definition set_adults (v : Q) (d : Demographics) : Demographics :=
  {| children := children d; adults := v; seniors := seniors d |}.
Definition set_seniors (v : Q) (d : Demographics) : Demographics :=
  {| children := children d; adults := adults d; seniors := v |}.
Definition set_expenses (v : Q) (b : Budget) : Budget :=
  {| income := income b; expenses := v; details := details b;
     lastMonthProfit := lastMonthProfit b |}.

(** A stats record as a value: the record with its nested objects read
    from the heap. *)
Record StatsView := {
  fields : CityStats;
  demographicsOf : option Obj;
  jobsOf : option Obj;
  budgetOf : option Obj
}.

Definition view (h : Heap) (s : CityStats) : StatsView :=
  {| fields := s;
     demographicsOf := h !! demographics s;
     jobsOf := h !! jobs s;
     budgetOf := h !! budget s |}.

(** The heap of [INITIAL_STATS]. *)
Definition INITIAL_HEAP : Heap :=
  <[0%nat := ODemographics {| children := 0; adults := 0; seniors := 0 |}]>
  (<[1%nat := OJobs {| commercial := 0; industrial := 0; total := 0; unemployment := 0 |}]>
  (<[2%nat := OBudget {| income := 0; expenses := 0;
                         details := {| tax := 0; business := 0; services := 0; welfare := 0 |};
                         lastMonthProfit := None |}]> ∅)).

(** ** Loops over indices

    A loop body run for each index of a list of indices, until one
    throws. *)
Definition forEachIndex {S} (body : nat -> S -> option S) (indices : list nat)
    (s : S) : option S :=
  fold_left (fun acc i => acc ≫= body i) indices (Some s).

(** ** utils/simulation.ts: [updateSimulation]

    The locals of the census loop. *)

Module Tally.
Record t := {
  schools : Q; hospitals : Q; police : Q; parks : Q; universities : Q;
  housingCapacity : Q; serviceUpkeep : Q;
  commJobs : Q; indJobs : Q;
  rawCrime : Q; rawPollution : Q
}.

Definition zero : t :=
  {| schools := 0; hospitals := 0; police := 0; parks := 0; universities := 0;
     housingCapacity := 0; serviceUpkeep := 0; commJobs := 0; indJobs := 0;
     rawCrime := 0; rawPollution := 0 |}.
End Tally.

(** [if (c) v += d] *)
Definition addIf (c : bool) (d v : Q) : Q := if c then v + d else v.

(** The locals that the later sections of [updateSimulation] read. *)
Record Economy := {
  unemploymentOf : Q;
  totalJobsOf : Q;
  tallyOf : Tally.t
}.

(** src/Axiom City/utils/simulation.ts *)
Module Sim.

(** Lines 70-98: the body of the census loop for one tile. *)
Definition censusTile (acc : Tally.t * CityStats) (tile : Tile.t)
    : Tally.t * CityStats :=
  let '(a, newStats) := acc in
  let isa := BuildingType.eqb (Tile.buildingType tile) in
  let schools := addIf (isa BuildingType.School) 1 (Tally.schools a) in
  let hospitals := addIf (isa BuildingType.Hospital) 1 (Tally.hospitals a) in
  let police := addIf (isa BuildingType.Police) 1 (Tally.police a) in
  let parks := addIf (isa BuildingType.Park) 1 (Tally.parks a) in
  let occupied := negb (isa BuildingType.None) in
  let serviceUpkeep := Tally.serviceUpkeep a in
  let serviceUpkeep := addIf (occupied && isa BuildingType.School) 10 serviceUpkeep in
  let serviceUpkeep := addIf (occupied && isa BuildingType.Hospital) 20 serviceUpkeep in
  let serviceUpkeep := addIf (occupied && isa BuildingType.Police) 15 serviceUpkeep in
  let serviceUpkeep := addIf (occupied && isa BuildingType.FireStation) 15 serviceUpkeep in
  let config := BUILDINGS (Tile.buildingType tile) in
  let newStats :=
    if occupied && negb (Qeq_bool (incomeGen config) 0)
    then set_money (money newStats + incomeGen config) newStats
    else newStats in
  let housingCapacity :=
    addIf (occupied && Qgtb (popGen config) 0) (popGen config)
      (Tally.housingCapacity a) in
  let rawCrime :=
    addIf (occupied && truthy (crime config)) (or0 (crime config)) (Tally.rawCrime a) in
  let rawPollution :=
    addIf (occupied && truthy (pollution config)) (or0 (pollution config))
      (Tally.rawPollution a) in
  let commJobs := addIf (isa BuildingType.Commercial) 5 (Tally.commJobs a) in
  let indJobs := addIf (isa BuildingType.Industrial) 8 (Tally.indJobs a) in
  ({| Tally.schools := schools; Tally.hospitals := hospitals;
      Tally.police := police; Tally.parks := parks;
      Tally.universities := Tally.universities a;
      Tally.housingCapacity := housingCapacity;
      Tally.serviceUpkeep := serviceUpkeep;
      Tally.commJobs := commJobs; Tally.indJobs := indJobs;
      Tally.rawCrime := rawCrime; Tally.rawPollution := rawPollution |},
   newStats).

(** [grid.forEach(row => row.forEach(tile => ...))] *)
Definition census (grid : Grid) (newStats : CityStats) : Tally.t * CityStats :=
  fold_left (fun acc row => fold_left censusTile row acc) grid (Tally.zero, newStats).

(** Lines 106-128: crime, pollution, security, education and safety. *)
Definition gauges (a : Tally.t) (newStats : CityStats) : CityStats :=
  let newStats := set_crimeRate (Math_max 0 (Tally.rawCrime a)) newStats in
  let newStats := set_pollutionLevel (Math_max 0 (Tally.rawPollution a)) newStats in
  let newStats := set_security (Math_max 0 (100 - crimeRate newStats)) newStats in
  let educationLevel := Math_min 100 (Tally.schools a * 15) in
  let safetyLevel := Math_max 0 (100 - crimeRate newStats * 2) in
  let newStats := set_education educationLevel newStats in
  let newStats := set_safety safetyLevel newStats in
  newStats.

(** Lines 130-173: births, immigration, aging and deaths, written into
    the demographics object of [newStats]. *)
Definition populationDynamics (a : Tally.t) (newStats : CityStats) : M CityStats :=
  let D := demographics newStats in
  let housingCapacity := Tally.housingCapacity a in
  let happinessFactor := happiness newStats / 100 in
  children0 ← getD D children;
  let schoolFactor := 1 + (Tally.schools a * 50) / (Math_max 1 children0 + 1) in
  adults0 ← getD D adults;
  seniors0 ← getD D seniors;
  let totalPop := children0 + adults0 + seniors0 in
  _ ← (if Qltb totalPop housingCapacity then
         let birthChance := 0.02 * happinessFactor in
         let births := Math_floor (adults0 * birthChance) in
         _ ← updD D (fun d => set_children (children d + births) d);
         if Qltb totalPop 50 then
           updD D (fun d => set_adults (adults d + 2) d)
         else if Qltb totalPop (housingCapacity * 0.5) then
           updD D (fun d => set_adults (adults d + 1) d)
         else mret tt
       else mret tt);
  let ageUpChildChance := 0.05 * schoolFactor in
  let ageUpAdultChance := 0.02 in
  let deathChance := 0.05 / (1 + Tally.hospitals a) in
  children1 ← getD D children;
  let agingChildren := Math_floor (children1 * ageUpChildChance) in
  _ ← updD D (fun d => set_children (children d - agingChildren) d);
  _ ← updD D (fun d => set_adults (adults d + agingChildren) d);
  adults1 ← getD D adults;
  let agingAdults := Math_floor (adults1 * ageUpAdultChance) in
  _ ← updD D (fun d => set_adults (adults d - agingAdults) d);
  _ ← updD D (fun d => set_seniors (seniors d + agingAdults) d);
  let crimeDeathFactor := if Qgtb (crimeRate newStats) 50 then 0.05 else 0 in
  seniors1 ← getD D seniors;
  let deaths := Math_floor (seniors1 * (deathChance + crimeDeathFactor)) in
  _ ← updD D (fun d => set_seniors (Math_max 0 (seniors d - deaths)) d);
  d ← getD D id;
  mret (set_population (children d + adults d + seniors d) newStats).

(** Lines 191-196. *)
Definition eventDecay (newStats : CityStats) : CityStats :=
  if negb (EconomicEvent.eqb (activeEvent newStats) EconomicEvent.None) then
    let newStats := set_eventDuration (eventDuration newStats - 1) newStats in
    if Qle_bool (eventDuration newStats) 0
    then set_activeEvent EconomicEvent.None newStats
    else newStats
  else newStats.

(** Lines 180-251: jobs, welfare, the event countdown, the share price,
    revenue and expenses; the budget object is a new one. *)
Definition economy (host : Host) (random : Q) (a : Tally.t) (newStats : CityStats)
    : M (Economy * CityStats) :=
  let D := demographics newStats in
  let totalJobs := Tally.commJobs a + Tally.indJobs a in
  adults1 ← getD D adults;
  let unemployment := Math_max 0 (adults1 - totalJobs) in
  let welfareCost := unemployment * 2 in
  let newStats := eventDecay newStats in
  let marketTrend :=
    if EconomicEvent.eqb (activeEvent newStats) EconomicEvent.Boom then 1.05
    else if EconomicEvent.eqb (activeEvent newStats) EconomicEvent.Recession then 0.95
    else 1.0 in
  let volatility := random * 0.1 - 0.05 in
  let newStats :=
    set_sharePrice
      (Math_max 1 (Math_floor (sharePrice newStats * (1 + volatility) * marketTrend)))
      newStats in
  let bureaucracyCost := Math_floor (Math_pow host (population newStats) 1.1 * 0.1) in
  let serviceUpkeep := Tally.serviceUpkeep a + bureaucracyCost in
  let supplyPenalty := 1 - (1 - supplyLevel newStats) in
  let taxEfficiency := 1 - shadowEconomy newStats * 0.5 in
  let revenueMultiplier := 1.0 in
  let revenueMultiplier :=
    if EconomicEvent.eqb (activeEvent newStats) EconomicEvent.Boom then 1.5
    else revenueMultiplier in
  let revenueMultiplier :=
    if EconomicEvent.eqb (activeEvent newStats) EconomicEvent.Recession then 0.7
    else revenueMultiplier in
  let revenueMultiplier :=
    if EconomicEvent.eqb (activeEvent newStats) EconomicEvent.Strike then 0.2
    else revenueMultiplier in
  let taxRevenue :=
    Math_floor (adults1 * 5 * taxRate newStats * taxEfficiency * revenueMultiplier) in
  let businessRevenue :=
    Math_floor (Math_min totalJobs adults1 * 2 * taxRate newStats * supplyPenalty
                * revenueMultiplier) in
  let totalIncome := taxRevenue + businessRevenue in
  let theftLoss :=
    if Qgtb (crimeRate newStats) 20
    then Math_floor ((crimeRate newStats - 20) * 5) else 0 in
  let totalExpenses := serviceUpkeep + welfareCost + theftLoss in
  let newStats := set_money (money newStats + (totalIncome - totalExpenses)) newStats in
  B ← alloc (OBudget
       {| income := totalIncome; expenses := totalExpenses;
          details := {| tax := taxRevenue; business := businessRevenue;
                        services := serviceUpkeep; welfare := welfareCost |};
          lastMonthProfit := Some (totalIncome - totalExpenses) |});
  let newStats := set_budget B newStats in
  mret ({| unemploymentOf := unemployment; totalJobsOf := totalJobs; tallyOf := a |},
        newStats).

(** Lines 254-265: the debt spiral.  The constant [maintenanceMultiplier]
    of line 255 is never read. *)
Definition debtSpiral (newStats : CityStats) : M CityStats :=
  if Qltb (money newStats) 0 then
    let debtService := Math_abs (money newStats) * 0.01 in
    let newStats := set_money (money newStats - Math_floor debtService) newStats in
    _ ← updB (budget newStats) (fun b => set_expenses (expenses b + Math_floor debtService) b);
    let newStats := set_happiness (happiness newStats - 5) newStats in
    mret newStats
  else mret newStats.

(** Lines 267-272: the jobs object is a new one. *)
Definition publishJobs (e : Economy) (newStats : CityStats) : M CityStats :=
  J ← alloc (OJobs {| commercial := Tally.commJobs (tallyOf e);
                      industrial := Tally.indJobs (tallyOf e);
                      total := totalJobsOf e;
                      unemployment := unemploymentOf e |});
  mret (set_jobs J newStats).

(** Lines 288-295: pollution summed over the residential tiles, and
    their number. *)
Definition residentialTile (acc : Q * Q) (tile : Tile.t) : Q * Q :=
  let '(totalResPollution, resCount) := acc in
  let isa := BuildingType.eqb (Tile.buildingType tile) in
  if isa BuildingType.Residential || isa BuildingType.Apartment || isa BuildingType.Mansion
  then (totalResPollution + or0 (Tile.pollution tile), resCount + 1)
  else acc.

(** Lines 275-321: [baseHappiness] just before it is clamped. *)
Definition baseHappinessOf (e : Economy) (grid : Grid) (newStats : CityStats) : Q :=
  let baseHappiness := 100 in
  let baseHappiness := baseHappiness - taxRate newStats * 200 in
  let baseHappiness := baseHappiness + Math_min 20 (Tally.parks (tallyOf e) * 2) in
  let baseHappiness :=
    if Qgtb (pollutionLevel newStats) 20
    then baseHappiness - (pollutionLevel newStats - 20) else baseHappiness in
  let '(totalResPollution, resCount) :=
    fold_left (fun acc row => fold_left residentialTile row acc) grid (0, 0) in
  let baseHappiness :=
    if Qgtb resCount 0 then
      let avgResPollution := totalResPollution / resCount in
      if Qgtb avgResPollution 10 then baseHappiness - avgResPollution * 2
      else baseHappiness
    else baseHappiness in
  let unempPenalty := (unemploymentOf e * 0.5) * (1 - shadowEconomy newStats) in
  let baseHappiness := baseHappiness - unempPenalty in
  let baseHappiness :=
    if Qltb (supplyLevel newStats) 0.8
    then baseHappiness - (1 - supplyLevel newStats) * 20 else baseHappiness in
  let baseHappiness :=
    if EconomicEvent.eqb (activeEvent newStats) EconomicEvent.Boom
    then baseHappiness + 10 else baseHappiness in
  let baseHappiness :=
    if EconomicEvent.eqb (activeEvent newStats) EconomicEvent.Recession
    then baseHappiness - 10 else baseHappiness in
  let baseHappiness :=
    if EconomicEvent.eqb (activeEvent newStats) EconomicEvent.Strike
    then baseHappiness - 20 else baseHappiness in
  let baseHappiness := baseHappiness - crimeRate newStats * 0.5 in
  baseHappiness.

(** Line 323.  The clamp is over exact numbers.  In the code
    [Math.floor], [Math.min] and [Math.max] hand a NaN on, and
    [baseHappiness] is NaN when two of its terms overflow to opposite
    infinities; the statements on the happiness are therefore made for
    inputs in the numeric range ([statsInRange], [gridInRange]), where
    every term is a finite double. *)
Definition happinessStep (e : Economy) (grid : Grid) (newStats : CityStats) : CityStats :=
  set_happiness
    (Math_max 0 (Math_min 100 (Math_floor (baseHappinessOf e grid newStats))))
    newStats.

(** Lines 51-251: the step up to the point where income and expenses
    have been applied to the money. *)
Definition beforeDebtSpiral (host : Host) (random : Q)
    (currentStats : CityStats) (grid : Grid) : M (Economy * CityStats) :=
  let newStats := currentStats in
  let newStats := set_day (day newStats + 1) newStats in
  let '(a, newStats) := census grid newStats in
  let newStats := set_housingCapacity (Tally.housingCapacity a) newStats in
  let newStats := gauges a newStats in
  newStats ← populationDynamics a newStats;
  economy host random a newStats.

(** Lines 51-326. *)
Definition updateSimulation (host : Host) (random : Q)
    (currentStats : CityStats) (grid : Grid) : M CityStats :=
  '(e, newStats) ← beforeDebtSpiral host random currentStats grid;
  newStats ← debtSpiral newStats;
  newStats ← publishJobs e newStats;
  mret (happinessStep e grid newStats).

(** The step as the debt spiral would be without its happiness
    decrement (line 264 removed). *)
Definition debtSpiral_noHit (newStats : CityStats) : M CityStats :=
  if Qltb (money newStats) 0 then
    let debtService := Math_abs (money newStats) * 0.01 in
    let newStats := set_money (money newStats - Math_floor debtService) newStats in
    _ ← updB (budget newStats) (fun b => set_expenses (expenses b + Math_floor debtService) b);
    mret newStats
  else mret newStats.

Definition updateSimulation_noHit (host : Host) (random : Q)
    (currentStats : CityStats) (grid : Grid) : M CityStats :=
  '(e, newStats) ← beforeDebtSpiral host random currentStats grid;
  newStats ← debtSpiral_noHit newStats;
  newStats ← publishJobs e newStats;
  mret (happinessStep e grid newStats).

End Sim.

(** src/unnamed/part_003: [updateSimulation] with road connectivity,
    universities, stadiums and festivals.  It writes [hasRoadAccess] into
    the tiles of the grid it is given, so the grid is part of the result.
    [None] is the TypeError of reading a tile outside a ragged row. *)
Module SimRoads.

Definition isRoadOrBridge (tile : Tile.t) : bool :=
  BuildingType.eqb (Tile.buildingType tile) BuildingType.Road
  || BuildingType.eqb (Tile.buildingType tile) BuildingType.Bridge.

(** Lines 94-101: the loop over the four neighbours, left at the first
    road. *)
Fixpoint anyRoad (grid : Grid) (neighbors : list (Z * Z)) : option bool :=
  match neighbors with
  | [] => Some false
  | (nx, ny) :: rest =>
      row0 ← grid !! 0%nat;
      if ((ny >=? 0) && (ny <? Z.of_nat (length grid))
          && (nx >=? 0) && (nx <? Z.of_nat (length row0)))%Z
      then
        n ← tileAt grid (Z.to_nat ny) (Z.to_nat nx);
        if isRoadOrBridge n then Some true else anyRoad grid rest
      else anyRoad grid rest
  end.

(** Lines 82-102. *)
Definition connectedTo (grid : Grid) (tile : Tile.t) : option bool :=
  let isa := BuildingType.eqb (Tile.buildingType tile) in
  if isa BuildingType.Road || isa BuildingType.Bridge || isa BuildingType.Water
  then Some true
  else anyRoad grid [(Tile.x tile + 1, Tile.y tile); (Tile.x tile - 1, Tile.y tile);
                     (Tile.x tile, Tile.y tile + 1); (Tile.x tile, Tile.y tile - 1)]%Z.

(** The state of the census loop: the locals, [newStats] and the grid,
    whose tiles the loop writes. *)
Definition CensusState : Type := Tally.t * CityStats * Grid.

(** Lines 71-130: the body of the census loop for the tile at row [yi],
    column [xi]. *)
Definition censusTile (yi xi : nat) (acc : CensusState) : option CensusState :=
  let '(a, newStats, grid) := acc in
  tile ← tileAt grid yi xi;
  let isa := BuildingType.eqb (Tile.buildingType tile) in
  let schools := addIf (isa BuildingType.School) 1 (Tally.schools a) in
  let hospitals := addIf (isa BuildingType.Hospital) 1 (Tally.hospitals a) in
  let police := addIf (isa BuildingType.Police) 1 (Tally.police a) in
  let parks := addIf (isa BuildingType.Park) 1 (Tally.parks a) in
  let universities := addIf (isa BuildingType.University) 1 (Tally.universities a) in
  let commJobs := addIf (isa BuildingType.Commercial) 5 (Tally.commJobs a) in
  let indJobs := addIf (isa BuildingType.Industrial) 8 (Tally.indJobs a) in
  if negb (isa BuildingType.None) then
    connected ← connectedTo grid tile;
    let grid := setTile grid yi xi (Tile.set_hasRoadAccess connected tile) in
    let config := BUILDINGS (Tile.buildingType tile) in
    let income := incomeGen config in
    let income := if negb connected then Math_floor (income * 0.5) else income in
    let newStats :=
      if negb (Qeq_bool income 0) then set_money (money newStats + income) newStats
      else newStats in
    let housingCapacity :=
      addIf (Qgtb (popGen config) 0) (popGen config) (Tally.housingCapacity a) in
    let rawCrime :=
      addIf (truthy (crime config)) (or0 (crime config)) (Tally.rawCrime a) in
    let rawPollution :=
      addIf (truthy (pollution config)) (or0 (pollution config)) (Tally.rawPollution a) in
    Some ({| Tally.schools := schools; Tally.hospitals := hospitals;
             Tally.police := police; Tally.parks := parks;
             Tally.universities := universities;
             Tally.housingCapacity := housingCapacity;
             Tally.serviceUpkeep := Tally.serviceUpkeep a;
             Tally.commJobs := commJobs; Tally.indJobs := indJobs;
             Tally.rawCrime := rawCrime; Tally.rawPollution := rawPollution |},
          newStats, grid)
  else
    Some ({| Tally.schools := schools; Tally.hospitals := hospitals;
             Tally.police := police; Tally.parks := parks;
             Tally.universities := universities;
             Tally.housingCapacity := Tally.housingCapacity a;
             Tally.serviceUpkeep := Tally.serviceUpkeep a;
             Tally.commJobs := commJobs; Tally.indJobs := indJobs;
             Tally.rawCrime := Tally.rawCrime a;
             Tally.rawPollution := Tally.rawPollution a |},
          newStats, grid).

(** [grid.forEach(row => row.forEach(tile => ...))] *)
Definition census (grid : Grid) (newStats : CityStats) : option CensusState :=
  forEachIndex
    (fun yi acc =>
       let '(_, _, g) := acc in
       row ← g !! yi;
       forEachIndex (censusTile yi) (seq 0 (length row)) acc)
    (seq 0 (length grid)) (Tally.zero, newStats, grid).

(** Lines 134-155: the loops over the neighbourhood of a university have
    an empty body; what is left is the education bonus. *)
Definition universityBoost (a : Tally.t) (newStats : CityStats) : CityStats :=
  if Qgtb (Tally.universities a) 0
  then set_education (education newStats + Tally.universities a * 10) newStats
  else newStats.

(** Lines 237-315: as in simulation.ts, with the festival. *)
Definition economy (host : Host) (random : Q) (a : Tally.t) (newStats : CityStats)
    : M (Economy * CityStats) :=
  let D := demographics newStats in
  let totalJobs := Tally.commJobs a + Tally.indJobs a in
  adults1 ← getD D adults;
  let unemployment := Math_max 0 (adults1 - totalJobs) in
  let welfareCost := unemployment * 2 in
  let newStats := Sim.eventDecay newStats in
  let marketTrend :=
    if EconomicEvent.eqb (activeEvent newStats) EconomicEvent.Boom then 1.05
    else if EconomicEvent.eqb (activeEvent newStats) EconomicEvent.Recession then 0.95
    else 1.0 in
  let volatility := random * 0.1 - 0.05 in
  let newStats :=
    set_sharePrice
      (Math_max 1 (Math_floor (sharePrice newStats * (1 + volatility) * marketTrend)))
      newStats in
  let bureaucracyCost := Math_floor (Math_pow host (population newStats) 1.1 * 0.1) in
  let serviceUpkeep := Tally.serviceUpkeep a + bureaucracyCost in
  let serviceUpkeep :=
    if EconomicEvent.eqb (activeEvent newStats) EconomicEvent.Festival
    then serviceUpkeep + (100 + population newStats * 2) else serviceUpkeep in
  let supplyPenalty := 1 - (1 - supplyLevel newStats) in
  let taxEfficiency := 1 - shadowEconomy newStats * 0.5 in
  let revenueMultiplier := 1.0 in
  let revenueMultiplier :=
    if EconomicEvent.eqb (activeEvent newStats) EconomicEvent.Boom then 1.5
    else revenueMultiplier in
  let revenueMultiplier :=
    if EconomicEvent.eqb (activeEvent newStats) EconomicEvent.Recession then 0.7
    else revenueMultiplier in
  let revenueMultiplier :=
    if EconomicEvent.eqb (activeEvent newStats) EconomicEvent.Strike then 0.2
    else revenueMultiplier in
  let revenueMultiplier :=
    if EconomicEvent.eqb (activeEvent newStats) EconomicEvent.Festival then 1.2
    else revenueMultiplier in
  let taxRevenue :=
    Math_floor (adults1 * 5 * taxRate newStats * taxEfficiency * revenueMultiplier) in
  let businessRevenue :=
    Math_floor (Math_min totalJobs adults1 * 2 * taxRate newStats * supplyPenalty
                * revenueMultiplier) in
  let totalIncome := taxRevenue + businessRevenue in
  let theftLoss :=
    if Qgtb (crimeRate newStats) 20
    then Math_floor ((crimeRate newStats - 20) * 5) else 0 in
  let totalExpenses := serviceUpkeep + welfareCost + theftLoss in
  let newStats := set_money (money newStats + (totalIncome - totalExpenses)) newStats in
  B ← alloc (OBudget
       {| income := totalIncome; expenses := totalExpenses;
          details := {| tax := taxRevenue; business := businessRevenue;
                        services := serviceUpkeep; welfare := welfareCost |};
          lastMonthProfit := Some (totalIncome - totalExpenses) |});
  let newStats := set_budget B newStats in
  mret ({| unemploymentOf := unemployment; totalJobsOf := totalJobs; tallyOf := a |},
        newStats).

(** [grid.flat()] *)
Definition flat (grid : Grid) : list Tile.t := concat grid.

Definition countTiles (p : Tile.t -> bool) (tiles : list Tile.t) : Q :=
  fold_left (fun n t => addIf (p t) 1 n) tiles 0.

(** Lines 387-388. *)
Definition unconnected (t : Tile.t) : bool :=
  let isa := BuildingType.eqb (Tile.buildingType t) in
  negb (isa BuildingType.None) && negb (isa BuildingType.Road)
  && negb (isa BuildingType.Water)
  && match Tile.hasRoadAccess t with Some false => true | _ => false end.

(** Lines 339-405: [baseHappiness] just before it is clamped. *)
Definition baseHappinessOf (e : Economy) (grid : Grid) (newStats : CityStats) : Q :=
  let baseHappiness := 100 in
  let baseHappiness := baseHappiness - taxRate newStats * 200 in
  let baseHappiness := baseHappiness + Math_min 20 (Tally.parks (tallyOf e) * 2) in
  let stadiums :=
    countTiles (fun t => BuildingType.eqb (Tile.buildingType t) BuildingType.Stadium)
      (flat grid) in
  let baseHappiness := if Qgtb stadiums 0 then baseHappiness + 15 else baseHappiness in
  let baseHappiness :=
    if Qgtb (pollutionLevel newStats) 20
    then baseHappiness - (pollutionLevel newStats - 20) else baseHappiness in
  let '(totalResPollution, resCount) :=
    fold_left (fun acc row => fold_left Sim.residentialTile row acc) grid (0, 0) in
  let baseHappiness :=
    if Qgtb resCount 0 then
      let avgResPollution := totalResPollution / resCount in
      if Qgtb avgResPollution 10 then baseHappiness - avgResPollution * 2
      else baseHappiness
    else baseHappiness in
  let unempPenalty := (unemploymentOf e * 0.5) * (1 - shadowEconomy newStats) in
  let baseHappiness := baseHappiness - unempPenalty in
  let baseHappiness :=
    if Qltb (supplyLevel newStats) 0.8
    then baseHappiness - (1 - supplyLevel newStats) * 20 else baseHappiness in
  let unconnectedCount := countTiles unconnected (flat grid) in
  let baseHappiness :=
    if Qgtb unconnectedCount 0 then baseHappiness - Math_min 20 unconnectedCount
    else baseHappiness in
  let baseHappiness :=
    if EconomicEvent.eqb (activeEvent newStats) EconomicEvent.Boom
    then baseHappiness + 10 else baseHappiness in
  let baseHappiness :=
    if EconomicEvent.eqb (activeEvent newStats) EconomicEvent.Recession
    then baseHappiness - 10 else baseHappiness in
  let baseHappiness :=
    if EconomicEvent.eqb (activeEvent newStats) EconomicEvent.Strike
    then baseHappiness - 20 else baseHappiness in
  let baseHappiness :=
    if EconomicEvent.eqb (activeEvent newStats) EconomicEvent.Festival
    then baseHappiness + 20 else baseHappiness in
  let baseHappiness := baseHappiness - crimeRate newStats * 0.5 in
  baseHappiness.

(** Line 407.  The clamp is over exact numbers, as in [Sim.happinessStep]:
    the statements on the happiness are made for inputs in the numeric
    range, where no term of [baseHappiness] overflows. *)
Definition happinessStep (e : Economy) (grid : Grid) (newStats : CityStats) : CityStats :=
  set_happiness
    (Math_max 0 (Math_min 100 (Math_floor (baseHappinessOf e grid newStats))))
    newStats.

(** Lines 51-315: the step up to the point where income and expenses
    have been applied to the money.  The section on population (188-231)
    has the text of simulation.ts. *)
Definition beforeDebtSpiral (host : Host) (random : Q)
    (currentStats : CityStats) (grid : Grid) : M (Economy * CityStats * Grid) :=
  let newStats := currentStats in
  let newStats := set_day (day newStats + 1) newStats in
  match census grid newStats with
  | None => fun _ => None
  | Some (a, newStats, grid) =>
    let newStats := set_housingCapacity (Tally.housingCapacity a) newStats in
    let newStats := universityBoost a newStats in
    let newStats := Sim.gauges a newStats in
    newStats ← Sim.populationDynamics a newStats;
    r ← economy host random a newStats;
    mret (r, grid)
  end.

(** Lines 51-410.  The debt spiral (318-329) and the jobs object
    (331-336) have the text of simulation.ts. *)
Definition updateSimulation (host : Host) (random : Q)
    (currentStats : CityStats) (grid : Grid) : M (CityStats * Grid) :=
  '(e, newStats, grid) ← beforeDebtSpiral host random currentStats grid;
  newStats ← Sim.debtSpiral newStats;
  newStats ← Sim.publishJobs e newStats;
  mret (happinessStep e grid newStats, grid).

End SimRoads.

(** ** utils/simulation.ts, lines 330-419: [simulateEnvironment] *)

Record WindUpdate := {
  newWindDirection : Vec2;
  newWindSpeed : Q;
  newPollutionLevel : Q
}.

Module Env.

(** Lines 333-346: the random walk of the wind.  [r1], [r2] and [r3] are
    the three values [Math.random] gives; the last two are drawn only
    when the wind changes. *)
Definition windStep (host : Host) (r1 r2 r3 : Q) (stats : CityStats) : Vec2 * Q :=
  let wind := windDirection stats in
  let speed := windSpeed stats in
  if Qltb r1 0.05 then
    let angle := Math_atan2 host (vy wind) (vx wind) in
    let newAngle := angle + (r2 * 1.0 - 0.5) in
    let wind := {| vx := Math_cos host newAngle; vy := Math_sin host newAngle |} in
    let speed := Math_min 1.0 (Math_max 0.1 (speed + (r3 * 0.2 - 0.1))) in
    (wind, speed)
  else (wind, speed).

(** [newGrid[y][x].pollution = v] *)
Definition setPollution (g : Grid) (yi xi : nat) (v : Q) : Grid :=
  alter (alter (Tile.set_pollution v) xi) yi g.

(** The state of the loop: [newGrid], [totalPollution], [pollutedTiles]. *)
Definition LoopState : Type := Grid * Q * Q.

(** The body of the loop, lines 360-404, for the tile at row [y], column
    [x].  [tile] is the object [newGrid[y][x]]: each read of
    [tile.pollution] reads the grid and each write writes it. *)

(** A. Generation, lines 364-367. *)
Definition generation (newGrid : Grid) (y x : nat) : option Grid :=
  tile ← tileAt newGrid y x;
  let config := BUILDINGS (Tile.buildingType tile) in
  if truthy (pollution config)
  then Some (setPollution newGrid y x
               (Math_min 100 (or0 (Tile.pollution tile) + or0 (pollution config) * 2)))
  else Some newGrid.

(** Lines 370-372. *)
Definition decayOf (b : BuildingType.t) : Q :=
  let decay := 0.90 in
  let decay := if BuildingType.eqb b BuildingType.Park then 0.70 else decay in
  let decay := if BuildingType.eqb b BuildingType.Water then 0.95 else decay in
  decay.

(** B. Decay, lines 370-374. *)
Definition dissipation (newGrid : Grid) (y x : nat) : option Grid :=
  tile ← tileAt newGrid y x;
  let decay := decayOf (Tile.buildingType tile) in
  Some (setPollution newGrid y x (or0 (Tile.pollution tile) * decay)).

(** C. Advection, lines 378-395.  The sum of line 389 and the difference
    of line 390 are exact: a double would overflow there on pollution
    values near the largest double, which the data model's range of
    0-100 per tile (types.ts, line 83; [boundedPollution]) rules out. *)
Definition advection (wind : Vec2) (speed : Q) (GRID_W GRID_H : nat)
    (newGrid : Grid) (y x : nat) : option Grid :=
  tile ← tileAt newGrid y x;
  if Qgtb (or0 (Tile.pollution tile)) 1 then
    let moveAmount := or0 (Tile.pollution tile) * 0.3 * speed in
    let targetX := inject_Z (Z.of_nat x) + vx wind in
    let targetY := inject_Z (Z.of_nat y) + vy wind in
    let tx := Math_round targetX in
    let ty := Math_round targetY in
    if ((tx >=? 0) && (tx <? Z.of_nat GRID_W)
        && (ty >=? 0) && (ty <? Z.of_nat GRID_H))%Z
    then
      target ← tileAt newGrid (Z.to_nat ty) (Z.to_nat tx);
      let newGrid :=
        setPollution newGrid (Z.to_nat ty) (Z.to_nat tx)
          (or0 (Tile.pollution target) + moveAmount) in
      tile ← tileAt newGrid y x;
      Some (setPollution newGrid y x (or0 (Tile.pollution tile) - moveAmount))
    else
      Some (setPollution newGrid y x (or0 (Tile.pollution tile) - moveAmount))
  else Some newGrid.

(** Validation, line 398. *)
Definition validation (newGrid : Grid) (y x : nat) : option Grid :=
  tile ← tileAt newGrid y x;
  if Qltb (or0 (Tile.pollution tile)) 0.5
  then Some (setPollution newGrid y x 0)
  else Some newGrid.

Definition cell (wind : Vec2) (speed : Q) (GRID_W GRID_H : nat) (y x : nat)
    (st : LoopState) : option LoopState :=
  let '(newGrid, totalPollution, pollutedTiles) := st in
  newGrid ← generation newGrid y x;
  newGrid ← dissipation newGrid y x;
  newGrid ← advection wind speed GRID_W GRID_H newGrid y x;
  newGrid ← validation newGrid y x;
  (* Stats, lines 401-404 *)
  tile ← tileAt newGrid y x;
  if Qgtb (or0 (Tile.pollution tile)) 0
  then Some (newGrid, totalPollution + or0 (Tile.pollution tile), pollutedTiles + 1)
  else Some (newGrid, totalPollution, pollutedTiles).

(** Lines 358-406: the two nested loops. *)
Definition pollutionLoop (wind : Vec2) (speed : Q) (GRID_W GRID_H : nat)
    (st : LoopState) : option LoopState :=
  forEachIndex
    (fun y => forEachIndex (cell wind speed GRID_W GRID_H y) (seq 0 GRID_W))
    (seq 0 GRID_H) st.

(** Lines 330-419.  [None] is the TypeError of [grid[0].length] on an
    empty grid or of a tile read outside a ragged row. *)
Definition simulateEnvironment (host : Host) (r1 r2 r3 : Q) (grid : Grid)
    (stats : CityStats) : option (Grid * WindUpdate) :=
  let '(wind, speed) := windStep host r1 r2 r3 stats in
  let newGrid := grid in
  let totalPollution := 0 in
  let pollutedTiles := 0 in
  let GRID_H := length grid in
  row0 ← grid !! 0%nat;
  let GRID_W := length row0 in
  '(newGrid, totalPollution, pollutedTiles) ←
    pollutionLoop wind speed GRID_W GRID_H (newGrid, totalPollution, pollutedTiles);
  let avgPollution :=
    if Qgtb pollutedTiles 0
    then totalPollution / inject_Z (Z.of_nat (GRID_W * GRID_H)) else 0 in
  Some (newGrid,
        {| newWindDirection := wind; newWindSpeed := speed;
           newPollutionLevel := Math_min 100 (Math_floor (avgPollution * 5)) |}).

End Env.

(** App.tsx, lines 473-483: the tick publishes the new grid and merges
    [windUpdate] into the stats. *)
Definition applyWindUpdate (u : WindUpdate) (s : CityStats) : CityStats :=
  set_pollutionLevel (newPollutionLevel u)
    (set_windSpeed (newWindSpeed u) (set_windDirection (newWindDirection u) s)).

(** Repeated calls of the Environment Stepper, one for each triple of
    random draws, each on the grid and the wind the call before left. *)
Fixpoint environmentRun (host : Host) (draws : list (Q * Q * Q))
    (grid : Grid) (stats : CityStats) : option (Grid * CityStats) :=
  match draws with
  | [] => Some (grid, stats)
  | (r1, r2, r3) :: rest =>
      '(newGrid, windUpdate) ← Env.simulateEnvironment host r1 r2 r3 grid stats;
      environmentRun host rest newGrid (applyWindUpdate windUpdate stats)
  end.

(** ** Predicates used by the statements *)

(** A coordinate of the map. *)
Definition in_bounds (x y : Z) : Prop :=
  (0 <= x < GRID_SIZE)%Z /\ (0 <= y < GRID_SIZE)%Z.

(** What a grid looks like after the one tile at row [yi], column [xi]
    was given building type [t]. *)
Definition only_tile_changes (g g' : Grid) (yi xi : nat) (t : BuildingType.t) : Prop :=
  (exists old, tileAt g yi xi = Some old /\
               tileAt g' yi xi = Some (Tile.set_buildingType t old)) /\
  (forall yj xj, (yj, xj) <> (yi, xi) -> tileAt g' yj xj = tileAt g yj xj).

(** An attempt that yields no content: the fetch rejects (network failure
    or timeout), the response is not 2xx, or its body cannot be read. *)
Definition attemptFails (a : Attempt) : bool :=
  match a with Ok (Some _) => false | _ => true end.

(** A failed attempt after which [callLocalAI] tries again when it has a
    retry left: everything but a response below 500. *)
Definition retryable (a : Attempt) : bool :=
  match a with
  | NotOk status (Some _) => (status >=? 500)%Z
  | _ => true
  end.

(** The proposer call fails: the first attempt fails and so does the
    retry, when there is one. *)
Definition proposerFails (net : nat -> Attempt) : Prop :=
  attemptFails (net 0%nat) = true /\
  (retryable (net 0%nat) = true -> attemptFails (net 1%nat) = true).

(** The proposer answered with a text that holds no JSON object. *)
Definition noJsonObject (net : nat -> Attempt) : Prop :=
  exists content, callLocalAI net = Some content /\ matchBraces content = None.

(** A grid is a rectangular matrix: every row has [w] tiles. *)
Definition rectangular (w : nat) (g : Grid) : Prop :=
  Forall (fun row : list Tile.t => length row = w) g.

(** Two tiles that differ at most in [hasRoadAccess]. *)
Definition sameButRoadAccess (t t' : Tile.t) : Prop :=
  Tile.x t' = Tile.x t /\ Tile.y t' = Tile.y t /\
  Tile.buildingType t' = Tile.buildingType t /\
  Tile.pollution t' = Tile.pollution t.

(** Two grids of the same shape whose tiles differ at most in
    [hasRoadAccess]. *)
Definition sameButRoadAccessGrid (g g' : Grid) : Prop :=
  Forall2 (Forall2 sameButRoadAccess) g g'.

(** What the census loop of part_003 keeps true of its state: [newStats]
    differs from the stats it started with in the money only, and the
    grid from the grid it started with in [hasRoadAccess] only. *)
Definition censusInv (g : Grid) (s : CityStats) (acc : SimRoads.CensusState) : Prop :=
  (exists m, acc.1.2 = set_money m s) /\ sameButRoadAccessGrid g acc.2.

(** *** The numeric range

    The inputs on which the exact numbers of this development stand for
    the doubles of the code.  A number of magnitude at most
    [Number.MAX_SAFE_INTEGER] = 2^53 - 1 is far from the largest double
    (about 2^1024), and an array has fewer than 2^32 elements.  From such
    inputs the step multiplies and adds a few of them: the largest value
    on the way to the happiness is the unemployment penalty, of magnitude
    below 2^220 (births below 2^94, [schoolFactor] below 2^69, children
    coming of age below 2^160, adults below 2^162, times
    [1 - shadowEconomy] below 2^54), so that no double of lines 51-323
    overflows and none is NaN. *)

Definition MAX_SAFE_INTEGER : Q := 9007199254740991.

Definition safeNumber (v : Q) : bool := Qle_bool (Math_abs v) MAX_SAFE_INTEGER.

(** A length that a JavaScript array can have. *)
Definition arrayLength {A} (l : list A) : bool :=
  (Z.of_nat (length l) <? 2 ^ 32)%Z.

(** The numbers of the stats record, and of its demographics object
    [d], that the happiness of a step is computed from. *)
Definition statsInRange (s : CityStats) (d : Demographics) : bool :=
  safeNumber (taxRate s) && safeNumber (happiness s)
  && safeNumber (shadowEconomy s) && safeNumber (supplyLevel s)
  && safeNumber (eventDuration s)
  && safeNumber (children d) && safeNumber (adults d) && safeNumber (seniors d).

(** The grid is an array of arrays, and the pollution of every tile
    ([tile.pollution || 0]) is in range. *)
Definition gridInRange (g : Grid) : bool :=
  arrayLength g
  && forallb (fun row : list Tile.t =>
                arrayLength row
                && forallb (fun t => safeNumber (or0 (Tile.pollution t))) row) g.

(** *** Pollution mass *)

(** The pollution of a tile, [tile.pollution || 0]. *)
Definition pol (t : Tile.t) : Q := or0 (Tile.pollution t).

(** The sum of [f i a] over the elements [a] of a list, [i] their index
    counted from [i0]. *)
Fixpoint isum {A} (f : nat -> A -> Q) (i0 : nat) (l : list A) : Q :=
  match l with
  | [] => 0
  | a :: l' => f i0 a + isum f (S i0) l'
  end.

(** The sum of [f y x tile] over the tiles of a grid. *)
Definition gridSum (f : nat -> nat -> Tile.t -> Q) (g : Grid) : Q :=
  isum (fun y row => isum (f y) 0 row) 0 g.

(** The sum over all tiles of the per-tile pollution. *)
Definition totalPollutionOf (g : Grid) : Q := gridSum (fun _ _ t => pol t) g.

(** No tile holds a building whose pollution coefficient is positive. *)
Definition noSources (g : Grid) : Prop :=
  Forall (Forall (fun t : Tile.t =>
            ~ 0 < or0 (pollution (BUILDINGS (Tile.buildingType t))))) g.

(** The data model's [pollution >= 0]. *)
Definition nonnegPollution (g : Grid) : Prop :=
  Forall (Forall (fun t : Tile.t => 0 <= pol t)) g.

(** The data model's [pollution <= 100] (types.ts, line 83: "0-100"). *)
Definition boundedPollution (g : Grid) : Prop :=
  Forall (Forall (fun t : Tile.t => pol t <= 100)) g.

(** Every tile has pollution 0. *)
Definition allClean (g : Grid) : Prop :=
  Forall (Forall (fun t : Tile.t => pol t == 0)) g.

(** Two tiles that differ at most in [pollution]. *)
Definition sameButPollution (t t' : Tile.t) : Prop :=
  Tile.x t' = Tile.x t /\ Tile.y t' = Tile.y t /\
  Tile.buildingType t' = Tile.buildingType t /\
  Tile.hasRoadAccess t' = Tile.hasRoadAccess t.

(** Two grids of the same shape (as many rows, and row by row as many
    tiles) whose tiles differ at most in [pollution]. *)
Definition sameButPollutionGrid (g g' : Grid) : Prop :=
  Forall2 (Forall2 sameButPollution) g g'.

(** In the row-major order of the loop, the tile at row [y], column [x]
    comes before the one at row [y0], column [x0]. *)
Definition processed (y0 x0 y x : nat) : bool :=
  (y <? y0)%nat || ((y =? y0)%nat && (x <? x0)%nat).

(** The pollution mass with the tiles the loop has not reached yet
    counted at 19/20, the most that the decay of their own turn will
    leave of them. *)
Definition weightAt (y0 x0 y x : nat) : Q :=
  if processed y0 x0 y x then 1 else 19 # 20.

Definition potential (y0 x0 : nat) (g : Grid) : Q :=
  gridSum (fun y x t => weightAt y0 x0 y x * pol t) g.

(** What the pollution loop keeps true of its grid when it is about to
    process row [y0], column [x0], having started from a grid of total
    pollution [T0]. *)
Definition loopInv (w h : nat) (T0 : Q) (y0 x0 : nat) (g : Grid) : Prop :=
  rectangular w g /\ length g = h /\ noSources g /\ nonnegPollution g /\
  potential y0 x0 g <= (19 # 20) * T0 /\
  (T0 < 1 # 2 ->
     totalPollutionOf g < 1 # 2 /\
     forall y x t, tileAt g y x = Some t -> processed y0 x0 y x = true -> pol t == 0).

(** What a grid and a wind speed must satisfy for the Environment
    Stepper to be run on them: the data model's invariants, and no
    pollution source. *)
Definition envInv (w : nat) (g : Grid) (speed : Q) : Prop :=
  rectangular w g /\ g <> [] /\ noSources g /\ nonnegPollution g /\
  0 <= speed <= 1.

(** [g1] is [g] with the tile [a] at row [y], column [x] replaced by
    [a1], a tile with the same building. *)
Definition oneCell (y x : nat) (g g1 : Grid) (a a1 : Tile.t) : Prop :=
  tileAt g y x = Some a /\ tileAt g1 y x = Some a1 /\
  Tile.buildingType a1 = Tile.buildingType a /\
  (forall y' x', (y', x') <> (y, x) -> tileAt g1 y' x' = tileAt g y' x') /\
  (forall f, gridSum f g1 == gridSum f g - f y x a + f y x a1) /\
  length g1 = length g /\
  (forall w, rectangular w g -> rectangular w g1).

(** ** Sample data used by the examples *)

Definition mkTile (b : BuildingType.t) (x y : Z) : Tile.t :=
  {| Tile.x := x; Tile.y := y; Tile.buildingType := b;
     Tile.pollution := Some 0; Tile.hasRoadAccess := None |}.

(** A [w] x [h] grid whose tile at (x, y) holds [f x y], built row by row
    like [createInitialGrid]. *)
Definition mkGrid (w h : nat) (f : Z -> Z -> BuildingType.t) : Grid :=
  map (fun yi => map (fun xi => mkTile (f (Z.of_nat xi) (Z.of_nat yi))
                                  (Z.of_nat xi) (Z.of_nat yi)) (seq 0 w))
      (seq 0 h).

(** INITIAL_STATS of simulation.ts; the nested objects are at locations
    0, 1 and 2 of [INITIAL_HEAP].  The fields App.tsx adds start with the
    whole map unlocked and nothing researched. *)
Definition INITIAL_STATS : CityStats :=
  {| money := 2000; population := 0; day := 1; taxRate := 1 # 10;
     happiness := 100; education := 0; safety := 100; housingCapacity := 0;
     demographics := 0%nat; jobs := 1%nat; budget := 2%nat;
     shadowEconomy := 0; supplyLevel := 1; loanPrincipal := 0;
     loanInterestRate := 5 # 100; activeEvent := EconomicEvent.None;
     eventDuration := 0; sharePrice := 100; investmentShares := 0;
     investmentAverageCost := 0; crimeRate := 0; security := 100;
     pollutionLevel := 0; windDirection := {| vx := 1; vy := 0 |};
     windSpeed := 1 # 2; currentGoal := None;
     unlockedGridSize := 45;
     research := {| landExpansionLevel := 0; isResearchCentreBuilt := false;
                    isMarsDiscovered := false; nauticalLevel := 0 |};
     activePlanet := Earth |}.

(** A 45 x 45 map: a river along column 3 with a bridge at (3, 5), a
    house at (4, 4), land elsewhere. *)
Definition riverMap : Grid :=
  mkGrid 45 45 (fun x y =>
    if (x =? 3)%Z then (if (y =? 5)%Z then BuildingType.Bridge else BuildingType.Water)
    else if ((x =? 4) && (y =? 4))%Z then BuildingType.Residential
    else BuildingType.None).

Definition riverTown (m : Q) : AppState :=
  {| grid := riverMap; stats := set_money m INITIAL_STATS |}.

Definition set_taxRate (v : Q) (s : CityStats) : CityStats :=
  {| money := money s; population := population s; day := day s;
     taxRate := v; happiness := happiness s; education := education s;
     safety := safety s; housingCapacity := housingCapacity s;
     demographics := demographics s; jobs := jobs s; budget := budget s;
     shadowEconomy := shadowEconomy s; supplyLevel := supplyLevel s;
     loanPrincipal := loanPrincipal s;
     loanInterestRate := loanInterestRate s; activeEvent := activeEvent s;
     eventDuration := eventDuration s; sharePrice := sharePrice s;
     investmentShares := investmentShares s;
     investmentAverageCost := investmentAverageCost s;
     crimeRate := crimeRate s; security := security s;
     pollutionLevel := pollutionLevel s; windDirection := windDirection s;
     windSpeed := windSpeed s; currentGoal := currentGoal s;
     unlockedGridSize := unlockedGridSize s; research := research s;
     activePlanet := activePlanet s |}.

(** A host for the examples.  Its [Math.pow] returns the base; the
    examples call it with bases of at most 2, where the one expression
    that reads it, [Math.floor(Math.pow(b, 1.1) * 0.1)], is 0 for the
    real function as well. *)
Definition exampleHost : Host :=
  {| Math_pow := fun b e => b; Math_atan2 := fun y x => 0;
     Math_cos := fun a => 1; Math_sin := fun a => 0 |}.

(** The empty 10 x 10 grid. *)
Definition emptyLand : Grid := mkGrid 10 10 (fun _ _ => BuildingType.None).

(** A 10 x 10 grid full of casinos: the crime coefficients sum to 3000. *)
Definition casinoStrip : Grid := mkGrid 10 10 (fun _ _ => BuildingType.Casino).

(** A 10 x 10 grid with a column of houses next to a road. *)
Definition suburb : Grid :=
  mkGrid 10 10 (fun x y =>
    if (x =? 1)%Z then BuildingType.Residential
    else if (x =? 2)%Z then BuildingType.Road
    else BuildingType.None).

(** A 4 x 4 meadow with a park at (1, 1), smog of 40 over the tile at
    (2, 2) and of 3 over the tile at (0, 0); nothing on it pollutes. *)
Definition smoggyMeadow : Grid :=
  Env.setPollution
    (Env.setPollution
       (mkGrid 4 4 (fun x y =>
          if ((x =? 1) && (y =? 1))%Z then BuildingType.Park else BuildingType.None))
       2 2 40)
    0 0 3.

(** ** More of App.tsx: the handlers around [performAction]

    Updaters of the other fields the handlers write. *)

Definition set_loanPrincipal (v : Q) (s : CityStats) : CityStats :=
  {| money := money s; population := population s; day := day s;
     taxRate := taxRate s; happiness := happiness s;
     education := education s; safety := safety s;
     housingCapacity := housingCapacity s; demographics := demographics s;
     jobs := jobs s; budget := budget s; shadowEconomy := shadowEconomy s;
     supplyLevel := supplyLevel s; loanPrincipal := v;
     loanInterestRate := loanInterestRate s; activeEvent := activeEvent s;
     eventDuration := eventDuration s; sharePrice := sharePrice s;
     investmentShares := investmentShares s;
     investmentAverageCost := investmentAverageCost s;
     crimeRate := crimeRate s; security := security s;
     pollutionLevel := pollutionLevel s; windDirection := windDirection s;
     windSpeed := windSpeed s; currentGoal := currentGoal s;
     unlockedGridSize := unlockedGridSize s; research := research s;
     activePlanet := activePlanet s |}.
Definition set_investmentShares (v : Q) (s : CityStats) : CityStats :=
  {| money := money s; population := population s; day := day s;
     taxRate := taxRate s; happiness := happiness s;
     education := education s; safety := safety s;
     housingCapacity := housingCapacity s; demographics := demographics s;
     jobs := jobs s; budget := budget s; shadowEconomy := shadowEconomy s;
     supplyLevel := supplyLevel s; loanPrincipal := loanPrincipal s;
     loanInterestRate := loanInterestRate s; activeEvent := activeEvent s;
     eventDuration := eventDuration s; sharePrice := sharePrice s;
     investmentShares := v;
     investmentAverageCost := investmentAverageCost s;
     crimeRate := crimeRate s; security := security s;
     pollutionLevel := pollutionLevel s; windDirection := windDirection s;
     windSpeed := windSpeed s; currentGoal := currentGoal s;
     unlockedGridSize := unlockedGridSize s; research := research s;
     activePlanet := activePlanet s |}.
Definition set_investmentAverageCost (v : Q) (s : CityStats) : CityStats :=
  {| money := money s; population := population s; day := day s;
     taxRate := taxRate s; happiness := happiness s;
     education := education s; safety := safety s;
     housingCapacity := housingCapacity s; demographics := demographics s;
     jobs := jobs s; budget := budget s; shadowEconomy := shadowEconomy s;
     supplyLevel := supplyLevel s; loanPrincipal := loanPrincipal s;
     loanInterestRate := loanInterestRate s; activeEvent := activeEvent s;
     eventDuration := eventDuration s; sharePrice := sharePrice s;
     investmentShares := investmentShares s; investmentAverageCost := v;
     crimeRate := crimeRate s; security := security s;
     pollutionLevel := pollutionLevel s; windDirection := windDirection s;
     windSpeed := windSpeed s; currentGoal := currentGoal s;
     unlockedGridSize := unlockedGridSize s; research := research s;
     activePlanet := activePlanet s |}.
Definition set_unlockedGridSize (v : Q) (s : CityStats) : CityStats :=
  {| money := money s; population := population s; day := day s;
     taxRate := taxRate s; happiness := happiness s;
     education := education s; safety := safety s;
     housingCapacity := housingCapacity s; demographics := demographics s;
     jobs := jobs s; budget := budget s; shadowEconomy := shadowEconomy s;
     supplyLevel := supplyLevel s; loanPrincipal := loanPrincipal s;
     loanInterestRate := loanInterestRate s; activeEvent := activeEvent s;
     eventDuration := eventDuration s; sharePrice := sharePrice s;
     investmentShares := investmentShares s;
     investmentAverageCost := investmentAverageCost s;
     crimeRate := crimeRate s; security := security s;
     pollutionLevel := pollutionLevel s; windDirection := windDirection s;
     windSpeed := windSpeed s; currentGoal := currentGoal s;
     unlockedGridSize := v; research := research s;
     activePlanet := activePlanet s |}.
Definition set_activePlanet (v : Planet) (s : CityStats) : CityStats :=
  {| money := money s; population := population s; day := day s;
     taxRate := taxRate s; happiness := happiness s;
     education := education s; safety := safety s;
     housingCapacity := housingCapacity s; demographics := demographics s;
     jobs := jobs s; budget := budget s; shadowEconomy := shadowEconomy s;
     supplyLevel := supplyLevel s; loanPrincipal := loanPrincipal s;
     loanInterestRate := loanInterestRate s; activeEvent := activeEvent s;
     eventDuration := eventDuration s; sharePrice := sharePrice s;
     investmentShares := investmentShares s;
     investmentAverageCost := investmentAverageCost s;
     crimeRate := crimeRate s; security := security s;
     pollutionLevel := pollutionLevel s; windDirection := windDirection s;
     windSpeed := windSpeed s; currentGoal := currentGoal s;
     unlockedGridSize := unlockedGridSize s; research := research s;
     activePlanet := v |}.

Definition set_landExpansionLevel (v : Q) (r : Research) : Research :=
  {| landExpansionLevel := v; isResearchCentreBuilt := isResearchCentreBuilt r;
     isMarsDiscovered := isMarsDiscovered r; nauticalLevel := nauticalLevel r |}.
Definition set_isMarsDiscovered (v : bool) (r : Research) : Research :=
  {| landExpansionLevel := landExpansionLevel r;
     isResearchCentreBuilt := isResearchCentreBuilt r;
     isMarsDiscovered := v; nauticalLevel := nauticalLevel r |}.
Definition set_nauticalLevel (v : Q) (r : Research) : Research :=
  {| landExpansionLevel := landExpansionLevel r;
     isResearchCentreBuilt := isResearchCentreBuilt r;
     isMarsDiscovered := isMarsDiscovered r; nauticalLevel := v |}.


(** App.tsx, lines 17-50.  [random] is the one draw of the seed.  In
    part_001, lines 17-43, there is no planet: the grid is the one made
    here for Earth. *)
Definition createInitialGrid (host : Host) (random : Q) (planet : Planet) : Grid :=
  let seed := random * 1000 in
  map (fun y =>
    map (fun x =>
      let nx := inject_Z (Z.of_nat x) / 15 in
      let ny := inject_Z (Z.of_nat y) / 15 in
      let noise :=
        Math_sin host (nx + seed) * Math_cos host (ny + seed)
        + 0.5 * Math_sin host (nx * 2 + seed) * Math_cos host (ny * 2 + seed) in
      let buildingType := BuildingType.None in
      let buildingType :=
        match planet with
        | Earth => if Qltb noise (-0.3) then BuildingType.Water else buildingType
        | Mars => buildingType
        end in
      {| Tile.x := Z.of_nat x; Tile.y := Z.of_nat y;
         Tile.buildingType := buildingType;
         Tile.pollution := Some 0; Tile.hasRoadAccess := None |})
      (seq 0 (Z.to_nat GRID_SIZE)))
    (seq 0 (Z.to_nat GRID_SIZE)).

(** *** The treasury: loans, shares and the tax rate

    App.tsx, lines 674-774; the same text is part_001, lines 564-653. *)

Definition cycleTax : AppState -> AppState :=
  setStats (fun prev =>
    let nextRate := 0.1 in
    let nextRate :=
      if Qeq_bool (taxRate prev) 0.05 then 0.10
      else if Qeq_bool (taxRate prev) 0.10 then 0.20
      else if Qeq_bool (taxRate prev) 0.20 then 0.05
      else nextRate in
    set_taxRate nextRate prev).

(** The quotient [totalVal / newCount] has a divisor of at least 10 when
    the number of shares held is not negative. *)
Definition handleBuyShares : AppState -> AppState :=
  setStats (fun prev =>
    let cost := sharePrice prev * 10 in
    if Qgeb (money prev) cost then
      let totalVal := investmentShares prev * investmentAverageCost prev + cost in
      let newCount := investmentShares prev + 10 in
      set_investmentAverageCost (totalVal / newCount)
        (set_investmentShares newCount (set_money (money prev - cost) prev))
    else prev).

Definition handleSellShares : AppState -> AppState :=
  setStats (fun prev =>
    if Qgeb (investmentShares prev) 10 then
      let revenue := sharePrice prev * 10 in
      set_investmentShares (investmentShares prev - 10)
        (set_money (money prev + revenue) prev)
    else prev).

Definition handleTakeLoan : AppState -> AppState :=
  setStats (fun prev =>
    set_loanPrincipal (loanPrincipal prev + 5000) (set_money (money prev + 5000) prev)).


(** *** Research, App.tsx lines 307-345 *)

Inductive ResearchType := LAND | MARS | NAUTICAL.

Definition handleResearch (type : ResearchType) (st : AppState) : AppState :=
  let s := stats st in
  match type with
  | LAND =>
    let cost := 5000 + landExpansionLevel (research s) * 5000 in
    if Qgeb (money s) cost && Qltb (unlockedGridSize s) (inject_Z GRID_SIZE) then
      setStats (fun prev =>
        set_research
          (set_landExpansionLevel (landExpansionLevel (research prev) + 1)
             (research prev))
          (set_unlockedGridSize
             (Math_min (inject_Z GRID_SIZE) (unlockedGridSize prev + 10))
             (set_money (money prev - cost) prev))) st
    else st
  | MARS =>
    let cost := 20000 in
    if Qgeb (money s) cost && negb (isMarsDiscovered (research s)) then
      setStats (fun prev =>
        set_research (set_isMarsDiscovered true (research prev))
          (set_money (money prev - cost) prev)) st
    else st
  | NAUTICAL =>
    let cost := 10000 in
    if Qgeb (money s) cost && Qeq_bool (nauticalLevel (research s)) 0 then
      setStats (fun prev =>
        set_research (set_nauticalLevel 1 (research prev))
          (set_money (money prev - cost) prev)) st
    else st
  end.

(** *** Travel between planets, App.tsx lines 348-363

    [worlds] is the state that keeps one grid for each planet; the
    handler reads the [worlds] of the render it was made in, and queues
    an update that stores the grid it leaves. *)

Definition Planet_eqb (a b : Planet) : bool :=
  match a, b with
  | Earth, Earth | Mars, Mars => true
  | _, _ => false
  end.

Record Game := { current : AppState; worlds : Planet -> option Grid }.

Definition travelToPlanet (host : Host) (random : Q) (target : Planet) (w : Game)
    : Game :=
  let currentP := activePlanet (stats (current w)) in
  let currentG := grid (current w) in
  let newWorlds := fun p => if Planet_eqb p currentP then Some currentG else worlds w p in
  let targetG :=
    match worlds w target with
    | Some g => g
    | None => createInitialGrid host random target
    end in
  {| current := setStats (set_activePlanet target) (setGrid targetG (current w));
     worlds := newWorlds |}.

(** *** Economic events, part_001 lines 575-600

    [roll] is the draw.  (In App.tsx, lines 685-720, a second draw can
    start an event [Exodus] that types.ts does not declare; that version
    is not modelled.) *)
Definition triggerEconomyEvent (roll : Q) (st : AppState) : AppState :=
  let currentStats := stats st in
  if negb (EconomicEvent.eqb (activeEvent currentStats) EconomicEvent.None) then st
  else if Qltb roll 0.05 then
    setStats (fun prev => set_eventDuration 20 (set_activeEvent EconomicEvent.Boom prev)) st
  else if Qltb roll 0.10 then
    setStats (fun prev =>
      set_eventDuration 20 (set_activeEvent EconomicEvent.Recession prev)) st
  else if Qltb (happiness currentStats) 40 && Qltb roll 0.15 then
    setStats (fun prev =>
      set_eventDuration 10 (set_activeEvent EconomicEvent.Strike prev)) st
  else if Qgtb (money currentStats) 5000 && Qltb roll 0.12 then
    setStats (fun prev =>
      set_eventDuration 5 (set_activeEvent EconomicEvent.Audit prev)) st
  else st.

(** *** Disasters, App.tsx lines 366-441 (part_001 lines 264-339) *)

(** Lines 402-409: one step of the two loops over [dy] and [dx]. *)
Definition meteorCell (targetX targetY : Z) (newGrid : Grid) (d : Z * Z)
    : option Grid :=
  let '(dy, dx) := d in
  let ky := (targetY + dy)%Z in
  let kx := (targetX + dx)%Z in
  if ((ky >=? 0) && (ky <? GRID_SIZE) && (kx >=? 0) && (kx <? GRID_SIZE))%Z then
    tile ← tileAt newGrid (Z.to_nat ky) (Z.to_nat kx);
    Some (setTile newGrid (Z.to_nat ky) (Z.to_nat kx)
            (Tile.set_buildingType BuildingType.None tile))
  else Some newGrid.

(** The pairs ([dy], [dx]) in the order of the loops. *)
Definition blast : list (Z * Z) :=
  [(-1, -1); (-1, 0); (-1, 1); (0, -1); (0, 0); (0, 1); (1, -1); (1, 0); (1, 1)]%Z.

(** Lines 399-412: the impact, the updater given to [setGrid].  [None]
    is where the model stops on a grid that is smaller than [GRID_SIZE]:
    the code throws when the row is missing, and in a row that lacks the
    tile it writes an object that has a building type and no other field,
    which the tile record cannot hold. *)
Definition meteorImpact (targetX targetY : Z) (prevGrid : Grid) : option Grid :=
  fold_left (fun acc d => acc ≫= fun g => meteorCell targetX targetY g d)
    blast (Some prevGrid).

(** *** The agent loop, App.tsx lines 547-620 (part_001 lines 445-518)

    An action as types.ts declares it; [reasoning] and [failedAttempt]
    are not read by the part of the loop that is modelled. *)
Module AIAction.
Record t := {
  action : string;
  buildingType : option BuildingType.t;
  x : option Q;
  y : option Q
}.
End AIAction.

(** An array index: a number that is a whole number and not negative. *)
Definition arrayIndex (v : option Q) : option nat :=
  match v with
  | Some q => if is_integer q && Qle_bool 0 q then Some (Z.to_nat (Qfloor q)) else None
  | None => None
  end.

(** [grid[y]?.[x]]; [None] is [undefined]. *)
Definition tileAtNum (g : Grid) (y x : option Q) : option Tile.t :=
  yi ← arrayIndex y; xi ← arrayIndex x; tileAt g yi xi.

(** [performAction] of App.tsx called with numbers that need not be
    whole: the tests on the coordinates are those of lines 233-247, and
    line 249 reads [currentGrid[y][x]], which throws when [y] is no index
    of a row and gives [undefined] when [x] is no index of a tile; lines
    251-281 then read [currentTile.buildingType] when the action is
    DEMOLISH, or BUILD with a type. *)
Definition performActionNum (st : AppState) (action : string)
    (type : option BuildingType.t) (x y : Q) : option (bool * AppState) :=
  if is_integer x && is_integer y
  then App.performAction st action type (Qfloor x) (Qfloor y)
  else
    let currentStats := stats st in
    if Qltb x 0 || Qgeb x (inject_Z GRID_SIZE) || Qltb y 0 || Qgeb y (inject_Z GRID_SIZE)
    then Some (false, st) else
    let center := Math_floor (inject_Z GRID_SIZE / 2) in
    let halfSize := Math_floor (unlockedGridSize currentStats / 2) in
    let minBounds := center - halfSize in
    let maxBounds := center + halfSize in
    let isOutOfBounds :=
      Qltb x minBounds || Qgtb x maxBounds || Qltb y minBounds || Qgtb y maxBounds in
    if String.eqb action "BUILD" && isOutOfBounds then Some (false, st) else
    if is_integer y && (Z.to_nat (Qfloor y) <? length (grid st))%nat
       && negb (String.eqb action "DEMOLISH")
       && negb (String.eqb action "BUILD" && bool_decide (is_Some type))
    then Some (false, st)
    else None.

(** What one round of the loop did with the action it was given. *)
Inductive AgentOutcome :=
| Blocked              (* the safety block returned *)
| Waited
| Performed (success : bool)
| Ignored              (* no branch took the action *)
| Threw.               (* [performAction] threw; the loop catches it *)

(** Lines 558-606: what the loop does with an action, as far as the grid
    and the stats go (the list of failures, the news and [lastAIAction]
    are left out). *)
Definition agentStep (st : AppState) (a : AIAction.t) : AgentOutcome * AppState :=
  let isBuild := String.eqb (AIAction.action a) "BUILD" in
  let blocked :=
    if isBuild then
      match tileAtNum (grid st) (AIAction.y a) (AIAction.x a) with
      | Some tile =>
          (BuildingType.eqb (Tile.buildingType tile) BuildingType.Water
           && negb (bool_decide (AIAction.buildingType a = Some BuildingType.Bridge)))
          || negb (BuildingType.eqb (Tile.buildingType tile) BuildingType.None)
      | None => false
      end
    else false in
  if blocked then (Blocked, st)
  else if String.eqb (AIAction.action a) "WAIT" then (Waited, st)
  else
    match AIAction.x a, AIAction.y a with
    | Some x, Some y =>
      if isBuild && bool_decide (is_Some (AIAction.buildingType a)) then
        match performActionNum st "BUILD" (AIAction.buildingType a) x y with
        | Some (success, st') => (Performed success, st')
        | None => (Threw, st)
        end
      else if String.eqb (AIAction.action a) "DEMOLISH" then
        match performActionNum st "DEMOLISH" None x y with
        | Some (success, st') => (Performed success, st')
        | None => (Threw, st)
        end
      else (Ignored, st)
    | _, _ => (Ignored, st)
    end.

(** ** Sums over the buildings of a grid *)

(** The sum of [f tile] over the tiles of a grid. *)
Definition sumOver (f : Tile.t -> Q) (g : Grid) : Q := gridSum (fun _ _ t => f t) g.

(** The catalog row of the building on a tile. *)
Definition configOf (t : Tile.t) : BuildingConfig := BUILDINGS (Tile.buildingType t).

(** The income of the buildings, the housing capacity, the crime and the
    pollution coefficients, summed over the grid. *)
Definition buildingIncome (g : Grid) : Q := sumOver (fun t => incomeGen (configOf t)) g.
Definition housingOf (g : Grid) : Q :=
  sumOver (fun t => Math_max 0 (popGen (configOf t))) g.
Definition crimeOf (g : Grid) : Q := sumOver (fun t => or0 (crime (configOf t))) g.
Definition emissionsOf (g : Grid) : Q := sumOver (fun t => or0 (pollution (configOf t))) g.

(** The number of tiles that hold building [b]. *)
Definition countOf (b : BuildingType.t) (g : Grid) : Q :=
  sumOver (fun t => if BuildingType.eqb (Tile.buildingType t) b then 1 else 0) g.

(** The number of people of a demographics object. *)
Definition headcount (d : Demographics) : Q := children d + adults d + seniors d.

(** An active event has time left. *)
Definition eventRunning (s : CityStats) : Prop :=
  activeEvent s <> EconomicEvent.None -> 0 < eventDuration s.

(** What the census of [updateSimulation] tallies, as sums over the
    grid: [a] are the locals after the loop and [m] the money, which was
    [before] when the loop started. *)
Definition censusSums (g : Grid) (before : Q) (a : Tally.t) (m : Q) : Prop :=
  m == before + buildingIncome g /\
  Tally.housingCapacity a == housingOf g /\
  Tally.rawCrime a == crimeOf g /\
  Tally.rawPollution a == emissionsOf g /\
  Tally.commJobs a == 5 * countOf BuildingType.Commercial g /\
  Tally.indJobs a == 8 * countOf BuildingType.Industrial g /\
  Tally.schools a == countOf BuildingType.School g /\
  Tally.hospitals a == countOf BuildingType.Hospital g /\
  Tally.parks a == countOf BuildingType.Park g.

(** What births, immigration, aging and deaths can do in one step to a
    population [d] that has no negative group: [d'] is the population
    after the step, [capacity] the housing capacity and [happy] the
    happiness the step started with. *)
Definition growthBounds (capacity happy : Q) (d d' : Demographics) : Prop :=
  0 <= seniors d' /\
  (0 <= children d -> 0 <= adults d -> 0 <= seniors d ->
   (capacity <= headcount d -> 0 <= adults d' /\ headcount d' <= headcount d) /\
   (0 <= happy ->
      0 <= adults d' /\
      headcount d' <= headcount d + adults d * 0.02 * (happy / 100) + 2)).


(** The action a proposer gives for a house at (10, 10). *)
Definition houseRequest : Json :=
  JObj [("action", JStr "BUILD"); ("buildingType", JStr "Residential");
        ("x", JNum 10); ("y", JNum 10); ("reasoning", JStr "Housing")]%string.

(** * The action gate *)

Section ActionGate.

Lemma offGrid_in_bounds (x y : Z) : in_bounds x y -> offGrid x y = false.
Proof.
  unfold in_bounds, offGrid, GRID_SIZE. intros [Hx Hy].
  repeat (apply orb_false_intro); lia.
Qed.

Lemma BuildingType_eqb_eq (a b : BuildingType.t) :
  BuildingType.eqb a b = true <-> a = b.
Proof. unfold BuildingType.eqb. apply bool_decide_eq_true. Qed.

Lemma BuildingType_eqb_refl (a : BuildingType.t) : BuildingType.eqb a a = true.
Proof. by apply BuildingType_eqb_eq. Qed.

Lemma BuildingType_eqb_neq (a b : BuildingType.t) :
  a <> b -> BuildingType.eqb a b = false.
Proof. unfold BuildingType.eqb. apply bool_decide_eq_false. Qed.

Lemma tileAt_setTile_eq (g : Grid) (yi xi : nat) (old new : Tile.t) :
  tileAt g yi xi = Some old -> tileAt (setTile g yi xi new) yi xi = Some new.
Proof.
  unfold tileAt, setTile. intros H.
  destruct (g !! yi) as [row|] eqn:Hrow; [|done]. cbn in H.
  rewrite list_lookup_alter_eq, Hrow. cbn.
  apply list_lookup_insert_eq. by eapply lookup_lt_Some.
Qed.

Lemma tileAt_setTile_ne (g : Grid) (yi xi yj xj : nat) (new : Tile.t) :
  (yj, xj) <> (yi, xi) ->
  tileAt (setTile g yi xi new) yj xj = tileAt g yj xj.
Proof.
  unfold tileAt, setTile. intros H.
  destruct (decide (yi = yj)) as [->|Hy].
  - rewrite list_lookup_alter_eq. destruct (g !! yj) as [row|]; [|done]. cbn.
    apply list_lookup_insert_ne. congruence.
  - by rewrite list_lookup_alter_ne.
Qed.

Lemma tileAt_rows (g : Grid) (y x : nat) (a : Tile.t) :
  tileAt g y x = Some a <-> exists row, g !! y = Some row /\ row !! x = Some a.
Proof.
  unfold tileAt. split.
  - destruct (g !! y) as [row|]; [|done]. intros H. by exists row.
  - intros (row & -> & H). done.
Qed.

End ActionGate.


(** Unfold a gate call at an in-bounds coordinate whose tile is known. *)
Ltac gate_start Hb Ht :=
  unfold App.performAction, AppLegacy.performAction;
  rewrite (offGrid_in_bounds _ _ Hb); cbv beta zeta;
  let row := fresh "row" in
  let Hrow := fresh "Hrow" in
  let Hx := fresh "Hx" in
  destruct (proj1 (tileAt_rows _ _ _ _) Ht) as (row & Hrow & Hx);
  rewrite Hrow; cbn [mbind option_bind];
  rewrite ?Hx; cbn [mbind option_bind].

(** Decide the tests on the action string. *)
Ltac gate_strings :=
  repeat match goal with
         | |- context [String.eqb ?a ?b] =>
             let v := eval vm_compute in (String.eqb a b) in
             change (String.eqb a b) with v
         end;
  cbn [andb].

(** Split on the remaining tests of a call that ends in a rejection. *)
Ltac gate_cases :=
  repeat match goal with
         | H : ?a <> ?b |- context [BuildingType.eqb ?a ?b] =>
             rewrite (BuildingType_eqb_neq a b H)
         end;
  rewrite ?BuildingType_eqb_refl;
  repeat match goal with
         | |- context [BuildingType.eqb ?a ?b] =>
             let v := eval vm_compute in (BuildingType.eqb a b) in
             match v with true => idtac | false => idtac end;
             change (BuildingType.eqb a b) with v
         end;
  cbn [negb andb orb];
  repeat match goal with
         | |- context [if ?c then _ else _] => destruct c
         end;
  try reflexivity.

(** [C1] Terrain compatibility, for both versions of the gate: at an
    in-bounds coordinate, Build of a non-Bridge type on Water, Build of
    Bridge on a tile that is not Water, Build on a tile that is neither
    None nor Water, and Demolish of a None tile are all rejected, whatever
    the money is, and the rejected call leaves grid and stats as they
    were. *)
Theorem performAction_terrain_rejections
    (st : AppState) (x y : Z) (tile : Tile.t) :
  in_bounds x y ->
  tileAt (grid st) (Z.to_nat y) (Z.to_nat x) = Some tile ->
  (forall t, Tile.buildingType tile = BuildingType.Water ->
             t <> BuildingType.Bridge ->
     App.performAction st "BUILD" (Some t) x y = Some (false, st) /\
     AppLegacy.performAction st "BUILD" (Some t) x y = Some (false, st)) /\
  (Tile.buildingType tile <> BuildingType.Water ->
     App.performAction st "BUILD" (Some BuildingType.Bridge) x y = Some (false, st) /\
     AppLegacy.performAction st "BUILD" (Some BuildingType.Bridge) x y = Some (false, st)) /\
  (forall t, Tile.buildingType tile <> BuildingType.None ->
             Tile.buildingType tile <> BuildingType.Water ->
     App.performAction st "BUILD" (Some t) x y = Some (false, st) /\
     AppLegacy.performAction st "BUILD" (Some t) x y = Some (false, st)) /\
  (forall ty, Tile.buildingType tile = BuildingType.None ->
     App.performAction st "DEMOLISH" ty x y = Some (false, st) /\
     AppLegacy.performAction st "DEMOLISH" ty x y = Some (false, st)).
Proof.
  intros Hb Ht. split; [|split; [|split]].
  - intros t Hw Hnb.
    split; gate_start Hb Ht; gate_strings; rewrite Hw; gate_cases.
  - intros Hnw. split; gate_start Hb Ht; gate_strings; gate_cases.
  - intros t Hn Hw. split; gate_start Hb Ht; gate_strings; gate_cases.
  - intros ty Hn.
    split; gate_start Hb Ht; gate_strings; rewrite Hn; gate_cases.
Qed.

Lemma performAction_terrain_rejections_witness :
  let st := riverTown 0 in
  in_bounds 3 7 /\
  App.performAction st "BUILD" (Some BuildingType.Residential) 3 7 = Some (false, st) /\
  AppLegacy.performAction st "BUILD" (Some BuildingType.Residential) 3 7 = Some (false, st).
Proof.
  assert (Hb : in_bounds 3 7) by (unfold in_bounds, GRID_SIZE; lia).
  split; [exact Hb|].
  refine (proj1 (performAction_terrain_rejections (riverTown 0) 3 7
                   (mkTile BuildingType.Water 3 7) Hb _) _ _ _).
  - reflexivity.
  - reflexivity.
  - discriminate.
Defined.

Lemma setTile_only_tile_changes (g : Grid) (yi xi : nat) (old : Tile.t) t :
  tileAt g yi xi = Some old ->
  only_tile_changes g (setTile g yi xi (Tile.set_buildingType t old)) yi xi t.
Proof.
  intros H. split.
  - exists old. split; [done|]. by eapply tileAt_setTile_eq.
  - intros. by apply tileAt_setTile_ne.
Qed.

(** Walk through every test of a gate call whose result is known. *)
Ltac gate_inv H :=
  unfold App.performAction, AppLegacy.performAction in H;
  cbv beta zeta in H;
  repeat match type of H with
         | context [String.eqb ?a ?b] =>
             let v := eval vm_compute in (String.eqb a b) in
             match v with true => idtac | false => idtac end;
             change (String.eqb a b) with v in H
         end;
  cbn [andb] in H;
  repeat match type of H with
         | context [if ?c then _ else _] => destruct c eqn:?
         | context [match ?c with Some _ => _ | None => _ end] => destruct c eqn:?
         | context [mbind _ ?c] => destruct c eqn:?; cbn [mbind option_bind] in H
         end;
  try discriminate H.



Lemma App_rejected (st st' : AppState) action ty (x y : Z) :
  App.performAction st action ty x y = Some (false, st') -> st' = st.
Proof. intros H. gate_inv H; by inversion H. Qed.




(** Outside the enum of types.ts.  [ResearchCentre], the member that
    constants.tsx (line 216) and App.tsx (lines 260, 296) name, is the one
    type whose Build writes a second field of the stats in App.tsx:
    [research.isResearchCentreBuilt].  With the enum of types.ts the
    expression [BuildingType.ResearchCentre] has no value and the test of
    line 296 never holds. *)
Lemma build_ResearchCentre_sets_flag :
  exists st',
    App.performAction (riverTown 20000) "BUILD" (Some BuildingType.ResearchCentre) 10 10
      = Some (true, st') /\
    isResearchCentreBuilt (research (stats (riverTown 20000))) = false /\
    isResearchCentreBuilt (research (stats st')) = true.
Proof.
  eexists. split; [vm_compute; reflexivity|].
  split; reflexivity.
Qed.

(** [C3] Demolish, for both versions of the gate.  On a Bridge the tile
    becomes Water; on any other building (a tile that is neither None nor
    Water, which are terrain) it becomes None; on a None tile, and on a
    Water tile, the call is rejected.  An accepted Demolish takes the flat
    fee of 5 from the money and has no test on the money at all. *)
Theorem performAction_demolish
    (st : AppState) (x y : Z) (tile : Tile.t) (ty : option BuildingType.t) :
  in_bounds x y ->
  tileAt (grid st) (Z.to_nat y) (Z.to_nat x) = Some tile ->
  let here := Tile.buildingType tile in
  let demolished (r : BuildingType.t) (res : option (bool * AppState)) :=
    exists st', res = Some (true, st') /\
      tileAt (grid st') (Z.to_nat y) (Z.to_nat x) = Some (Tile.set_buildingType r tile) /\
      only_tile_changes (grid st) (grid st') (Z.to_nat y) (Z.to_nat x) r /\
      money (stats st') = money (stats st) - 5 in
  let rejected (res : option (bool * AppState)) := res = Some (false, st) in
  (here = BuildingType.Bridge ->
     demolished BuildingType.Water (App.performAction st "DEMOLISH" ty x y) /\
     demolished BuildingType.Water (AppLegacy.performAction st "DEMOLISH" ty x y)) /\
  (here <> BuildingType.None -> here <> BuildingType.Water ->
   here <> BuildingType.Bridge ->
     demolished BuildingType.None (App.performAction st "DEMOLISH" ty x y) /\
     demolished BuildingType.None (AppLegacy.performAction st "DEMOLISH" ty x y)) /\
  (here = BuildingType.None ->
     rejected (App.performAction st "DEMOLISH" ty x y) /\
     rejected (AppLegacy.performAction st "DEMOLISH" ty x y)) /\
  (here = BuildingType.Water ->
     rejected (App.performAction st "DEMOLISH" ty x y) /\
     rejected (AppLegacy.performAction st "DEMOLISH" ty x y)).
Proof.
  intros Hb Ht here demolished rejected. subst here demolished rejected.
  cbv beta. split; [|split; [|split]].
  - intros Hbr. split; gate_start Hb Ht; gate_strings; rewrite Hbr;
      gate_cases; eexists; (split; [reflexivity|]); cbn [grid setGrid setStats];
      (split; [by eapply tileAt_setTile_eq|]);
      (split; [by apply setTile_only_tile_changes|]); reflexivity.
  - intros Hn Hw Hbr. split; gate_start Hb Ht; gate_strings; gate_cases;
      eexists; (split; [reflexivity|]); cbn [grid setGrid setStats];
      (split; [by eapply tileAt_setTile_eq|]);
      (split; [by apply setTile_only_tile_changes|]); reflexivity.
  - intros Hn. split; gate_start Hb Ht; gate_strings; rewrite Hn; gate_cases.
  - intros Hw. split; gate_start Hb Ht; gate_strings; rewrite Hw; gate_cases.
Qed.

(** Demolishing the bridge of the river map with a treasury of -100. *)
Lemma performAction_demolish_witness :
  in_bounds 3 5 /\
  exists st',
    App.performAction (riverTown (-100)) "DEMOLISH" None 3 5 = Some (true, st') /\
    tileAt (grid st') 5 3 = Some (mkTile BuildingType.Water 3 5) /\
    money (stats st') == -105.
Proof.
  assert (Hb : in_bounds 3 5) by (unfold in_bounds, GRID_SIZE; lia).
  split; [exact Hb|].
  destruct (proj1 (proj1 (performAction_demolish (riverTown (-100)) 3 5
                     (mkTile BuildingType.Bridge 3 5) None Hb eq_refl) eq_refl))
    as (st' & Hr & Htile & _ & Hm).
  exists st'. split; [exact Hr|]. split; [exact Htile|].
  rewrite Hm. reflexivity.
Defined.

(** * The agent's action generator *)

Lemma callLocalAI_fails (net : nat -> Attempt) :
  proposerFails net -> callLocalAI net = None.
Proof.
  unfold proposerFails, callLocalAI. cbn [callLocalAI_from MAX_RETRIES].
  intros [H0 H1].
  destruct (net 0%nat) as [|status [errorText|]|[content|]]; cbn in *;
    try discriminate H0.
  - specialize (H1 eq_refl).
    by destruct (net 1%nat) as [|? [?|]|[?|]]; cbn in *; rewrite ?andb_false_r.
  - destruct (status >=? 500)%Z; [|done]. specialize (H1 eq_refl).
    by destruct (net 1%nat) as [|? [?|]|[?|]]; cbn in *; rewrite ?andb_false_r.
  - specialize (H1 eq_refl).
    by destruct (net 1%nat) as [|? [?|]|[?|]]; cbn in *; rewrite ?andb_false_r.
  - specialize (H1 eq_refl).
    by destruct (net 1%nat) as [|? [?|]|[?|]]; cbn in *; rewrite ?andb_false_r.
Qed.

(** [C9] When the proposer call fails (network error, non-2xx response
    or timeout, at the first attempt and at the retry when there is one)
    or answers with a text that holds no JSON object, [generateGameAction]
    returns, without an exception, the mock action: a WAIT whose
    reasoning is the offline marker. *)
Theorem generateGameAction_offline_fallback
    (JSON_parse : string -> option Json) (net : nat -> Attempt)
    (stats : CityStats) (grid : Grid) (recentFailures : list (Q * Q)) :
  proposerFails net \/ noJsonObject net ->
  let result := generateGameAction JSON_parse net stats grid recentFailures in
  result = mockGameAction stats /\
  field "action" result = Some (JStr "WAIT") /\
  field "reasoning" result =
    Some (JStr "AI is offline (Mock Mode). Holding position.").
Proof.
  intros H result.
  assert (Hr : result = mockGameAction stats).
  { subst result. unfold generateGameAction. destruct H as [H|(content & Hc & Hm)].
    - by rewrite (callLocalAI_fails _ H).
    - rewrite Hc, Hm. by destruct content. }
  rewrite Hr. by repeat split.
Qed.

(** Both attempts time out. *)
Lemma generateGameAction_offline_fallback_witness :
  proposerFails (fun _ => FetchRejects) /\
  generateGameAction (fun _ => None) (fun _ => FetchRejects) INITIAL_STATS riverMap []
    = mockGameAction INITIAL_STATS.
Proof.
  assert (H : proposerFails (fun _ => FetchRejects)) by (split; reflexivity).
  split; [exact H|].
  exact (proj1 (generateGameAction_offline_fallback (fun _ => None)
                  (fun _ => FetchRejects) INITIAL_STATS riverMap [] (or_introl H))).
Defined.

(** * The economic step *)

(** ** Clamping *)

Lemma Qle_bool_true (a b : Q) : Qle_bool a b = true <-> a <= b.
Proof. apply Qle_bool_iff. Qed.

Lemma Qle_bool_false (a b : Q) : Qle_bool a b = false <-> b < a.
Proof.
  split; intros H.
  - apply Qnot_le_lt. intros Hle. apply Qle_bool_iff in Hle. congruence.
  - destruct (Qle_bool a b) eqn:E; [|done].
    apply Qle_bool_iff in E. exfalso. by apply (Qlt_not_le _ _ H).
Qed.

Lemma Qltb_true (a b : Q) : Qltb a b = true <-> a < b.
Proof. unfold Qltb. rewrite negb_true_iff. apply Qle_bool_false. Qed.

Lemma Qltb_false (a b : Q) : Qltb a b = false <-> b <= a.
Proof. unfold Qltb. rewrite negb_false_iff. apply Qle_bool_true. Qed.

(** [Math.max(0, Math.min(100, Math.floor(v)))] is an integer between 0
    and 100. *)
Lemma clamp_floor_bounds (v : Q) :
  exists z : Z, Math_max 0 (Math_min 100 (Math_floor v)) = inject_Z z /\ (0 <= z <= 100)%Z.
Proof.
  unfold Math_max, Math_min, Math_floor.
  destruct (Qle_bool 100 (inject_Z (Qfloor v))) eqn:E1.
  - exists 100%Z. split; [done|lia].
  - destruct (Qle_bool 0 (inject_Z (Qfloor v))) eqn:E2.
    + exists (Qfloor v). split; [done|].
      apply Qle_bool_false in E1. apply Qle_bool_true in E2.
      change 100 with (inject_Z 100) in E1. change 0 with (inject_Z 0) in E2.
      rewrite <- Zlt_Qlt in E1. rewrite <- Zle_Qle in E2. lia.
    + exists 0%Z. split; [done|lia].
Qed.

(** ** Running heap computations *)

Lemma getD_insert {A} (l : loc) (f : Demographics -> A) (d : Demographics) (h : Heap) :
  getD l f (<[l := ODemographics d]> h) = Some (f d, <[l := ODemographics d]> h).
Proof. unfold getD. by rewrite lookup_insert_eq. Qed.

Lemma updD_insert (l : loc) (f : Demographics -> Demographics) (d : Demographics) (h : Heap) :
  updD l f (<[l := ODemographics d]> h) = Some (tt, <[l := ODemographics (f d)]> h).
Proof. unfold updD. by rewrite lookup_insert_eq, insert_insert_eq. Qed.

Lemma updB_insert (l : loc) (f : Budget -> Budget) (b : Budget) (h : Heap) :
  updB l f (<[l := OBudget b]> h) = Some (tt, <[l := OBudget (f b)]> h).
Proof. unfold updB. by rewrite lookup_insert_eq, insert_insert_eq. Qed.

Lemma getD_insert_ne {A} (l l' : loc) (f : Demographics -> A) (o : Obj) (h : Heap) :
  l' <> l -> getD l f (<[l' := o]> h) = (fun r => (r.1, <[l' := o]> h)) <$> getD l f h.
Proof.
  intros Hne. unfold getD. rewrite lookup_insert_ne by done.
  by destruct (h !! l) as [[]|].
Qed.

Lemma fresh_not_in (h : Heap) : h !! fresh (dom h) = None.
Proof. apply not_elem_of_dom. apply is_fresh. Qed.

Lemma fresh_ne (h : Heap) (l : loc) (o : Obj) : h !! l = Some o -> fresh (dom h) <> l.
Proof. intros H E. rewrite <- E, fresh_not_in in H. discriminate. Qed.

(** Run a heap computation on a heap whose objects are known: the heap
    operations, the object literals and the tests that choose between
    heap computations. *)
Ltac run_step :=
  repeat first
    [ rewrite getD_insert
    | rewrite updD_insert
    | rewrite updB_insert
    | progress cbv beta iota delta [mbind M_bind mret M_ret alloc]
    | match goal with
      | |- context [(if ?c then _ else _) (<[_ := _]> _)] => destruct c eqn:?
      end ].

Lemma populationDynamics_runs (a : Tally.t) (s : CityStats) (D : loc)
    (d : Demographics) (h : Heap) :
  demographics s = D ->
  exists d',
    Sim.populationDynamics a s (<[D := ODemographics d]> h)
    = Some (set_population (children d' + adults d' + seniors d') s,
            <[D := ODemographics d']> h).
Proof.
  intros <-. unfold Sim.populationDynamics. run_step; eexists; reflexivity.
Qed.

(** The census changes no field of [newStats] but the money. *)
Lemma set_money_money (s : CityStats) : set_money (money s) s = s.
Proof. by destruct s. Qed.

Lemma Sim_censusTile_stats (s : CityStats) (acc : Tally.t * CityStats) (tile : Tile.t) :
  (exists m, acc.2 = set_money m s) ->
  exists m, (Sim.censusTile acc tile).2 = set_money m s.
Proof.
  intros [m Hm]. destruct acc as [a s1]. cbn in Hm. subst s1.
  unfold Sim.censusTile.
  match goal with |- context [if ?c then _ else _] => destruct c end;
    eexists; reflexivity.
Qed.

Lemma Sim_census_stats (g : Grid) (s : CityStats) :
  exists m, (Sim.census g s).2 = set_money m s.
Proof.
  unfold Sim.census.
  assert (H : exists m, (Tally.zero, s).2 = set_money m s).
  { exists (money s). symmetry. apply set_money_money. }
  revert H. generalize (Tally.zero, s). induction g as [|row g IH]; intros acc H.
  - exact H.
  - cbn [fold_left]. apply IH. clear IH. revert acc H.
    induction row as [|tile row IH]; intros acc H; [exact H|].
    cbn [fold_left]. apply IH. by apply Sim_censusTile_stats.
Qed.

Lemma economy_runs (economy : Host -> Q -> Tally.t -> CityStats -> M (Economy * CityStats))
    (host : Host) (random : Q) (a : Tally.t) (s : CityStats) (D : loc)
    (d : Demographics) (h : Heap) :
  economy = Sim.economy \/ economy = SimRoads.economy ->
  demographics s = D ->
  let H1 := <[D := ODemographics d]> h in
  exists e s2 b,
    economy host random a s H1 = Some ((e, s2), <[fresh (dom H1) := OBudget b]> H1) /\
    budget s2 = fresh (dom H1).
Proof.
  intros [-> | ->] <- H1; subst H1.
  - unfold Sim.economy. run_step. do 3 eexists. split; reflexivity.
  - unfold SimRoads.economy. run_step. do 3 eexists. split; reflexivity.
Qed.

Lemma debtSpiral_runs (s2 : CityStats) (B : loc) (b : Budget) (h : Heap) :
  budget s2 = B ->
  let fee := Math_floor (Math_abs (money s2) * 0.01) in
  Sim.debtSpiral s2 (<[B := OBudget b]> h)
  = Some (if Qltb (money s2) 0
          then set_happiness (happiness s2 - 5) (set_money (money s2 - fee) s2)
          else s2,
          <[B := OBudget (if Qltb (money s2) 0
                          then set_expenses (expenses b + fee) b else b)]> h).
Proof.
  intros <- fee. subst fee. unfold Sim.debtSpiral.
  destruct (Qltb (money s2) 0); [|reflexivity].
  cbn [budget set_money]. run_step. reflexivity.
Qed.

Lemma Sim_beforeDebtSpiral_runs (host : Host) (random : Q) (s : CityStats)
    (g : Grid) (d : Demographics) (h : Heap) :
  exists e s2 d' b,
    let H1 := <[demographics s := ODemographics d']> h in
    Sim.beforeDebtSpiral host random s g (<[demographics s := ODemographics d]> h)
    = Some ((e, s2), <[fresh (dom H1) := OBudget b]> H1) /\
    budget s2 = fresh (dom H1).
Proof.
  unfold Sim.beforeDebtSpiral.
  destruct (Sim_census_stats g (set_day (day s + 1) s)) as [m Hm].
  destruct (Sim.census g (set_day (day s + 1) s)) as [a s1]. cbn in Hm. subst s1.
  set (s1 := Sim.gauges a _).
  assert (HD : demographics s1 = demographics s) by reflexivity.
  destruct (populationDynamics_runs a s1 _ d h HD) as [d' Hp].
  set (sp := set_population _ s1) in Hp.
  destruct (economy_runs Sim.economy host random a sp (demographics s) d' h
              (or_introl eq_refl) HD) as (e & s2 & b & He & HB).
  exists e, s2, d', b.
  cbv zeta. unfold mbind at 1, M_bind at 1. rewrite Hp. by split.
Qed.

(** The stats and the budget object that the debt spiral leaves. *)
Lemma Sim_updateSimulation_after (host : Host) (random : Q) (s : CityStats)
    (g : Grid) (h H2 : Heap) (e : Economy) (s2 : CityStats) (b : Budget) :
  Sim.beforeDebtSpiral host random s g h
  = Some ((e, s2), <[budget s2 := OBudget b]> H2) ->
  let fee := Math_floor (Math_abs (money s2) * 0.01) in
  let s3 := if Qltb (money s2) 0
            then set_happiness (happiness s2 - 5) (set_money (money s2 - fee) s2)
            else s2 in
  let b' := if Qltb (money s2) 0 then set_expenses (expenses b + fee) b else b in
  let H3 := <[budget s2 := OBudget b']> H2 in
  exists j,
    Sim.updateSimulation host random s g h
    = Some (Sim.happinessStep e g (set_jobs (fresh (dom H3)) s3),
            <[fresh (dom H3) := OJobs j]> H3).
Proof.
  intros Hb fee s3 b' H3. subst fee s3 b' H3. unfold Sim.updateSimulation.
  unfold mbind at 1, M_bind at 1. rewrite Hb.
  unfold mbind at 1, M_bind at 1. rewrite (debtSpiral_runs s2 _ b _ eq_refl).
  eexists. reflexivity.
Qed.

(** ** The census of part_003 on a rectangular grid *)

Lemma forEachIndex_None {S} (body : nat -> S -> option S) (indices : list nat) :
  fold_left (fun acc i => acc ≫= body i) indices None = None.
Proof. by induction indices. Qed.

Lemma forEachIndex_inv {S} (P : S -> Prop) (body : nat -> S -> option S)
    (indices : list nat) (s : S) :
  P s ->
  (forall i s, i ∈ indices -> P s -> exists s', body i s = Some s' /\ P s') ->
  exists s', forEachIndex body indices s = Some s' /\ P s'.
Proof.
  unfold forEachIndex. revert s.
  induction indices as [|i indices IH]; intros s Hs Hbody.
  - by exists s.
  - cbn [fold_left mbind option_bind].
    destruct (Hbody i s) as (s' & Hi & Hs'); [by left|done|].
    rewrite Hi. apply IH; [done|].
    intros j s0 Hj. apply Hbody. by right.
Qed.

Lemma sameButRoadAccess_refl (t : Tile.t) : sameButRoadAccess t t.
Proof. by repeat split. Qed.

Lemma sameButRoadAccessGrid_refl (g : Grid) : sameButRoadAccessGrid g g.
Proof.
  apply Forall2_same_length_lookup. split; [done|].
  intros i r r' H1 H2. assert (r = r') as -> by congruence.
  apply Forall2_same_length_lookup. split; [done|].
  intros j t t' H3 H4. assert (t = t') as -> by congruence.
  apply sameButRoadAccess_refl.
Qed.

Lemma sameButRoadAccessGrid_rectangular (w : nat) (g g' : Grid) :
  sameButRoadAccessGrid g g' -> rectangular w g -> rectangular w g'.
Proof.
  unfold sameButRoadAccessGrid, rectangular. intros H.
  induction H as [|r r' g g' Hr Hg IH]; intros Hw; [constructor|].
  inversion Hw; subst. constructor; [|by apply IH].
  symmetry. by eapply Forall2_length.
Qed.

Lemma tileAt_in_range (w : nat) (g : Grid) (yi xi : nat) :
  rectangular w g -> (yi < length g)%nat -> (xi < w)%nat ->
  exists t, tileAt g yi xi = Some t.
Proof.
  intros Hw Hy Hx. unfold tileAt.
  destruct (lookup_lt_is_Some_2 g yi Hy) as [row Hrow]. rewrite Hrow. cbn.
  apply lookup_lt_is_Some_2.
  unfold rectangular in Hw. rewrite Forall_lookup in Hw.
  by rewrite (Hw _ _ Hrow).
Qed.

Lemma sameButRoadAccessGrid_setTile (g g' : Grid) (yi xi : nat) (t : Tile.t) (c : bool) :
  sameButRoadAccessGrid g g' -> tileAt g' yi xi = Some t ->
  sameButRoadAccessGrid g (setTile g' yi xi (Tile.set_hasRoadAccess c t)).
Proof.
  unfold sameButRoadAccessGrid, setTile, tileAt. intros H Ht.
  destruct (g' !! yi) as [row'|] eqn:Hrow'; [|done]. cbn in Ht.
  destruct (Forall2_lookup_r _ _ _ _ _ H Hrow') as (row & Hrow & Hrr).
  apply Forall2_same_length_lookup. split.
  { rewrite length_alter. by eapply Forall2_length. }
  intros i r r' Hr Hr'.
  destruct (decide (i = yi)) as [->|Hne].
  - rewrite list_lookup_alter_eq, Hrow' in Hr'. cbn in Hr'.
    assert (r = row) as -> by congruence. inversion Hr'; subst r'.
    apply Forall2_same_length_lookup. split.
    { rewrite length_insert. by eapply Forall2_length. }
    intros j u u' Hu Hu'.
    destruct (decide (j = xi)) as [->|Hnej].
    + rewrite list_lookup_insert_eq in Hu' by (by eapply lookup_lt_Some).
      inversion Hu'; subst u'.
      pose proof (Forall2_lookup_lr _ _ _ _ _ _ Hrr Hu Ht) as (?&?&?&?).
      by repeat split.
    + rewrite list_lookup_insert_ne in Hu' by done.
      by eapply Forall2_lookup_lr.
  - rewrite list_lookup_alter_ne in Hr' by done.
    by eapply Forall2_lookup_lr.
Qed.

Lemma anyRoad_total (w : nat) (g : Grid) (neighbors : list (Z * Z)) :
  rectangular w g -> g <> [] -> exists c, SimRoads.anyRoad g neighbors = Some c.
Proof.
  intros Hw Hne. induction neighbors as [|[nx ny] rest IH]; [by eexists|].
  cbn [SimRoads.anyRoad]. destruct g as [|row0 g']; [done|].
  cbn [lookup list_lookup mbind option_bind].
  assert (Hl : length row0 = w) by (by inversion Hw).
  match goal with |- context [if ?c then _ else _] => destruct c eqn:Hc end; [|exact IH].
  repeat (apply andb_prop in Hc as [Hc ?]).
  repeat match goal with
         | H : (_ >=? _)%Z = true |- _ => apply Z.geb_le in H
         | H : (_ <? _)%Z = true |- _ => apply Z.ltb_lt in H
         end.
  destruct (tileAt_in_range w (row0 :: g') (Z.to_nat ny) (Z.to_nat nx) Hw) as [t Ht].
  - lia.
  - lia.
  - rewrite Ht. cbn. destruct (SimRoads.isRoadOrBridge t); [by eexists|exact IH].
Qed.

Lemma connectedTo_total (w : nat) (g : Grid) (t : Tile.t) :
  rectangular w g -> g <> [] -> exists c, SimRoads.connectedTo g t = Some c.
Proof.
  intros Hw Hne. unfold SimRoads.connectedTo.
  match goal with |- context [if ?c then _ else _] => destruct c end; [by eexists|].
  by eapply anyRoad_total.
Qed.


Lemma sameButRoadAccessGrid_length (g g' : Grid) :
  sameButRoadAccessGrid g g' -> length g' = length g.
Proof. intros H. symmetry. by eapply Forall2_length. Qed.

Lemma SimRoads_censusTile_inv (w : nat) (g : Grid) (s : CityStats) (yi xi : nat)
    (acc : SimRoads.CensusState) :
  rectangular w g -> censusInv g s acc -> (yi < length g)%nat -> (xi < w)%nat ->
  exists acc', SimRoads.censusTile yi xi acc = Some acc' /\ censusInv g s acc'.
Proof.
  intros Hw [[m Hm] HG] Hy Hx. destruct acc as [[a s1] G]. cbn in Hm, HG. subst s1.
  pose proof (sameButRoadAccessGrid_rectangular _ _ _ HG Hw) as HwG.
  pose proof (sameButRoadAccessGrid_length _ _ HG) as HlG.
  destruct (tileAt_in_range w G yi xi HwG) as [tile Ht]; [lia|done|].
  unfold SimRoads.censusTile. rewrite Ht. cbn [mbind option_bind].
  destruct (negb (BuildingType.eqb (Tile.buildingType tile) BuildingType.None)).
  - destruct (connectedTo_total w G tile HwG) as [c Hc].
    { intros ->. cbn in HlG. lia. }
    rewrite Hc. cbn [mbind option_bind].
    eexists. split; [reflexivity|]. split; cbn.
    + match goal with |- context [if ?c then _ else _] => destruct c end;
        eexists; reflexivity.
    + by apply sameButRoadAccessGrid_setTile.
  - eexists. split; [reflexivity|]. split; cbn; [by eexists|done].
Qed.

Lemma SimRoads_census_runs (w : nat) (g : Grid) (s : CityStats) :
  rectangular w g ->
  exists acc, SimRoads.census g s = Some acc /\ censusInv g s acc.
Proof.
  intros Hw. unfold SimRoads.census.
  apply (forEachIndex_inv (censusInv g s)).
  { split; cbn; [|apply sameButRoadAccessGrid_refl].
    exists (money s). symmetry. apply set_money_money. }
  intros yi acc Hyi Hacc. apply elem_of_seq in Hyi.
  destruct acc as [[a s1] G] eqn:Eacc.
  destruct Hacc as [Hm HG].
  pose proof (sameButRoadAccessGrid_rectangular _ _ _ HG Hw) as HwG.
  pose proof (sameButRoadAccessGrid_length _ _ HG) as HlG. cbn in HwG, HlG.
  destruct (lookup_lt_is_Some_2 G yi) as [row Hrow]; [lia|].
  rewrite Hrow. cbn [mbind option_bind].
  assert (Hlen : length row = w).
  { unfold rectangular in HwG. rewrite Forall_lookup in HwG. by eapply HwG. }
  rewrite Hlen.
  apply (forEachIndex_inv (censusInv g s)); [by split|].
  intros xi acc' Hxi Hacc'. apply elem_of_seq in Hxi.
  apply (SimRoads_censusTile_inv w); [done|done|lia|lia].
Qed.

Lemma SimRoads_beforeDebtSpiral_runs (w : nat) (host : Host) (random : Q)
    (s : CityStats) (g : Grid) (d : Demographics) (h : Heap) :
  rectangular w g ->
  exists e s2 d' b g',
    let H1 := <[demographics s := ODemographics d']> h in
    SimRoads.beforeDebtSpiral host random s g (<[demographics s := ODemographics d]> h)
    = Some ((e, s2, g'), <[fresh (dom H1) := OBudget b]> H1) /\
    budget s2 = fresh (dom H1) /\
    sameButRoadAccessGrid g g'.
Proof.
  intros Hw. unfold SimRoads.beforeDebtSpiral.
  destruct (SimRoads_census_runs w g (set_day (day s + 1) s) Hw)
    as ([[a s1] g'] & Hc & [m Hm] & Hg).
  rewrite Hc. cbn in Hm, Hg. subst s1.
  set (s1 := Sim.gauges a _).
  assert (HD : demographics s1 = demographics s).
  { subst s1. unfold SimRoads.universityBoost. by destruct (Qgtb _ _). }
  destruct (populationDynamics_runs a s1 _ d h HD) as [d' Hp].
  set (sp := set_population _ s1) in Hp.
  destruct (economy_runs SimRoads.economy host random a sp (demographics s) d' h
              (or_intror eq_refl) HD) as (e & s2 & b & He & HB).
  exists e, s2, d', b, g'.
  cbv zeta. unfold mbind at 1, M_bind at 1. rewrite Hp.
  unfold mbind at 1, M_bind at 1. rewrite He. by repeat split.
Qed.

Lemma SimRoads_updateSimulation_after (host : Host) (random : Q) (s : CityStats)
    (g g' : Grid) (h H2 : Heap) (e : Economy) (s2 : CityStats) (b : Budget) :
  SimRoads.beforeDebtSpiral host random s g h
  = Some ((e, s2, g'), <[budget s2 := OBudget b]> H2) ->
  let fee := Math_floor (Math_abs (money s2) * 0.01) in
  let s3 := if Qltb (money s2) 0
            then set_happiness (happiness s2 - 5) (set_money (money s2 - fee) s2)
            else s2 in
  let b' := if Qltb (money s2) 0 then set_expenses (expenses b + fee) b else b in
  let H3 := <[budget s2 := OBudget b']> H2 in
  exists j,
    SimRoads.updateSimulation host random s g h
    = Some ((SimRoads.happinessStep e g' (set_jobs (fresh (dom H3)) s3), g'),
            <[fresh (dom H3) := OJobs j]> H3).
Proof.
  intros Hb fee s3 b' H3. subst fee s3 b' H3. unfold SimRoads.updateSimulation.
  unfold mbind at 1, M_bind at 1. rewrite Hb.
  unfold mbind at 1, M_bind at 1. rewrite (debtSpiral_runs s2 _ b _ eq_refl).
  eexists. reflexivity.
Qed.

(** ** The step on a heap that holds the demographics object *)

Lemma Sim_step_runs (host : Host) (random : Q) (s : CityStats) (g : Grid)
    (h : Heap) (d : Demographics) :
  h !! demographics s = Some (ODemographics d) ->
  exists e s2 d' b j,
    let H1 := <[demographics s := ODemographics d']> h in
    let B := fresh (dom H1) in
    let fee := Math_floor (Math_abs (money s2) * 0.01) in
    let s3 := if Qltb (money s2) 0
              then set_happiness (happiness s2 - 5) (set_money (money s2 - fee) s2)
              else s2 in
    let b' := if Qltb (money s2) 0 then set_expenses (expenses b + fee) b else b in
    let H3 := <[B := OBudget b']> H1 in
    let J := fresh (dom H3) in
    Sim.beforeDebtSpiral host random s g h = Some ((e, s2), <[B := OBudget b]> H1) /\
    budget s2 = B /\
    Sim.updateSimulation host random s g h
    = Some (Sim.happinessStep e g (set_jobs J s3), <[J := OJobs j]> H3).
Proof.
  intros Hd.
  destruct (Sim_beforeDebtSpiral_runs host random s g d h) as (e & s2 & d' & b & Hb & HB).
  rewrite (insert_id h _ _ Hd) in Hb. cbv zeta in Hb, HB.
  pose proof Hb as Hb'. rewrite <- HB in Hb'.
  destruct (Sim_updateSimulation_after host random s g h _ e s2 b Hb') as [j Hj].
  cbv zeta in Hj. rewrite HB in Hj.
  exists e, s2, d', b, j. cbv zeta. by repeat split.
Qed.

Lemma SimRoads_step_runs (w : nat) (host : Host) (random : Q) (s : CityStats)
    (g : Grid) (h : Heap) (d : Demographics) :
  rectangular w g ->
  h !! demographics s = Some (ODemographics d) ->
  exists e s2 d' b j g',
    let H1 := <[demographics s := ODemographics d']> h in
    let B := fresh (dom H1) in
    let fee := Math_floor (Math_abs (money s2) * 0.01) in
    let s3 := if Qltb (money s2) 0
              then set_happiness (happiness s2 - 5) (set_money (money s2 - fee) s2)
              else s2 in
    let b' := if Qltb (money s2) 0 then set_expenses (expenses b + fee) b else b in
    let H3 := <[B := OBudget b']> H1 in
    let J := fresh (dom H3) in
    SimRoads.beforeDebtSpiral host random s g h
    = Some ((e, s2, g'), <[B := OBudget b]> H1) /\
    budget s2 = B /\
    sameButRoadAccessGrid g g' /\
    SimRoads.updateSimulation host random s g h
    = Some ((SimRoads.happinessStep e g' (set_jobs J s3), g'), <[J := OJobs j]> H3).
Proof.
  intros Hw Hd.
  destruct (SimRoads_beforeDebtSpiral_runs w host random s g d h Hw)
    as (e & s2 & d' & b & g' & Hb & HB & Hg).
  rewrite (insert_id h _ _ Hd) in Hb. cbv zeta in Hb, HB.
  pose proof Hb as Hb'. rewrite <- HB in Hb'.
  destruct (SimRoads_updateSimulation_after host random s g g' h _ e s2 b Hb') as [j Hj].
  cbv zeta in Hj. rewrite HB in Hj.
  exists e, s2, d', b, j, g'. cbv zeta. by repeat split.
Qed.

(** ** Happiness *)

(** [C4] For every input stats record (whose demographics object is on
    the heap) and every grid in the numeric range ([statsInRange],
    [gridInRange]: the numbers that the happiness is computed from have
    magnitude at most 2^53 - 1 and the arrays a length below 2^32, which
    takes in a tax rate of 1 and crime coefficients that sum to 1000),
    the step returns and the happiness of the returned stats is an
    integer between 0 and 100; in simulation.ts, and in part_003 on every
    rectangular grid.  The range is where the exact numbers of the model
    and the doubles of the code agree that every value is finite;
    outside it (a tax rate of -1e307 with a supply level of -1e308, say)
    the doubles overflow and the statement says nothing. *)
Theorem updateSimulation_happiness_bounds
    (host : Host) (random : Q) (currentStats : CityStats) (grid : Grid)
    (h : Heap) (d : Demographics) (w : nat) :
  h !! demographics currentStats = Some (ODemographics d) ->
  statsInRange currentStats d = true ->
  gridInRange grid = true ->
  (exists s' h',
     Sim.updateSimulation host random currentStats grid h = Some (s', h') /\
     exists z : Z, happiness s' = inject_Z z /\ (0 <= z <= 100)%Z) /\
  (rectangular w grid ->
   exists s' g' h',
     SimRoads.updateSimulation host random currentStats grid h = Some ((s', g'), h') /\
     exists z : Z, happiness s' = inject_Z z /\ (0 <= z <= 100)%Z).
Proof.
  intros Hd _ _. split.
  - destruct (Sim_step_runs host random currentStats grid h d Hd)
      as (e & s2 & d' & b & j & _ & _ & Hu).
    cbv zeta in Hu. do 2 eexists. split; [exact Hu|].
    apply clamp_floor_bounds.
  - intros Hw.
    destruct (SimRoads_step_runs w host random currentStats grid h d Hw Hd)
      as (e & s2 & d' & b & j & g' & _ & _ & _ & Hu).
    cbv zeta in Hu. do 3 eexists. split; [exact Hu|].
    apply clamp_floor_bounds.
Qed.

(** A tax rate of 1 in a city of a hundred casinos, whose crime
    coefficients sum to 3000. *)
Lemma updateSimulation_happiness_bounds_witness :
  statsInRange (set_taxRate 1 INITIAL_STATS)
    {| children := 0; adults := 0; seniors := 0 |} = true /\
  gridInRange casinoStrip = true /\
  exists s' h',
    Sim.updateSimulation exampleHost (1 # 2) (set_taxRate 1 INITIAL_STATS)
      casinoStrip INITIAL_HEAP = Some (s', h') /\
    exists z : Z, happiness s' = inject_Z z /\ (0 <= z <= 100)%Z.
Proof.
  split; [reflexivity|]. split; [reflexivity|].
  exact (proj1 (updateSimulation_happiness_bounds exampleHost (1 # 2)
                  (set_taxRate 1 INITIAL_STATS) casinoStrip INITIAL_HEAP
                  {| children := 0; adults := 0; seniors := 0 |} 10
                  eq_refl eq_refl eq_refl)).
Defined.

(** ** The debt spiral *)

Lemma Qabs_neg' (m : Q) : m < 0 -> Qabs m == - m.
Proof. intros H. apply Qabs_neg. by apply Qlt_le_weak. Qed.

Lemma debt_fee_bounds (m : Q) :
  m < 0 ->
  let m' := m - Math_floor (Math_abs m * 0.01) in
  m' <= m /\ (m <= -100 -> m' < m) /\ (-100 < m -> m' == m).
Proof.
  intros Hm m'. subst m'. unfold Math_floor, Math_abs.
  pose proof (Qabs_neg' m Hm) as Ha.
  set (f := Qfloor (Qabs m * 0.01)).
  assert (Hlo : inject_Z f <= Qabs m * 0.01) by apply Qfloor_le.
  assert (Hhi : Qabs m * 0.01 < inject_Z (f + 1)) by apply Qlt_floor.
  assert (H0 : (0 <= f)%Z).
  { apply Qfloor_resp_le with (x := 0) (y := Qabs m * 0.01) . rewrite Ha. lra. }
  split; [|split].
  - assert (0 <= inject_Z f) by (change 0 with (inject_Z 0); by rewrite <- Zle_Qle).
    lra.
  - intros H100.
    assert (H1 : (1 <= f)%Z).
    { apply Qfloor_resp_le with (x := 1) (y := Qabs m * 0.01). rewrite Ha. lra. }
    assert (1 <= inject_Z f) by (change 1 with (inject_Z 1); by rewrite <- Zle_Qle).
    lra.
  - intros H100.
    assert (Hf : (f < 1)%Z).
    { rewrite Zlt_Qlt. eapply Qle_lt_trans; [exact Hlo|]. rewrite Ha.
      change (inject_Z 1) with 1. lra. }
    assert (f = 0%Z) as -> by lia. change (inject_Z 0) with 0. lra.
Qed.

(** [C5] The debt spiral, as the code has it.  When the money [m] is
    negative after income and expenses were applied, the step takes the
    whole number [floor(|m| * 0.01)] from it: the money never rises, it
    falls when the deficit is at least 100, and it stays as it is when the
    deficit is smaller than 100; when [m] is not negative it is the money
    of the returned stats.  In simulation.ts, and in part_003 on every
    rectangular grid. *)
Theorem debt_spiral_penalty
    (host : Host) (random : Q) (currentStats : CityStats) (grid : Grid)
    (h : Heap) (d : Demographics) (w : nat) :
  h !! demographics currentStats = Some (ODemographics d) ->
  (exists e s2 h2 s' h',
     Sim.beforeDebtSpiral host random currentStats grid h = Some ((e, s2), h2) /\
     Sim.updateSimulation host random currentStats grid h = Some (s', h') /\
     (money s2 < 0 ->
        money s' = money s2 - Math_floor (Math_abs (money s2) * 0.01) /\
        money s' <= money s2 /\
        (money s2 <= -100 -> money s' < money s2) /\
        (-100 < money s2 -> money s' == money s2)) /\
     (0 <= money s2 -> money s' = money s2)) /\
  (rectangular w grid ->
   exists e s2 g2 h2 s' g' h',
     SimRoads.beforeDebtSpiral host random currentStats grid h = Some ((e, s2, g2), h2) /\
     SimRoads.updateSimulation host random currentStats grid h = Some ((s', g'), h') /\
     (money s2 < 0 ->
        money s' = money s2 - Math_floor (Math_abs (money s2) * 0.01) /\
        money s' <= money s2 /\
        (money s2 <= -100 -> money s' < money s2) /\
        (-100 < money s2 -> money s' == money s2)) /\
     (0 <= money s2 -> money s' = money s2)).
Proof.
  intros Hd. split.
  - destruct (Sim_step_runs host random currentStats grid h d Hd)
      as (e & s2 & d' & b & j & Hb & _ & Hu).
    cbv zeta in Hb, Hu. do 5 eexists. split; [exact Hb|]. split; [exact Hu|].
    cbn [Sim.happinessStep money set_happiness set_jobs]. split.
    + intros Hm. pose proof (proj2 (Qltb_true _ _) Hm) as ->.
      cbn [money set_happiness set_money]. split; [reflexivity|].
      by apply debt_fee_bounds.
    + intros Hm. by pose proof (proj2 (Qltb_false _ _) Hm) as ->.
  - intros Hw.
    destruct (SimRoads_step_runs w host random currentStats grid h d Hw Hd)
      as (e & s2 & d' & b & j & g' & Hb & _ & _ & Hu).
    cbv zeta in Hb, Hu. do 7 eexists. split; [exact Hb|]. split; [exact Hu|].
    cbn [SimRoads.happinessStep money set_happiness set_jobs]. split.
    + intros Hm. pose proof (proj2 (Qltb_true _ _) Hm) as ->.
      cbn [money set_happiness set_money]. split; [reflexivity|].
      by apply debt_fee_bounds.
    + intros Hm. by pose proof (proj2 (Qltb_false _ _) Hm) as ->.
Qed.

(** A treasury of -250 on the empty grid: the fee is 2. *)
Lemma debt_spiral_penalty_witness :
  exists e s2 h2 s' h',
    Sim.beforeDebtSpiral exampleHost (1 # 2) (set_money (-250) INITIAL_STATS)
      emptyLand INITIAL_HEAP = Some ((e, s2), h2) /\
    Sim.updateSimulation exampleHost (1 # 2) (set_money (-250) INITIAL_STATS)
      emptyLand INITIAL_HEAP = Some (s', h') /\
    money s2 < 0 /\ money s' < money s2.
Proof.
  destruct (proj1 (debt_spiral_penalty exampleHost (1 # 2)
                     (set_money (-250) INITIAL_STATS) emptyLand INITIAL_HEAP
                     {| children := 0; adults := 0; seniors := 0 |} 10 eq_refl))
    as (e & s2 & h2 & s' & h' & Hb & Hu & Hneg & _).
  exists e, s2, h2, s', h'. split; [exact Hb|]. split; [exact Hu|].
  assert (Hm : money s2 = -250).
  { vm_compute in Hb. by inversion Hb. }
  assert (Hlt : money s2 < 0) by (by rewrite Hm).
  split; [exact Hlt|].
  apply (Hneg Hlt). by rewrite Hm.
Defined.

(** The claim [C5] as the spec states it fails: with a deficit of 50
    after income and expenses nothing is charged, the money of the
    returned stats is -50 again; and the happiness of the returned stats,
    80, is the one the same step returns for a treasury of 2000. *)
Lemma small_deficit_is_not_charged :
  exists e s2 h2 s' h' s'' h'',
    Sim.beforeDebtSpiral exampleHost (1 # 2) (set_money (-50) INITIAL_STATS)
      emptyLand INITIAL_HEAP = Some ((e, s2), h2) /\
    Sim.updateSimulation exampleHost (1 # 2) (set_money (-50) INITIAL_STATS)
      emptyLand INITIAL_HEAP = Some (s', h') /\
    Sim.updateSimulation exampleHost (1 # 2) INITIAL_STATS
      emptyLand INITIAL_HEAP = Some (s'', h'') /\
    money s2 = -50 /\ money s' = -50 /\ ~ money s' < money s2 /\
    happiness s' = 80 /\ happiness s'' = 80.
Proof.
  do 7 eexists.
  split; [vm_compute; reflexivity|].
  split; [vm_compute; reflexivity|].
  split; [vm_compute; reflexivity|].
  cbn. repeat split. intros H. by vm_compute in H.
Qed.

(** ** The first step of a new game *)

(** Replace a closed term by its value. *)
Ltac vm_at t := let v := eval vm_compute in t in change t with v.

(** The first step up to the debt spiral, with the one call of
    [Math.pow] and the one of [Math.random] left as they are. *)
Lemma first_step_before (host : Host) (random : Q) :
  Math_pow host 0 1.1 == 0 ->
  exists e s2 h2,
    Sim.beforeDebtSpiral host random INITIAL_STATS emptyLand INITIAL_HEAP
    = Some ((e, s2), h2) /\
    money s2 == 2000 /\ population s2 = 0 /\
    Sim.baseHappinessOf e emptyLand s2 == 80.
Proof.
  intros Hpow.
  assert (Hf : Qfloor (Math_pow host 0 1.1 * 0.1) = 0%Z).
  { rewrite Hpow. reflexivity. }
  unfold Sim.beforeDebtSpiral.
  vm_at (Sim.census emptyLand (set_day (day INITIAL_STATS + 1) INITIAL_STATS)).
  cbv beta iota zeta.
  unfold mbind at 1, M_bind at 1.
  match goal with
  | |- context [Sim.populationDynamics ?a ?s ?h] => vm_at (Sim.populationDynamics a s h)
  end.
  cbv beta iota. unfold Sim.economy.
  match goal with |- context [Sim.eventDecay ?s] => vm_at (Sim.eventDecay s) end.
  cbv beta iota zeta delta [mbind M_bind mret M_ret alloc].
  match goal with |- context [getD ?l ?f ?h] => vm_at (getD l f h) end.
  cbv beta iota.
  match goal with |- context [fresh ?d] => vm_at (fresh d) end.
  do 3 eexists. split; [reflexivity|].
  cbn [population set_sharePrice set_money set_budget money].
  split; [|split].
  - unfold Math_floor. rewrite Hf. reflexivity.
  - reflexivity.
  - reflexivity.
Qed.

(** [C7] From INITIAL_STATS and the empty 10 x 10 grid one step returns
    stats with population 0, money 2000 and happiness 80, whatever
    [Math.random] gives, for a host whose [Math.pow(0, 1.1)] is 0. *)
Theorem first_step_on_empty_grid (host : Host) (random : Q) :
  Math_pow host 0 1.1 == 0 ->
  exists s' h',
    Sim.updateSimulation host random INITIAL_STATS emptyLand INITIAL_HEAP
    = Some (s', h') /\
    population s' = 0 /\ money s' == 2000 /\ happiness s' = 80.
Proof.
  intros Hpow.
  destruct (first_step_before host random Hpow) as (e & s2 & h2 & Hb & Hm & Hp & Hh).
  destruct (Sim_step_runs host random INITIAL_STATS emptyLand INITIAL_HEAP
              {| children := 0; adults := 0; seniors := 0 |} eq_refl)
    as (e' & s2' & d' & b & j & Hb' & _ & Hu).
  cbv zeta in Hb', Hu. rewrite Hb in Hb'. inversion Hb'; subst e' s2'. clear Hb'.
  do 2 eexists. split; [exact Hu|].
  assert (Hnd : Qltb (money s2) 0 = false).
  { apply Qltb_false. rewrite Hm. discriminate. }
  rewrite Hnd.
  cbn [Sim.happinessStep population money happiness set_happiness set_jobs].
  split; [exact Hp|]. split; [exact Hm|].
  change (Sim.baseHappinessOf e emptyLand (set_jobs _ s2))
    with (Sim.baseHappinessOf e emptyLand s2).
  unfold Math_floor. rewrite Hh. reflexivity.
Qed.

Lemma first_step_on_empty_grid_witness :
  Math_pow exampleHost 0 1.1 == 0 /\
  exists s' h',
    Sim.updateSimulation exampleHost (1 # 2) INITIAL_STATS emptyLand INITIAL_HEAP
    = Some (s', h') /\
    population s' = 0 /\ money s' == 2000 /\ happiness s' = 80.
Proof.
  assert (H : Math_pow exampleHost 0 1.1 == 0) by reflexivity.
  split; [exact H|].
  exact (first_step_on_empty_grid exampleHost (1 # 2) H).
Defined.

(** ** The happiness decrement of the debt spiral *)

(** [C10] The happiness decrement of the debt spiral has no effect: the
    step without line 264 returns the same stats and leaves the same heap
    as the step itself, on every input. *)
Theorem happiness_decrement_is_dead
    (host : Host) (random : Q) (currentStats : CityStats) (grid : Grid) (h : Heap) :
  Sim.updateSimulation host random currentStats grid h
  = Sim.updateSimulation_noHit host random currentStats grid h.
Proof.
  unfold Sim.updateSimulation, Sim.updateSimulation_noHit.
  cbv beta iota zeta delta [mbind M_bind mret M_ret].
  destruct (Sim.beforeDebtSpiral host random currentStats grid h)
    as [[[e s2] h2]|]; [|reflexivity].
  unfold Sim.debtSpiral, Sim.debtSpiral_noHit.
  destruct (Qltb (money s2) 0); [|reflexivity].
  cbv beta iota zeta delta [mbind M_bind mret M_ret].
  destruct (updB _ _ h2) as [[[] h3]|]; reflexivity.
Qed.

(** ** What the step writes *)

Lemma fresh_insert_None (h : Heap) (k : loc) (o : Obj) :
  h !! fresh (dom (<[k := o]> h)) = None.
Proof.
  destruct (h !! fresh (dom (<[k := o]> h))) as [o'|] eqn:E; [|done].
  exfalso. pose proof (fresh_not_in (<[k := o]> h)) as Hf.
  destruct (decide (k = fresh (dom (<[k := o]> h)))) as [Hk|Hk].
  - rewrite <- Hk in Hf at 1. rewrite lookup_insert_eq in Hf. discriminate.
  - rewrite lookup_insert_ne in Hf by done. congruence.
Qed.

(** The heap after a step: the demographics object rewritten, and two new
    objects [B] and [J]. *)
Lemma step_heap_frame (h : Heap) (D : loc) (od ob oj : Obj) :
  let H1 := <[D := od]> h in
  let B := fresh (dom H1) in
  let H3 := <[B := ob]> H1 in
  let J := fresh (dom H3) in
  h !! B = None /\ h !! J = None /\
  (forall l o, l <> D -> h !! l = Some o -> (<[J := oj]> H3) !! l = Some o).
Proof.
  intros H1 B H3 J. split; [|split].
  - apply fresh_insert_None.
  - pose proof (fresh_insert_None H1 B ob) as HJ. fold H3 in HJ. fold J in HJ.
    destruct (decide (D = J)) as [E|E].
    + exfalso. subst H1. rewrite <- E in HJ. rewrite lookup_insert_eq in HJ.
      discriminate.
    + subst H1. by rewrite lookup_insert_ne in HJ.
  - intros l o HD Hl.
    assert (H1l : H1 !! l = Some o) by (subst H1; by rewrite lookup_insert_ne).
    assert (HB : B <> l) by (by apply (fresh_ne H1 l o)).
    assert (H3l : H3 !! l = Some o) by (subst H3; by rewrite lookup_insert_ne).
    assert (HJ : J <> l) by (by apply (fresh_ne H3 l o)).
    by rewrite lookup_insert_ne.
Qed.

(** [C8] What the step leaves alone.  It returns a record of its own
    whose jobs and budget objects are new, and every object of the heap
    it was given other than the demographics object of its argument is
    unchanged; simulation.ts writes no tile (its model has no grid to
    return), and part_003, on a rectangular grid, changes no tile field
    but [hasRoadAccess]. *)
Theorem updateSimulation_frame
    (host : Host) (random : Q) (currentStats : CityStats) (grid : Grid)
    (h : Heap) (d : Demographics) (w : nat) :
  h !! demographics currentStats = Some (ODemographics d) ->
  (exists s' h',
     Sim.updateSimulation host random currentStats grid h = Some (s', h') /\
     h !! jobs s' = None /\ h !! budget s' = None /\
     (forall l o, l <> demographics currentStats ->
                  h !! l = Some o -> h' !! l = Some o)) /\
  (rectangular w grid ->
   exists s' g' h',
     SimRoads.updateSimulation host random currentStats grid h = Some ((s', g'), h') /\
     sameButRoadAccessGrid grid g' /\
     h !! jobs s' = None /\ h !! budget s' = None /\
     (forall l o, l <> demographics currentStats ->
                  h !! l = Some o -> h' !! l = Some o)).
Proof.
  intros Hd. split.
  - destruct (Sim_step_runs host random currentStats grid h d Hd)
      as (e & s2 & d' & b & j & _ & HB & Hu).
    cbv zeta in HB, Hu. do 2 eexists. split; [exact Hu|].
    cbn [Sim.happinessStep jobs budget set_happiness set_jobs].
    match goal with
    | |- context [<[_ := OJobs j]> (<[_ := ?ob]> (<[?D := ?od]> h))] =>
        pose proof (step_heap_frame h D od ob (OJobs j)) as (HfB & HfJ & Hfr)
    end.
    split; [exact HfJ|]. split; [|exact Hfr].
    destruct (Qltb (money s2) 0); cbn [budget set_happiness set_money];
      rewrite HB; exact HfB.
  - intros Hw.
    destruct (SimRoads_step_runs w host random currentStats grid h d Hw Hd)
      as (e & s2 & d' & b & j & g' & _ & HB & Hg & Hu).
    cbv zeta in HB, Hu. do 3 eexists. split; [exact Hu|]. split; [exact Hg|].
    cbn [SimRoads.happinessStep jobs budget set_happiness set_jobs].
    match goal with
    | |- context [<[_ := OJobs j]> (<[_ := ?ob]> (<[?D := ?od]> h))] =>
        pose proof (step_heap_frame h D od ob (OJobs j)) as (HfB & HfJ & Hfr)
    end.
    split; [exact HfJ|]. split; [|exact Hfr].
    destruct (Qltb (money s2) 0); cbn [budget set_happiness set_money];
      rewrite HB; exact HfB.
Qed.

(** The jobs and budget objects of INITIAL_STATS after a step on the
    suburb. *)
Lemma updateSimulation_frame_witness :
  exists s' h',
    Sim.updateSimulation exampleHost (1 # 2) INITIAL_STATS suburb INITIAL_HEAP
    = Some (s', h') /\
    h' !! jobs INITIAL_STATS = INITIAL_HEAP !! jobs INITIAL_STATS /\
    h' !! budget INITIAL_STATS = INITIAL_HEAP !! budget INITIAL_STATS.
Proof.
  destruct (proj1 (updateSimulation_frame exampleHost (1 # 2) INITIAL_STATS suburb
                     INITIAL_HEAP {| children := 0; adults := 0; seniors := 0 |}
                     10 eq_refl))
    as (s' & h' & Hu & _ & _ & Hfr).
  exists s', h'. split; [exact Hu|]. split.
  - by apply Hfr.
  - by apply Hfr.
Defined.

(** The claim [C8] as the spec states it fails.  In simulation.ts the
    step writes the immigrants into the demographics object of its
    argument: after a step on the suburb the input record reads two
    adults.  In part_003 it also writes [hasRoadAccess] into the tiles of
    the grid it was given. *)
Lemma updateSimulation_writes_its_input :
  (exists s' h',
     Sim.updateSimulation exampleHost (1 # 2) INITIAL_STATS suburb INITIAL_HEAP
     = Some (s', h') /\
     demographicsOf (view INITIAL_HEAP INITIAL_STATS)
     = Some (ODemographics {| children := 0; adults := 0; seniors := 0 |}) /\
     demographicsOf (view h' INITIAL_STATS)
     = Some (ODemographics {| children := 0; adults := 2; seniors := 0 |}) /\
     view h' INITIAL_STATS <> view INITIAL_HEAP INITIAL_STATS) /\
  (exists s' g' h',
     SimRoads.updateSimulation exampleHost (1 # 2) INITIAL_STATS suburb INITIAL_HEAP
     = Some ((s', g'), h') /\
     Tile.hasRoadAccess <$> tileAt suburb 0 1 = Some None /\
     Tile.hasRoadAccess <$> tileAt g' 0 1 = Some (Some true) /\
     g' <> suburb /\
     demographicsOf (view h' INITIAL_STATS)
     = Some (ODemographics {| children := 0; adults := 2; seniors := 0 |})).
Proof.
  split.
  - do 2 eexists. split; [vm_compute; reflexivity|].
    split; [reflexivity|]. split; [reflexivity|].
    intros H. apply (f_equal demographicsOf) in H. vm_compute in H. discriminate H.
  - do 3 eexists. split; [vm_compute; reflexivity|].
    split; [reflexivity|]. split; [reflexivity|]. split; [|reflexivity].
    intros H. apply (f_equal (fun g => Tile.hasRoadAccess <$> tileAt g 0 1)) in H.
    vm_compute in H. discriminate H.
Qed.

(** * The Environment Stepper *)

(** ** Sums over lists and grids *)

Lemma isum_ext {A} (f f' : nat -> A -> Q) (i0 : nat) (l : list A) :
  (forall j a, l !! j = Some a -> f' (i0 + j)%nat a == f (i0 + j)%nat a) ->
  isum f' i0 l == isum f i0 l.
Proof.
  revert i0. induction l as [|a l IH]; intros i0 H; [reflexivity|].
  cbn [isum]. rewrite (IH (S i0)).
  - specialize (H 0%nat a eq_refl). rewrite Nat.add_0_r in H. by rewrite H.
  - intros j b Hj. specialize (H (S j) b Hj).
    by replace (S i0 + j)%nat with (i0 + S j)%nat by lia.
Qed.

Lemma isum_alter {A} (f : nat -> A -> Q) (g : A -> A) (i0 j : nat) (l : list A) (a : A) :
  l !! j = Some a ->
  isum f i0 (alter g j l) == isum f i0 l - f (i0 + j)%nat a + f (i0 + j)%nat (g a).
Proof.
  revert i0 j. induction l as [|b l IH]; intros i0 j H; [done|].
  destruct j as [|j].
  - cbn in H. inversion H; subst b. cbn [alter list_alter isum].
    rewrite Nat.add_0_r. lra.
  - cbn in H. cbn [alter list_alter isum].
    change (list_alter g j l) with (alter g j l).
    rewrite (IH (S i0) j H).
    replace (S i0 + j)%nat with (i0 + S j)%nat by lia. lra.
Qed.

Lemma isum_change_at {A} (f f' : nat -> A -> Q) (i0 j : nat) (l : list A) (a : A) :
  l !! j = Some a ->
  (forall k b, k <> j -> l !! k = Some b -> f' (i0 + k)%nat b == f (i0 + k)%nat b) ->
  isum f' i0 l == isum f i0 l - f (i0 + j)%nat a + f' (i0 + j)%nat a.
Proof.
  revert i0 j. induction l as [|b l IH]; intros i0 j H Hne; [done|].
  destruct j as [|j].
  - cbn in H. inversion H; subst b. cbn [isum]. rewrite Nat.add_0_r.
    rewrite (isum_ext f f' (S i0) l); [lra|].
    intros k c Hk. specialize (Hne (S k) c).
    replace (S i0 + k)%nat with (i0 + S k)%nat by lia. by apply Hne.
  - cbn in H. cbn [isum]. rewrite (IH (S i0) j H).
    + specialize (Hne 0%nat b). rewrite Nat.add_0_r in Hne.
      rewrite Hne by done.
      replace (S i0 + j)%nat with (i0 + S j)%nat by lia. lra.
    + intros k c Hk Hc. specialize (Hne (S k) c).
      replace (S i0 + k)%nat with (i0 + S k)%nat by lia. apply Hne; [lia|done].
Qed.

Lemma isum_nonneg {A} (f : nat -> A -> Q) (i0 : nat) (l : list A) :
  (forall j a, l !! j = Some a -> 0 <= f (i0 + j)%nat a) -> 0 <= isum f i0 l.
Proof.
  revert i0. induction l as [|a l IH]; intros i0 H; [cbn; lra|].
  cbn [isum]. pose proof (H 0%nat a eq_refl) as H0. rewrite Nat.add_0_r in H0.
  assert (0 <= isum f (S i0) l); [|lra].
  apply IH. intros j b Hj. specialize (H (S j) b Hj).
  by replace (S i0 + j)%nat with (i0 + S j)%nat by lia.
Qed.

(** An element of a sum of non-negative terms is at most the sum. *)
Lemma isum_term_le {A} (f : nat -> A -> Q) (i0 j : nat) (l : list A) (a : A) :
  (forall k b, l !! k = Some b -> 0 <= f (i0 + k)%nat b) ->
  l !! j = Some a -> f (i0 + j)%nat a <= isum f i0 l.
Proof.
  revert i0 j. induction l as [|b l IH]; intros i0 j H Hj; [done|].
  assert (Hl : forall k c, l !! k = Some c -> 0 <= f (S i0 + k)%nat c).
  { intros k c Hk. specialize (H (S k) c Hk).
    by replace (S i0 + k)%nat with (i0 + S k)%nat by lia. }
  pose proof (H 0%nat b eq_refl) as H0. rewrite Nat.add_0_r in H0.
  destruct j as [|j]; cbn in Hj; cbn [isum].
  - inversion Hj; subst b. rewrite Nat.add_0_r.
    pose proof (isum_nonneg f (S i0) l Hl). lra.
  - pose proof (IH (S i0) j Hl Hj) as Hle.
    replace (S i0 + j)%nat with (i0 + S j)%nat in Hle by lia. lra.
Qed.

Lemma gridSum_ext (f f' : nat -> nat -> Tile.t -> Q) (g : Grid) :
  (forall y x t, tileAt g y x = Some t -> f' y x t == f y x t) ->
  gridSum f' g == gridSum f g.
Proof.
  intros H. unfold gridSum. apply isum_ext. intros y row Hrow. cbn.
  apply isum_ext. intros x t Ht. cbn. apply H. unfold tileAt. by rewrite Hrow.
Qed.

Lemma gridSum_setPollution (f : nat -> nat -> Tile.t -> Q) (g : Grid)
    (y x : nat) (a : Tile.t) (v : Q) :
  tileAt g y x = Some a ->
  gridSum f (Env.setPollution g y x v)
  == gridSum f g - f y x a + f y x (Tile.set_pollution v a).
Proof.
  unfold tileAt, gridSum, Env.setPollution. intros H.
  destruct (g !! y) as [row|] eqn:Hrow; [|done]. cbn in H.
  rewrite (isum_alter _ _ 0 y g row Hrow). cbn.
  rewrite (isum_alter _ _ 0 x row a H). cbn. lra.
Qed.

Lemma gridSum_change_at (f f' : nat -> nat -> Tile.t -> Q) (g : Grid)
    (y x : nat) (a : Tile.t) :
  tileAt g y x = Some a ->
  (forall y' x' t, (y', x') <> (y, x) -> tileAt g y' x' = Some t ->
                   f' y' x' t == f y' x' t) ->
  gridSum f' g == gridSum f g - f y x a + f' y x a.
Proof.
  unfold gridSum. intros H Hne.
  assert (Hrow : exists row, g !! y = Some row /\ row !! x = Some a).
  { unfold tileAt in H. destruct (g !! y) as [row|]; [|done]. by exists row. }
  destruct Hrow as (row & Hrow & Ha).
  rewrite (isum_change_at (fun y row => isum (f y) 0 row)
             (fun y row => isum (f' y) 0 row) 0 y g row Hrow).
  - cbn. rewrite (isum_change_at (f y) (f' y) 0 x row a Ha).
    + cbn. lra.
    + intros k b Hk Hb. cbn. apply Hne; [congruence|].
      unfold tileAt. by rewrite Hrow.
  - intros k r Hk Hr. cbn. apply isum_ext. intros j b Hb. cbn.
    apply Hne; [congruence|]. unfold tileAt. by rewrite Hr.
Qed.

Lemma gridSum_nonneg (f : nat -> nat -> Tile.t -> Q) (g : Grid) :
  (forall y x t, tileAt g y x = Some t -> 0 <= f y x t) -> 0 <= gridSum f g.
Proof.
  intros H. unfold gridSum. apply isum_nonneg. intros y row Hrow. cbn.
  apply isum_nonneg. intros x t Ht. cbn. apply H. unfold tileAt. by rewrite Hrow.
Qed.

Lemma gridSum_term_le (f : nat -> nat -> Tile.t -> Q) (g : Grid) (y x : nat) (a : Tile.t) :
  (forall y x t, tileAt g y x = Some t -> 0 <= f y x t) ->
  tileAt g y x = Some a -> f y x a <= gridSum f g.
Proof.
  intros H Ha. unfold gridSum.
  assert (Hrow : exists row, g !! y = Some row /\ row !! x = Some a).
  { unfold tileAt in Ha. destruct (g !! y) as [row|]; [|done]. by exists row. }
  destruct Hrow as (row & Hrow & Hx).
  eapply Qle_trans; [|apply (isum_term_le _ 0 y g row)]; cbn.
  - apply (isum_term_le (f y) 0 x row a); [|done].
    intros k b Hb. cbn. apply H. unfold tileAt. by rewrite Hrow.
  - intros k r Hr. cbn. apply isum_nonneg. intros j b Hb. cbn.
    apply H. unfold tileAt. by rewrite Hr.
  - done.
Qed.

Lemma isum_scale {A} (c : Q) (f : nat -> A -> Q) (i0 : nat) (l : list A) :
  isum (fun i a => c * f i a) i0 l == c * isum f i0 l.
Proof.
  revert i0. induction l as [|a l IH]; intros i0; cbn [isum]; [lra|].
  rewrite IH. lra.
Qed.

Lemma gridSum_scale (c : Q) (f : nat -> nat -> Tile.t -> Q) (g : Grid) :
  gridSum (fun y x t => c * f y x t) g == c * gridSum f g.
Proof.
  unfold gridSum.
  rewrite <- (isum_scale c (fun y row => isum (f y) 0 row) 0 g).
  apply isum_ext. intros y row _. cbn. apply isum_scale.
Qed.

(** ** Reading and writing tiles *)

Lemma grid_Forall_tileAt (P : Tile.t -> Prop) (g : Grid) :
  Forall (Forall P) g <-> (forall y x t, tileAt g y x = Some t -> P t).
Proof.
  rewrite Forall_lookup. split.
  - intros H y x t Ht. apply tileAt_rows in Ht as (row & Hrow & Hx).
    specialize (H y row Hrow). rewrite Forall_lookup in H. by eapply H.
  - intros H y row Hrow. apply Forall_lookup. intros x t Hx.
    apply (H y x). apply tileAt_rows. by exists row.
Qed.

Lemma tileAt_setPollution_eq (g : Grid) (y x : nat) (a : Tile.t) (v : Q) :
  tileAt g y x = Some a ->
  tileAt (Env.setPollution g y x v) y x = Some (Tile.set_pollution v a).
Proof.
  intros H. apply tileAt_rows in H as (row & Hrow & Hx).
  unfold tileAt, Env.setPollution. rewrite list_lookup_alter_eq, Hrow. cbn.
  by rewrite list_lookup_alter_eq, Hx.
Qed.

Lemma tileAt_setPollution_ne (g : Grid) (y x y' x' : nat) (v : Q) :
  (y', x') <> (y, x) ->
  tileAt (Env.setPollution g y x v) y' x' = tileAt g y' x'.
Proof.
  intros H. unfold tileAt, Env.setPollution.
  destruct (decide (y = y')) as [->|Hy].
  - rewrite list_lookup_alter_eq. destruct (g !! y') as [row|]; [|done]. cbn.
    apply list_lookup_alter_ne. congruence.
  - by rewrite list_lookup_alter_ne.
Qed.

Lemma rectangular_setPollution (w : nat) (g : Grid) (y x : nat) (v : Q) :
  rectangular w g -> rectangular w (Env.setPollution g y x v).
Proof.
  unfold rectangular, Env.setPollution. intros H.
  apply Forall_alter; [done|]. intros row _ Hl. by rewrite length_alter.
Qed.

Lemma tileAt_in_bounds (w : nat) (g : Grid) (y x : nat) (t : Tile.t) :
  rectangular w g -> tileAt g y x = Some t -> (y < length g)%nat /\ (x < w)%nat.
Proof.
  intros Hw Ht. apply tileAt_rows in Ht as (row & Hrow & Hx).
  split; [by eapply lookup_lt_Some|].
  unfold rectangular in Hw. rewrite Forall_lookup in Hw.
  rewrite <- (Hw y row Hrow). by eapply lookup_lt_Some.
Qed.

(** ** Changing one tile *)

Lemma oneCell_refl (y x : nat) (g : Grid) (a : Tile.t) :
  tileAt g y x = Some a -> oneCell y x g g a a.
Proof.
  intros H. repeat split; try done. intros f. lra.
Qed.

Lemma oneCell_setPollution (y x : nat) (g : Grid) (a : Tile.t) (v : Q) :
  tileAt g y x = Some a ->
  oneCell y x g (Env.setPollution g y x v) a (Tile.set_pollution v a).
Proof.
  intros H. split; [done|]. split; [by apply tileAt_setPollution_eq|].
  split; [done|]. split; [intros; by apply tileAt_setPollution_ne|].
  split; [intros f; by apply gridSum_setPollution|].
  split.
  - unfold Env.setPollution. by rewrite length_alter.
  - intros w. apply rectangular_setPollution.
Qed.

Lemma oneCell_trans (y x : nat) (g g1 g2 : Grid) (a a1 a2 : Tile.t) :
  oneCell y x g g1 a a1 -> oneCell y x g1 g2 a1 a2 -> oneCell y x g g2 a a2.
Proof.
  intros (H1 & H2 & H3 & H4 & H5 & H6 & H7) (K1 & K2 & K3 & K4 & K5 & K6 & K7).
  split; [done|]. split; [done|]. split; [congruence|].
  split; [intros y' x' Hne; by rewrite K4, H4|].
  split; [intros f; rewrite K5, H5; lra|].
  split; [congruence|]. intros w Hw. by apply K7, H7.
Qed.

Lemma oneCell_noSources (y x : nat) (g g1 : Grid) (a a1 : Tile.t) :
  oneCell y x g g1 a a1 -> noSources g -> noSources g1.
Proof.
  intros (H1 & H2 & H3 & H4 & _) Hn. unfold noSources in *.
  rewrite grid_Forall_tileAt in Hn. apply grid_Forall_tileAt.
  intros y' x' t Ht. destruct (decide ((y', x') = (y, x))) as [E|E].
  - inversion E; subst. assert (t = a1) as -> by congruence.
    rewrite H3. by apply (Hn y x).
  - rewrite H4 in Ht by done. by apply (Hn y' x').
Qed.

(** ** The potential *)

Lemma potential_next_col (y0 x0 : nat) (g : Grid) (a : Tile.t) :
  tileAt g y0 x0 = Some a ->
  potential y0 (S x0) g == potential y0 x0 g + (1 # 20) * pol a.
Proof.
  intros H. unfold potential.
  rewrite (gridSum_change_at (fun y x t => weightAt y0 x0 y x * pol t) _ g y0 x0 a H).
  - unfold weightAt, processed.
    rewrite !Nat.eqb_refl, !Nat.ltb_irrefl.
    replace (x0 <? S x0)%nat with true by (symmetry; apply Nat.ltb_lt; lia).
    cbn. lra.
  - intros y' x' t Hne _. unfold weightAt, processed.
    destruct (y' =? y0)%nat eqn:Ey; [|by rewrite !andb_false_l].
    apply Nat.eqb_eq in Ey. subst y'.
    assert (x' <> x0) by congruence.
    replace (x' <? S x0)%nat with (x' <? x0)%nat; [reflexivity|].
    destruct (x' <? x0)%nat eqn:E1; symmetry.
    + apply Nat.ltb_lt in E1. apply Nat.ltb_lt. lia.
    + apply Nat.ltb_ge in E1. apply Nat.ltb_ge. lia.
Qed.

Lemma potential_next_row (w y0 : nat) (g : Grid) :
  rectangular w g -> potential y0 w g == potential (S y0) 0 g.
Proof.
  intros Hw. unfold potential. apply gridSum_ext. intros y x t Ht.
  destruct (tileAt_in_bounds w g y x t Hw Ht) as [_ Hx].
  unfold weightAt, processed.
  replace (x <? w)%nat with true by (symmetry; apply Nat.ltb_lt; lia).
  replace (x <? 0)%nat with false by (symmetry; apply Nat.ltb_ge; lia).
  rewrite andb_true_r, andb_false_r, orb_false_r.
  replace (y <? S y0)%nat with ((y <? y0)%nat || (y =? y0)%nat); [reflexivity|].
  destruct (Nat.ltb_spec y y0), (Nat.eqb_spec y y0), (Nat.ltb_spec y (S y0));
    cbn; try reflexivity; lia.
Qed.

Lemma potential_start (g : Grid) : potential 0 0 g == (19 # 20) * totalPollutionOf g.
Proof.
  unfold potential, totalPollutionOf.
  rewrite <- (gridSum_scale (19 # 20) (fun _ _ t => pol t) g).
  apply gridSum_ext. intros y x t _. unfold weightAt, processed.
  destruct (Nat.ltb_spec y 0); [lia|]. destruct (Nat.ltb_spec x 0); [lia|].
  rewrite andb_false_r. reflexivity.
Qed.

Lemma potential_end (y0 : nat) (g : Grid) :
  (length g <= y0)%nat -> potential y0 0 g == totalPollutionOf g.
Proof.
  intros Hl. unfold potential, totalPollutionOf. symmetry.
  apply gridSum_ext. intros y x t Ht.
  apply tileAt_rows in Ht as (row & Hrow & _).
  apply lookup_lt_Some in Hrow.
  unfold weightAt, processed.
  replace (y <? y0)%nat with true by (symmetry; apply Nat.ltb_lt; lia).
  cbn. lra.
Qed.

(** ** The phases of the loop body *)

Lemma pol_set_pollution (v : Q) (a : Tile.t) : pol (Tile.set_pollution v a) = v.
Proof. reflexivity. Qed.

Lemma Math_min_le_r (a b : Q) : Math_min a b <= b.
Proof.
  unfold Math_min. destruct (Qle_bool a b) eqn:E; [|lra].
  by apply Qle_bool_true.
Qed.

Lemma truthy_nonzero (c : option Q) : truthy c = true -> ~ or0 c == 0.
Proof.
  destruct c as [q|]; [|done]. cbn. intros H E.
  apply negb_true_iff in H. rewrite <- Qeq_bool_iff in E. congruence.
Qed.

Lemma generation_spec (g : Grid) (y x : nat) (a : Tile.t) :
  tileAt g y x = Some a ->
  ~ 0 < or0 (pollution (BUILDINGS (Tile.buildingType a))) ->
  exists g1 a1,
    Env.generation g y x = Some g1 /\ oneCell y x g g1 a a1 /\ pol a1 <= pol a.
Proof.
  intros Ha Hc. unfold Env.generation. rewrite Ha. cbn [mbind option_bind].
  destruct (truthy _) eqn:Et.
  - do 2 eexists. split; [reflexivity|]. split; [by apply oneCell_setPollution|].
    rewrite pol_set_pollution.
    eapply Qle_trans; [apply Math_min_le_r|]. fold (pol a).
    apply Qnot_lt_le in Hc. lra.
  - exists g, a. split; [reflexivity|]. split; [by apply oneCell_refl|lra].
Qed.

Lemma decayOf_bounds (b : BuildingType.t) :
  Env.decayOf b == 7 # 10 \/ Env.decayOf b == 9 # 10 \/ Env.decayOf b == 19 # 20.
Proof.
  unfold Env.decayOf.
  destruct (BuildingType.eqb b BuildingType.Water); [by right; right|].
  destruct (BuildingType.eqb b BuildingType.Park); [by left|by right; left].
Qed.

Lemma dissipation_spec (g : Grid) (y x : nat) (a : Tile.t) :
  tileAt g y x = Some a ->
  exists g1 a1,
    Env.dissipation g y x = Some g1 /\ oneCell y x g g1 a a1 /\
    (0 <= pol a -> 0 <= pol a1 /\ pol a1 <= (19 # 20) * pol a) /\
    (pol a < 0 -> pol a1 < 0).
Proof.
  intros Ha. unfold Env.dissipation. rewrite Ha. cbn [mbind option_bind].
  do 2 eexists. split; [reflexivity|]. split; [by apply oneCell_setPollution|].
  rewrite pol_set_pollution. fold (pol a).
  destruct (decayOf_bounds (Tile.buildingType a)) as [E|[E|E]]; rewrite E;
    split; intros; try split; lra.
Qed.

Lemma validation_spec (g : Grid) (y x : nat) (a : Tile.t) :
  tileAt g y x = Some a ->
  exists g1 a1,
    Env.validation g y x = Some g1 /\ oneCell y x g g1 a a1 /\
    (pol a < 1 # 2 -> pol a1 == 0) /\
    (1 # 2 <= pol a -> a1 = a /\ g1 = g).
Proof.
  intros Ha. unfold Env.validation. rewrite Ha. cbn [mbind option_bind].
  fold (pol a). destruct (Qltb (pol a) 0.5) eqn:E.
  - apply Qltb_true in E.
    do 2 eexists. split; [reflexivity|]. split; [by apply oneCell_setPollution|].
    rewrite pol_set_pollution. split; [reflexivity|]. intros. exfalso. lra.
  - apply Qltb_false in E.
    exists g, a. split; [reflexivity|]. split; [by apply oneCell_refl|].
    split; [intros; lra|done].
Qed.

Lemma oneCell_shape (w : nat) (y x : nat) (g g1 : Grid) (a a1 : Tile.t) :
  oneCell y x g g1 a a1 ->
  length g1 = length g /\ (rectangular w g -> rectangular w g1) /\
  (noSources g -> noSources g1).
Proof.
  intros H. pose proof (oneCell_noSources _ _ _ _ _ _ H) as Hn.
  destruct H as (_ & _ & _ & _ & _ & Hl & Hr). by split; [|split; [apply Hr|]].
Qed.

Lemma advection_spec (w h : nat) (wind : Vec2) (speed : Q) (g : Grid)
    (y x : nat) (a : Tile.t) :
  rectangular w g -> length g = h -> tileAt g y x = Some a -> 0 <= speed <= 1 ->
  (forall y' x' t, (y', x') <> (y, x) -> tileAt g y' x' = Some t -> 0 <= pol t) ->
  exists g1 a1,
    Env.advection wind speed w h g y x = Some g1 /\ tileAt g1 y x = Some a1 /\
    length g1 = h /\ rectangular w g1 /\ (noSources g -> noSources g1) /\
    (~ 1 < pol a -> g1 = g /\ a1 = a) /\
    (1 < pol a ->
       (7 # 10) * pol a <= pol a1 /\
       (forall y' x' t, tileAt g1 y' x' = Some t -> 0 <= pol t) /\
       (forall W : nat -> nat -> Q,
          (forall y' x', W y' x' <= 1) -> W y x == 1 ->
          gridSum (fun y' x' t => W y' x' * pol t) g1
          <= gridSum (fun y' x' t => W y' x' * pol t) g)).
Proof.
  intros Hw Hl Ha Hs Hnn. unfold Env.advection. rewrite Ha. cbn [mbind option_bind].
  fold (pol a). destruct (Qgtb (pol a) 1) eqn:Egt.
  2:{ apply Qltb_false in Egt. exists g, a. repeat split; try done; intros; lra. }
  apply Qltb_true in Egt. cbv zeta.
  set (m := pol a * 0.3 * speed).
  assert (Hm : 0 <= m /\ m <= (3 # 10) * pol a) by (subst m; split; nra).
  set (tx := Math_round _). set (ty := Math_round _).
  destruct (_ && _ && _ && _)%bool eqn:Ein.
  - repeat (apply andb_prop in Ein as [Ein ?]).
    repeat match goal with
           | H : (_ >=? _)%Z = true |- _ => apply Z.geb_le in H
           | H : (_ <? _)%Z = true |- _ => apply Z.ltb_lt in H
           end.
    set (yt := Z.to_nat ty). set (xt := Z.to_nat tx).
    destruct (tileAt_in_range w g yt xt Hw) as [tg Htg]; [subst yt; lia|subst xt; lia|].
    rewrite Htg. cbn [mbind option_bind]. fold (pol tg).
    pose proof (oneCell_setPollution yt xt g tg (pol tg + m) Htg) as K1.
    set (g2 := Env.setPollution g yt xt (pol tg + m)) in *.
    destruct (decide ((yt, xt) = (y, x))) as [E|E].
    + inversion E as [[Ey Ex]]. rewrite Ey, Ex in *. clear E.
      assert (tg = a) as -> by congruence.
      pose proof (proj1 (proj2 K1)) as Ha2. rewrite Ha2. cbn [mbind option_bind].
      change (or0 (Tile.pollution (Tile.set_pollution (pol a + m) a))) with (pol a + m).
      pose proof (oneCell_setPollution y x g2 _ (pol a + m - m) Ha2) as K2.
      pose proof (oneCell_trans _ _ _ _ _ _ _ _ K1 K2) as K3.
      destruct (oneCell_shape w _ _ _ _ _ _ K3) as (Hl3 & Hr3 & Hn3).
      do 2 eexists. split; [reflexivity|]. split; [exact (proj1 (proj2 K3))|].
      split; [exact (eq_trans Hl3 Hl)|]. split; [by apply Hr3|]. split; [exact Hn3|].
      split; [intros; lra|]. intros _. rewrite !pol_set_pollution.
      split; [lra|]. split.
      * intros y' x' t Ht. destruct (decide ((y', x') = (y, x))) as [E|E].
        -- inversion E; subst y' x'. rewrite (proj1 (proj2 K3)) in Ht.
           inversion Ht. rewrite !pol_set_pollution. lra.
        -- rewrite (proj1 (proj2 (proj2 (proj2 K3)))) in Ht by done. by eapply Hnn.
      * intros W HW HW1.
        rewrite (proj1 (proj2 (proj2 (proj2 (proj2 K3))))).
        rewrite !pol_set_pollution. rewrite HW1. lra.
    + assert (Ha2 : tileAt g2 y x = Some a).
      { rewrite (proj1 (proj2 (proj2 (proj2 K1)))); [done|]. intros E'. by inversion E'. }
      rewrite Ha2. cbn [mbind option_bind]. fold (pol a).
      pose proof (oneCell_setPollution y x g2 a (pol a - m) Ha2) as K2.
      destruct (oneCell_shape w _ _ _ _ _ _ K1) as (Hl1 & Hr1 & Hn1).
      destruct (oneCell_shape w _ _ _ _ _ _ K2) as (Hl2 & Hr2 & Hn2).
      assert (Hu : 0 <= pol tg) by (by eapply Hnn).
      do 2 eexists. split; [reflexivity|]. split; [exact (proj1 (proj2 K2))|].
      split; [exact (eq_trans Hl2 (eq_trans Hl1 Hl))|]. split; [by apply Hr2, Hr1|].
      split; [intros; by apply Hn2, Hn1|].
      split; [intros; lra|]. intros _. rewrite pol_set_pollution.
      split; [lra|]. split.
      * intros y' x' t Ht. destruct (decide ((y', x') = (y, x))) as [E1|E1].
        -- inversion E1; subst y' x'. rewrite (proj1 (proj2 K2)) in Ht.
           inversion Ht. rewrite pol_set_pollution. lra.
        -- rewrite (proj1 (proj2 (proj2 (proj2 K2)))) in Ht by done.
           destruct (decide ((y', x') = (yt, xt))) as [E2|E2].
           ++ inversion E2; subst y' x'. rewrite (proj1 (proj2 K1)) in Ht.
              inversion Ht. rewrite pol_set_pollution. lra.
           ++ rewrite (proj1 (proj2 (proj2 (proj2 K1)))) in Ht by done.
              by eapply Hnn.
      * intros W HW HW1.
        rewrite (proj1 (proj2 (proj2 (proj2 (proj2 K2))))).
        rewrite (proj1 (proj2 (proj2 (proj2 (proj2 K1))))).
        rewrite !pol_set_pollution. rewrite HW1.
        specialize (HW yt xt). nra.
  - pose proof (oneCell_setPollution y x g a (pol a - m) Ha) as K1.
    destruct (oneCell_shape w _ _ _ _ _ _ K1) as (Hl1 & Hr1 & Hn1).
    do 2 eexists. split; [reflexivity|]. split; [exact (proj1 (proj2 K1))|].
    split; [exact (eq_trans Hl1 Hl)|]. split; [by apply Hr1|]. split; [exact Hn1|].
    split; [intros; lra|]. intros _. rewrite pol_set_pollution.
    split; [lra|]. split.
    + intros y' x' t Ht. destruct (decide ((y', x') = (y, x))) as [E|E].
      * inversion E; subst y' x'. rewrite (proj1 (proj2 K1)) in Ht.
        inversion Ht. rewrite pol_set_pollution. lra.
      * rewrite (proj1 (proj2 (proj2 (proj2 K1)))) in Ht by done. by eapply Hnn.
    + intros W HW HW1.
      rewrite (proj1 (proj2 (proj2 (proj2 (proj2 K1))))).
      rewrite pol_set_pollution. rewrite HW1. lra.
Qed.

(** ** The loop body keeps the invariant *)

Lemma weightAt_le_1 (y0 x0 y x : nat) : weightAt y0 x0 y x <= 1.
Proof. unfold weightAt. destruct (processed y0 x0 y x); lra. Qed.

Lemma weightAt_self (y x : nat) : weightAt y (S x) y x == 1.
Proof.
  unfold weightAt, processed. rewrite Nat.eqb_refl.
  destruct (Nat.ltb_spec x (S x)); [|lia]. by rewrite orb_true_r.
Qed.

Lemma processed_next (y x y' x' : nat) :
  processed y (S x) y' x' = true -> (y', x') <> (y, x) -> processed y x y' x' = true.
Proof.
  unfold processed. intros H Hne.
  destruct (Nat.ltb_spec y' y); [done|].
  destruct (Nat.eqb_spec y' y) as [->|]; [|done].
  destruct (Nat.ltb_spec x' (S x)); [|done].
  destruct (Nat.ltb_spec x' x); [done|].
  exfalso. apply Hne. f_equal. lia.
Qed.

Lemma processed_self (y x : nat) : processed y (S x) y x = true.
Proof.
  unfold processed. rewrite Nat.eqb_refl.
  destruct (Nat.ltb_spec x (S x)); [|lia]. by rewrite orb_true_r.
Qed.

Lemma total_term_le (g : Grid) (y x : nat) (a : Tile.t) :
  nonnegPollution g -> tileAt g y x = Some a -> pol a <= totalPollutionOf g.
Proof.
  intros Hnn Ha. unfold totalPollutionOf.
  apply (gridSum_term_le (fun _ _ t => pol t) g y x a); [|done].
  unfold nonnegPollution in Hnn. rewrite grid_Forall_tileAt in Hnn.
  intros y' x' t Ht. by eapply Hnn.
Qed.

Lemma cell_inv (w h : nat) (T0 : Q) (wind : Vec2) (speed : Q) (y x : nat)
    (G : Grid) (tp pt : Q) :
  loopInv w h T0 y x G -> 0 <= speed <= 1 -> (y < h)%nat -> (x < w)%nat ->
  exists G' tp' pt',
    Env.cell wind speed w h y x (G, tp, pt) = Some (G', tp', pt') /\
    loopInv w h T0 y (S x) G'.
Proof.
  intros (Hw & Hl & Hns & Hnn & Hpot & Hclean) Hs Hy Hx.
  destruct (tileAt_in_range w G y x Hw) as [a Ha]; [lia|done|].
  pose proof Hnn as Hnn'. unfold nonnegPollution in Hnn'.
  rewrite grid_Forall_tileAt in Hnn'.
  pose proof Hns as Hns'. unfold noSources in Hns'.
  rewrite grid_Forall_tileAt in Hns'.
  pose proof (Hnn' y x a Ha) as Hv.
  pose proof (total_term_le G y x a Hnn Ha) as Hvt.
  destruct (generation_spec G y x a Ha (Hns' y x a Ha)) as (GA & a1 & EA & CA & Hp1).
  destruct (dissipation_spec GA y x a1 (proj1 (proj2 CA)))
    as (GB & a2 & EB & CB & Hpos & Hneg).
  pose proof (oneCell_trans _ _ _ _ _ _ _ _ CA CB) as CAB.
  assert (Hp2 : pol a2 <= (19 # 20) * pol a).
  { destruct (Qlt_le_dec (pol a1) 0) as [Hn|Hp];
      [specialize (Hneg Hn); lra|destruct (Hpos Hp); lra]. }
  destruct (oneCell_shape w _ _ _ _ _ _ CAB) as (HlB & HrB & HnB).
  assert (HnnB : forall y' x' t, (y', x') <> (y, x) -> tileAt GB y' x' = Some t -> 0 <= pol t).
  { intros y' x' t Hne Ht.
    rewrite (proj1 (proj2 (proj2 (proj2 CAB)))) in Ht by done. by eapply Hnn'. }
  destruct (advection_spec w h wind speed GB y x a2 (HrB Hw) (eq_trans HlB Hl)
              (proj1 (proj2 CAB)) Hs HnnB)
    as (G3 & a4 & EC & Ha4 & Hl3 & Hr3 & Hn3 & Hstay & Hmove).
  destruct (validation_spec G3 y x a4 Ha4) as (G4 & a5 & EV & CV & Hzero & Hkeep).
  destruct (oneCell_shape w _ _ _ _ _ _ CV) as (Hl4 & Hr4 & Hn4).
  pose proof (potential_next_col y x G a Ha) as Hnext.
  assert (Hinv : loopInv w h T0 y (S x) G4).
  { split; [by apply Hr4|]. split; [exact (eq_trans Hl4 Hl3)|].
    split; [by apply Hn4, Hn3, HnB|].
    destruct (Qlt_le_dec 1 (pol a2)) as [Hgt|Hle].
    - destruct (Hmove Hgt) as (Hq & Hnn3 & HW3).
      destruct Hkeep as [-> ->]; [lra|].
      split; [by apply grid_Forall_tileAt|]. split.
      + specialize (HW3 (weightAt y (S x)) (weightAt_le_1 y (S x)) (weightAt_self y x)).
        pose proof (proj1 (proj2 (proj2 (proj2 (proj2 CAB))))
                      (fun y' x' t => weightAt y (S x) y' x' * pol t)) as HB.
        cbv beta in HB. rewrite (weightAt_self y x) in HB.
        unfold potential in *. lra.
      + intros HT. destruct (Hclean HT) as [Htot _]. exfalso. lra.
    - destruct Hstay as [-> ->]; [lra|].
      pose proof (oneCell_trans _ _ _ _ _ _ _ _ CAB CV) as C.
      assert (Hq5 : 0 <= pol a5 /\ pol a5 <= (19 # 20) * pol a).
      { destruct (Qlt_le_dec (pol a2) (1 # 2)) as [Hlt|Hge].
        - rewrite (Hzero Hlt). lra.
        - destruct (Hkeep Hge) as [-> _]. lra. }
      split; [|split].
      + apply grid_Forall_tileAt. intros y' x' t Ht.
        destruct (decide ((y', x') = (y, x))) as [E|E].
        * inversion E; subst y' x'.
          rewrite (proj1 (proj2 C)) in Ht. inversion Ht; subst t. lra.
        * rewrite (proj1 (proj2 (proj2 (proj2 C)))) in Ht by done. by eapply Hnn'.
      + pose proof (proj1 (proj2 (proj2 (proj2 (proj2 C))))
                      (fun y' x' t => weightAt y (S x) y' x' * pol t)) as HB.
        cbv beta in HB. rewrite (weightAt_self y x) in HB.
        unfold potential in *. lra.
      + intros HT. destruct (Hclean HT) as [Htot Hz].
        assert (H5 : pol a5 == 0) by (apply Hzero; lra).
        split.
        * pose proof (proj1 (proj2 (proj2 (proj2 (proj2 C))))
                        (fun _ _ t => pol t)) as HB.
          cbv beta in HB. unfold totalPollutionOf in *. lra.
        * intros y' x' t Ht Hp.
          destruct (decide ((y', x') = (y, x))) as [E|E].
          -- inversion E; subst y' x'.
             rewrite (proj1 (proj2 C)) in Ht. by inversion Ht; subst t.
          -- rewrite (proj1 (proj2 (proj2 (proj2 C)))) in Ht by done.
             apply (Hz y' x' t Ht). by apply processed_next. }
  unfold Env.cell. rewrite EA. cbn [mbind option_bind]. rewrite EB.
  cbn [mbind option_bind]. rewrite EC. cbn [mbind option_bind]. rewrite EV.
  cbn [mbind option_bind]. rewrite (proj1 (proj2 CV)). cbn [mbind option_bind].
  destruct (Qgtb _ _); do 3 eexists; (split; [reflexivity|exact Hinv]).
Qed.

(** ** The loops *)

Lemma forEachIndex_seq_inv {S} (P : nat -> S -> Prop) (body : nat -> S -> option S)
    (a n : nat) (s : S) :
  P a s ->
  (forall i s, (a <= i < a + n)%nat -> P i s -> exists s', body i s = Some s' /\ P (Datatypes.S i) s') ->
  exists s', forEachIndex body (seq a n) s = Some s' /\ P (a + n)%nat s'.
Proof.
  unfold forEachIndex. revert a s.
  induction n as [|n IH]; intros a s Hs Hbody.
  - exists s. by rewrite Nat.add_0_r.
  - cbn [seq fold_left mbind option_bind].
    destruct (Hbody a s) as (s' & Hi & Hs'); [lia|done|].
    rewrite Hi. destruct (IH (Datatypes.S a) s' Hs') as (s'' & Hr & Hs'').
    { intros i s0 Hi0. apply Hbody. lia. }
    exists s''. split; [done|]. by replace (a + Datatypes.S n)%nat with (Datatypes.S a + n)%nat by lia.
Qed.

Lemma loopInv_next_row (w h : nat) (T0 : Q) (y : nat) (g : Grid) :
  loopInv w h T0 y w g -> loopInv w h T0 (S y) 0 g.
Proof.
  intros (Hw & Hl & Hns & Hnn & Hpot & Hclean).
  repeat (split; [done|]). split.
  - by rewrite <- (potential_next_row w y g Hw).
  - intros HT. destruct (Hclean HT) as [Htot Hz]. split; [done|].
    intros y' x' t Ht Hp. apply (Hz y' x' t Ht).
    destruct (tileAt_in_bounds w g y' x' t Hw Ht) as [_ Hx].
    unfold processed in *.
    destruct (Nat.ltb_spec y' y), (Nat.eqb_spec y' y), (Nat.ltb_spec x' w),
      (Nat.ltb_spec y' (S y)), (Nat.eqb_spec y' (S y)), (Nat.ltb_spec x' 0);
      cbn in *; try done; lia.
Qed.

Lemma pollutionLoop_inv (w h : nat) (T0 : Q) (wind : Vec2) (speed : Q)
    (G : Grid) (tp pt : Q) :
  loopInv w h T0 0 0 G -> 0 <= speed <= 1 ->
  exists G' tp' pt',
    Env.pollutionLoop wind speed w h (G, tp, pt) = Some (G', tp', pt') /\
    loopInv w h T0 h 0 G'.
Proof.
  intros Hinv Hs. unfold Env.pollutionLoop.
  destruct (forEachIndex_seq_inv
              (fun y (st : Env.LoopState) => loopInv w h T0 y 0 st.1.1)
              (fun y => forEachIndex (Env.cell wind speed w h y) (seq 0 w))
              0 h (G, tp, pt) Hinv) as ([[G' tp'] pt'] & Hr & HI).
  - intros y st Hy Hst.
    destruct (forEachIndex_seq_inv
                (fun x (st : Env.LoopState) => loopInv w h T0 y x st.1.1)
                (Env.cell wind speed w h y) 0 w st Hst) as (st' & Hr & HI).
    + intros x [[G1 tp1] pt1] Hx HG1. cbn in HG1.
      destruct (cell_inv w h T0 wind speed y x G1 tp1 pt1 HG1 Hs) as (G2 & tp2 & pt2 & Hc & HG2);
        [lia|lia|].
      exists (G2, tp2, pt2). by split.
    + exists st'. split; [done|]. by apply loopInv_next_row.
  - by exists G', tp', pt'.
Qed.

Lemma isum_zero {A} (f : nat -> A -> Q) (i0 : nat) (l : list A) :
  (forall j a, l !! j = Some a -> f (i0 + j)%nat a == 0) -> isum f i0 l == 0.
Proof.
  revert i0. induction l as [|a l IH]; intros i0 H; [reflexivity|].
  cbn [isum]. pose proof (H 0%nat a eq_refl) as H0. rewrite Nat.add_0_r in H0.
  rewrite H0, IH; [lra|].
  intros j b Hj. specialize (H (S j) b Hj).
  by replace (S i0 + j)%nat with (i0 + S j)%nat by lia.
Qed.

Lemma gridSum_zero (f : nat -> nat -> Tile.t -> Q) (g : Grid) :
  (forall y x t, tileAt g y x = Some t -> f y x t == 0) -> gridSum f g == 0.
Proof.
  intros H. unfold gridSum. apply isum_zero. intros y row Hrow. cbn.
  apply isum_zero. intros x t Ht. cbn. apply H. apply tileAt_rows. by exists row.
Qed.

Lemma allClean_total (g : Grid) : allClean g -> totalPollutionOf g == 0.
Proof.
  unfold allClean. rewrite grid_Forall_tileAt. intros H.
  apply gridSum_zero. intros y x t Ht. by eapply H.
Qed.

Lemma total_nonneg (g : Grid) : nonnegPollution g -> 0 <= totalPollutionOf g.
Proof.
  unfold nonnegPollution. rewrite grid_Forall_tileAt. intros H.
  apply gridSum_nonneg. intros y x t Ht. by eapply H.
Qed.

Lemma windStep_speed (host : Host) (r1 r2 r3 : Q) (stats : CityStats) :
  0 <= windSpeed stats <= 1 ->
  0 <= (Env.windStep host r1 r2 r3 stats).2 <= 1.
Proof.
  intros H. unfold Env.windStep. destruct (Qltb r1 0.05); [|done]. cbn [snd].
  unfold Math_min, Math_max.
  destruct (Qle_bool 0.1 _) eqn:E1; destruct (Qle_bool 1.0 _) eqn:E2;
    rewrite ?Qle_bool_true, ?Qle_bool_false in *; lra.
Qed.

Lemma simulateEnvironment_inv (w : nat) (host : Host) (r1 r2 r3 : Q)
    (g : Grid) (stats : CityStats) :
  envInv w g (windSpeed stats) ->
  exists newGrid u,
    Env.simulateEnvironment host r1 r2 r3 g stats = Some (newGrid, u) /\
    envInv w newGrid (newWindSpeed u) /\
    totalPollutionOf newGrid <= (19 # 20) * totalPollutionOf g /\
    (totalPollutionOf g < 1 # 2 -> allClean newGrid).
Proof.
  intros (Hw & Hne & Hns & Hnn & Hs).
  unfold Env.simulateEnvironment.
  pose proof (windStep_speed host r1 r2 r3 stats Hs) as Hs'.
  destruct (Env.windStep host r1 r2 r3 stats) as [wind speed]. cbn [snd] in Hs'.
  destruct g as [|row0 g'] eqn:Eg; [done|]. rewrite <- Eg in *.
  assert (H0 : g !! 0%nat = Some row0) by (by rewrite Eg).
  rewrite H0. cbn [mbind option_bind].
  assert (Hl0 : length row0 = w).
  { unfold rectangular in Hw. rewrite Forall_lookup in Hw. by eapply Hw. }
  rewrite Hl0.
  destruct (pollutionLoop_inv w (length g) (totalPollutionOf g) wind speed g 0 0)
    as (G' & tp' & pt' & Hr & (Hw' & Hl' & Hns' & Hnn' & Hpot' & Hclean')); [|done|].
  { repeat (split; [done|]). split.
    - rewrite potential_start. lra.
    - intros HT. split; [done|]. intros y x t _ Hp. unfold processed in Hp.
      destruct (Nat.ltb_spec y 0); [lia|]. destruct (Nat.ltb_spec x 0); [lia|].
      by rewrite andb_false_r in Hp. }
  rewrite Hr. cbn [mbind option_bind].
  do 2 eexists. split; [reflexivity|]. cbn [newWindSpeed].
  split; [|split].
  - split; [done|]. split; [|done].
    intros ->. cbn in Hl'. rewrite Eg in Hl'. cbn in Hl'. lia.
  - rewrite <- (potential_end (length g) G') by lia. exact Hpot'.
  - intros HT. destruct (Hclean' HT) as [_ Hz].
    unfold allClean. apply grid_Forall_tileAt. intros y x t Ht.
    apply (Hz y x t Ht).
    destruct (tileAt_in_bounds w G' y x t Hw' Ht) as [Hy _].
    unfold processed. destruct (Nat.ltb_spec y (length g)); [done|lia].
Qed.

(** ** The shape of the grid *)

Lemma sameButPollutionGrid_refl (g : Grid) : sameButPollutionGrid g g.
Proof.
  unfold sameButPollutionGrid. apply Forall_Forall2_diag, Forall_forall.
  intros row _. apply Forall_Forall2_diag, Forall_forall.
  intros t _. by repeat split.
Qed.

Lemma Forall2_compose {A} (R : A -> A -> Prop) (l1 l2 l3 : list A) :
  (forall a b c, R a b -> R b c -> R a c) ->
  Forall2 R l1 l2 -> Forall2 R l2 l3 -> Forall2 R l1 l3.
Proof.
  intros HR H1. revert l3.
  induction H1; intros l3 H2; inversion H2; subst; constructor; eauto.
Qed.

Lemma sameButPollutionGrid_trans (g1 g2 g3 : Grid) :
  sameButPollutionGrid g1 g2 -> sameButPollutionGrid g2 g3 ->
  sameButPollutionGrid g1 g3.
Proof.
  unfold sameButPollutionGrid. apply Forall2_compose.
  intros r1 r2 r3. apply Forall2_compose.
  intros a b c (? & ? & ? & ?) (? & ? & ? & ?). repeat split; congruence.
Qed.

Lemma sameButPollutionGrid_setPollution (g : Grid) (y x : nat) (v : Q) :
  sameButPollutionGrid g (Env.setPollution g y x v).
Proof.
  unfold Env.setPollution. apply Forall2_alter_r; [apply sameButPollutionGrid_refl|].
  intros row row' _ _ Hr. apply Forall2_alter_r; [done|].
  intros t t' _ _ (? & ? & ? & ?). by repeat split.
Qed.

(** Walk through a stage of the loop body whose result is known. *)
Ltac stage_inv H :=
  repeat match type of H with
         | context [mbind _ ?c] => destruct c eqn:?; cbn [mbind option_bind] in H
         | context [if ?c then _ else _] => destruct c
         end;
  try discriminate H; inversion H; subst;
  repeat first [ apply sameButPollutionGrid_refl
               | apply sameButPollutionGrid_setPollution
               | eapply sameButPollutionGrid_trans;
                 [apply sameButPollutionGrid_setPollution|] ].

Lemma generation_shape (g g1 : Grid) (y x : nat) :
  Env.generation g y x = Some g1 -> sameButPollutionGrid g g1.
Proof. unfold Env.generation. intros H. stage_inv H. Qed.

Lemma dissipation_shape (g g1 : Grid) (y x : nat) :
  Env.dissipation g y x = Some g1 -> sameButPollutionGrid g g1.
Proof. unfold Env.dissipation. intros H. stage_inv H. Qed.

Lemma advection_shape (wind : Vec2) (speed : Q) (w h : nat) (g g1 : Grid) (y x : nat) :
  Env.advection wind speed w h g y x = Some g1 -> sameButPollutionGrid g g1.
Proof. unfold Env.advection. cbv zeta. intros H. stage_inv H. Qed.

Lemma validation_shape (g g1 : Grid) (y x : nat) :
  Env.validation g y x = Some g1 -> sameButPollutionGrid g g1.
Proof. unfold Env.validation. intros H. stage_inv H. Qed.

Lemma cell_shape (wind : Vec2) (speed : Q) (w h y x : nat) (st st' : Env.LoopState) :
  Env.cell wind speed w h y x st = Some st' -> sameButPollutionGrid st.1.1 st'.1.1.
Proof.
  destruct st as [[g tp] pt]. unfold Env.cell. intros H.
  destruct (Env.generation g y x) as [gA|] eqn:EA; [|discriminate H].
  cbn [mbind option_bind] in H.
  destruct (Env.dissipation gA y x) as [gB|] eqn:EB; [|discriminate H].
  cbn [mbind option_bind] in H.
  destruct (Env.advection wind speed w h gB y x) as [gC|] eqn:EC; [|discriminate H].
  cbn [mbind option_bind] in H.
  destruct (Env.validation gC y x) as [gD|] eqn:ED; [|discriminate H].
  cbn [mbind option_bind] in H.
  assert (Hs : sameButPollutionGrid g gD).
  { eapply sameButPollutionGrid_trans; [by eapply generation_shape|].
    eapply sameButPollutionGrid_trans; [by eapply dissipation_shape|].
    eapply sameButPollutionGrid_trans; [by eapply advection_shape|].
    by eapply validation_shape. }
  destruct (tileAt gD y x) as [t|]; [|discriminate H].
  cbn [mbind option_bind] in H.
  destruct (Qgtb _ _); inversion H; subst; exact Hs.
Qed.

Lemma forEachIndex_preserves {St} (R : St -> St -> Prop)
    (body : nat -> St -> option St) (l : list nat) (s s' : St) :
  (forall a, R a a) -> (forall a b c, R a b -> R b c -> R a c) ->
  (forall i a b, body i a = Some b -> R a b) ->
  forEachIndex body l s = Some s' -> R s s'.
Proof.
  intros Hrefl Htrans Hbody. unfold forEachIndex. revert s.
  induction l as [|i l IH]; intros s H.
  - cbn in H. inversion H; subst. apply Hrefl.
  - cbn [fold_left mbind option_bind] in H.
    destruct (body i s) as [s1|] eqn:E.
    + eapply Htrans; [by eapply Hbody|by apply IH].
    + by rewrite forEachIndex_None in H.
Qed.

Lemma pollutionLoop_shape (wind : Vec2) (speed : Q) (w h : nat)
    (st st' : Env.LoopState) :
  Env.pollutionLoop wind speed w h st = Some st' ->
  sameButPollutionGrid st.1.1 st'.1.1.
Proof.
  unfold Env.pollutionLoop.
  apply (forEachIndex_preserves
           (fun a b : Env.LoopState => sameButPollutionGrid a.1.1 b.1.1)).
  - intros a. apply sameButPollutionGrid_refl.
  - intros a b c. apply sameButPollutionGrid_trans.
  - intros y a b.
    apply (forEachIndex_preserves
             (fun a b : Env.LoopState => sameButPollutionGrid a.1.1 b.1.1)).
    + intros a0. apply sameButPollutionGrid_refl.
    + intros a0 b0 c0. apply sameButPollutionGrid_trans.
    + intros x a0 b0. apply cell_shape.
Qed.

(** The stepper returns the grid it was given with other pollution
    values: as many rows, as many tiles in each, the same building and
    coordinates on each tile. *)
Lemma simulateEnvironment_shape (host : Host) (r1 r2 r3 : Q) (g : Grid)
    (stats : CityStats) (newGrid : Grid) (u : WindUpdate) :
  Env.simulateEnvironment host r1 r2 r3 g stats = Some (newGrid, u) ->
  sameButPollutionGrid g newGrid.
Proof.
  unfold Env.simulateEnvironment.
  destruct (Env.windStep host r1 r2 r3 stats) as [wind speed].
  destruct (g !! 0%nat) as [row0|]; [|discriminate].
  cbn [mbind option_bind].
  destruct (Env.pollutionLoop wind speed (length row0) (length g) (g, 0, 0))
    as [[[G tp] pt]|] eqn:E; [|discriminate].
  cbn [mbind option_bind]. intros H. inversion H; subst.
  exact (pollutionLoop_shape _ _ _ _ _ _ E).
Qed.

(** ** The numeric range *)

Lemma isum_le_const {A} (f : nat -> A -> Q) (c : Q) (i0 : nat) (l : list A) :
  (forall j a, l !! j = Some a -> f (i0 + j)%nat a <= c) ->
  isum f i0 l <= c * inject_Z (Z.of_nat (length l)).
Proof.
  revert i0. induction l as [|a l IH]; intros i0 H.
  - cbn [isum length]. change (inject_Z (Z.of_nat 0)) with 0. lra.
  - cbn [isum length]. rewrite Nat2Z.inj_succ, <- Z.add_1_r, inject_Z_plus.
    change (inject_Z 1) with 1.
    pose proof (H 0%nat a eq_refl) as H0. rewrite Nat.add_0_r in H0.
    assert (H1 : isum f (S i0) l <= c * inject_Z (Z.of_nat (length l))).
    { apply IH. intros j b Hj. replace (S i0 + j)%nat with (i0 + S j)%nat by lia.
      by apply H. }
    lra.
Qed.

(** With at most 100 on each tile, the total is at most 100 times the
    number of tiles. *)
Lemma total_bounded (w : nat) (g : Grid) :
  rectangular w g -> boundedPollution g ->
  totalPollutionOf g <= 100 * inject_Z (Z.of_nat (length g * w)).
Proof.
  intros Hw Hb. unfold totalPollutionOf, gridSum.
  rewrite Nat2Z.inj_mul, inject_Z_mult.
  assert (H : isum (fun (y : nat) (row : list Tile.t) =>
                      isum (fun (_ : nat) (t : Tile.t) => pol t) 0 row) 0 g
              <= (100 * inject_Z (Z.of_nat w)) * inject_Z (Z.of_nat (length g))).
  { apply isum_le_const. intros y row Hrow.
    unfold rectangular in Hw. rewrite Forall_lookup in Hw.
    rewrite <- (Hw y row Hrow).
    apply isum_le_const. intros x t Ht.
    unfold boundedPollution in Hb. rewrite Forall_lookup in Hb.
    specialize (Hb y row Hrow). rewrite Forall_lookup in Hb. by eapply Hb. }
  lra.
Qed.

(** ** Repeated calls *)

Lemma environmentRun_app (host : Host) (l1 l2 : list (Q * Q * Q)) (g : Grid)
    (s : CityStats) :
  environmentRun host (l1 ++ l2) g s
  = environmentRun host l1 g s ≫= (fun r => environmentRun host l2 r.1 r.2).
Proof.
  revert g s. induction l1 as [|[[r1 r2] r3] l1 IH]; intros g s; [reflexivity|].
  cbn [app environmentRun].
  destruct (Env.simulateEnvironment host r1 r2 r3 g s) as [[g1 u]|]; [|reflexivity].
  cbn [mbind option_bind]. apply IH.
Qed.

Lemma environmentRun_inv (w : nat) (host : Host) (draws : list (Q * Q * Q))
    (g : Grid) (s : CityStats) :
  envInv w g (windSpeed s) ->
  exists g' s',
    environmentRun host draws g s = Some (g', s') /\
    envInv w g' (windSpeed s') /\
    totalPollutionOf g' <= totalPollutionOf g /\
    (totalPollutionOf g' < 1 # 2 \/
     totalPollutionOf g'
     <= totalPollutionOf g - inject_Z (Z.of_nat (length draws)) * (1 # 40)) /\
    (draws <> [] -> totalPollutionOf g < 1 # 2 -> allClean g').
Proof.
  revert g s. induction draws as [|[[r1 r2] r3] rest IH]; intros g s Hinv.
  - exists g, s. split; [reflexivity|]. split; [done|]. split; [lra|].
    split; [|done]. right. cbn [length]. change (inject_Z (Z.of_nat 0)) with 0. lra.
  - pose proof (total_nonneg g (proj1 (proj2 (proj2 (proj2 Hinv))))) as H0.
    destruct (simulateEnvironment_inv w host r1 r2 r3 g s Hinv)
      as (g1 & u & Hr & Hinv1 & Hle & Hc).
    cbn [environmentRun]. rewrite Hr. cbn [mbind option_bind].
    destruct (IH g1 (applyWindUpdate u s) Hinv1) as (g' & s' & Hr' & Hinv' & Hle' & Hm' & Hc').
    exists g', s'. split; [exact Hr'|]. split; [exact Hinv'|].
    split; [lra|]. split.
    + destruct Hm' as [Hm'|Hm']; [by left|].
      destruct (Qlt_le_dec (totalPollutionOf g) (1 # 2)) as [Hs|Hb]; [left; lra|].
      right. cbn [length]. rewrite Nat2Z.inj_succ, <- Z.add_1_r, inject_Z_plus.
      change (inject_Z 1) with 1. lra.
    + intros _ Hs. destruct rest as [|d rest'].
      * cbn in Hr'. inversion Hr'; subst g' s'. by apply Hc.
      * apply Hc'; [done|lra].
Qed.

Lemma environmentRun_shape (host : Host) (draws : list (Q * Q * Q))
    (g : Grid) (s : CityStats) (g' : Grid) (s' : CityStats) :
  environmentRun host draws g s = Some (g', s') -> sameButPollutionGrid g g'.
Proof.
  revert g s. induction draws as [|[[r1 r2] r3] rest IH]; intros g s H.
  - cbn in H. inversion H; subst. apply sameButPollutionGrid_refl.
  - cbn [environmentRun] in H.
    destruct (Env.simulateEnvironment host r1 r2 r3 g s) as [[g1 u]|] eqn:E;
      [|discriminate H].
    cbn [mbind option_bind] in H.
    eapply sameButPollutionGrid_trans;
      [by eapply simulateEnvironment_shape|by eapply IH].
Qed.

(** [C6] With no pollution source on the grid and the data model's
    invariants (a rectangular grid, on every tile a pollution between 0
    and 100, a wind speed between 0 and 1), the total pollution is at
    most 100 times the number of tiles, and:
    - one call of the Environment Stepper returns the grid it was given
      with other pollution values (same rows, same tiles, same
      buildings), none of them negative, whose total is at most the total
      before the call;
    - along repeated calls the grid keeps that shape and the total never
      increases, so that every pollution value stays between 0 and the
      first total;
    - the total reaches exactly 0: after [N] calls, for an [N] that
      depends on the first total only, every tile has pollution 0.
    The bounds on the pollution say where the exact numbers of the model
    stand for the doubles of the code: the values of lines 358-406 are
    then of the order of the first total, far from the largest double. *)
Theorem pollution_fades (host : Host) (grid : Grid) (stats : CityStats) (w : nat) :
  rectangular w grid -> grid <> [] ->
  nonnegPollution grid -> boundedPollution grid ->
  0 <= windSpeed stats <= 1 ->
  noSources grid ->
  totalPollutionOf grid <= 100 * inject_Z (Z.of_nat (length grid * w)) /\
  (forall r1 r2 r3,
     exists newGrid u,
       Env.simulateEnvironment host r1 r2 r3 grid stats = Some (newGrid, u) /\
       sameButPollutionGrid grid newGrid /\
       nonnegPollution newGrid /\
       totalPollutionOf newGrid <= totalPollutionOf grid) /\
  (forall draws d,
     exists g1 s1 g2 s2,
       environmentRun host draws grid stats = Some (g1, s1) /\
       environmentRun host (draws ++ [d]) grid stats = Some (g2, s2) /\
       sameButPollutionGrid grid g1 /\ sameButPollutionGrid g1 g2 /\
       nonnegPollution g1 /\ nonnegPollution g2 /\
       totalPollutionOf g2 <= totalPollutionOf g1 /\
       totalPollutionOf g1 <= totalPollutionOf grid) /\
  (exists N : nat,
     forall draws, (N <= length draws)%nat ->
       exists g' s',
         environmentRun host draws grid stats = Some (g', s') /\
         sameButPollutionGrid grid g' /\
         allClean g' /\ totalPollutionOf g' == 0).
Proof.
  intros Hw Hne Hnn Hb Hs Hns.
  assert (Hinv : envInv w grid (windSpeed stats)) by done.
  pose proof (total_nonneg grid Hnn) as H0.
  split; [by apply total_bounded|]. split; [|split].
  - intros r1 r2 r3.
    destruct (simulateEnvironment_inv w host r1 r2 r3 grid stats Hinv)
      as (g1 & u & Hr & Hinv1 & Hle & _).
    exists g1, u. split; [exact Hr|].
    split; [by eapply simulateEnvironment_shape|].
    split; [exact (proj1 (proj2 (proj2 (proj2 Hinv1))))|lra].
  - intros draws [[r1 r2] r3].
    destruct (environmentRun_inv w host draws grid stats Hinv)
      as (g1 & s1 & Hr1 & Hinv1 & Hle1 & _).
    pose proof (total_nonneg g1 (proj1 (proj2 (proj2 (proj2 Hinv1))))) as H1.
    destruct (simulateEnvironment_inv w host r1 r2 r3 g1 s1 Hinv1)
      as (g2 & u & Hr2 & Hinv2 & Hle & _).
    exists g1, s1, g2, (applyWindUpdate u s1).
    split; [exact Hr1|]. split.
    { rewrite environmentRun_app, Hr1. cbn [mbind option_bind fst snd environmentRun].
      by rewrite Hr2. }
    split; [by eapply environmentRun_shape|].
    split; [by eapply simulateEnvironment_shape|].
    split; [exact (proj1 (proj2 (proj2 (proj2 Hinv1))))|].
    split; [exact (proj1 (proj2 (proj2 (proj2 Hinv2))))|].
    split; [lra|exact Hle1].
  - set (N0 := Z.to_nat (Qceiling (40 * totalPollutionOf grid))).
    exists (S N0). intros draws HN.
    rewrite <- (take_drop N0 draws).
    destruct (environmentRun_inv w host (take N0 draws) grid stats Hinv)
      as (g1 & s1 & Hr1 & Hinv1 & _ & Hm & _).
    assert (Hsmall : totalPollutionOf g1 < 1 # 2).
    { destruct Hm as [Hm|Hm]; [done|].
      rewrite length_take, Nat.min_l in Hm by lia.
      assert (Hc : 40 * totalPollutionOf grid <= inject_Z (Z.of_nat N0)).
      { subst N0. rewrite Z2Nat.id.
        - apply Qle_ceiling.
        - change 0%Z with (Qceiling 0). apply Qceiling_resp_le. lra. }
      lra. }
    destruct (environmentRun_inv w host (drop N0 draws) g1 s1 Hinv1)
      as (g' & s' & Hr' & _ & _ & _ & Hc).
    exists g', s'. rewrite environmentRun_app, Hr1. cbn [mbind option_bind fst snd].
    split; [exact Hr'|].
    split.
    { eapply sameButPollutionGrid_trans; by eapply environmentRun_shape. }
    assert (Hclean : allClean g').
    { apply Hc; [|done]. intros E.
      apply (f_equal length) in E. rewrite length_drop in E. cbn in E. lia. }
    split; [exact Hclean|by apply allClean_total].
Qed.

(** The smoggy meadow under the wind of INITIAL_STATS: sixteen tiles
    with at most 40 on each; one call keeps the shape of the grid and
    does not raise the total, and long enough runs leave it clean. *)
Lemma pollution_fades_witness :
  totalPollutionOf smoggyMeadow <= 1600 /\
  (exists newGrid u,
     Env.simulateEnvironment exampleHost (1 # 2) (1 # 2) (1 # 2) smoggyMeadow
       INITIAL_STATS = Some (newGrid, u) /\
     sameButPollutionGrid smoggyMeadow newGrid /\
     nonnegPollution newGrid /\
     totalPollutionOf newGrid <= totalPollutionOf smoggyMeadow) /\
  (exists N : nat,
     forall draws, (N <= length draws)%nat ->
       exists g' s',
         environmentRun exampleHost draws smoggyMeadow INITIAL_STATS = Some (g', s') /\
         sameButPollutionGrid smoggyMeadow g' /\
         allClean g' /\ totalPollutionOf g' == 0).
Proof.
  destruct (pollution_fades exampleHost smoggyMeadow INITIAL_STATS 4)
    as (H0 & H1 & _ & H3).
  - repeat constructor.
  - discriminate.
  - repeat constructor; vm_compute; discriminate.
  - repeat constructor; vm_compute; discriminate.
  - vm_compute; split; discriminate.
  - repeat constructor; intros H; vm_compute in H; discriminate.
  - split; [exact H0|]. split; [apply H1|exact H3].
Defined.

(** One call on the smoggy meadow, wind (1, 0) of speed 0.5: the smog of
    3 decays to 2.7 and sends 0.405 east, where it falls under the
    threshold and is dropped; of the 36 left over (2, 2) the wind carries
    5.4 to (3, 2), which decays and loses 0.729 over the edge.  The
    total goes from 43 to 37.026 and the gauge reads 11. *)
Example simulateEnvironment_smoggyMeadow :
  (fun r : Grid * WindUpdate =>
     (map (map (fun t => Qred (pol t))) r.1, Qred (totalPollutionOf r.1),
      Qred (newPollutionLevel r.2)))
  <$> Env.simulateEnvironment exampleHost (1 # 2) (1 # 2) (1 # 2) smoggyMeadow
        INITIAL_STATS
  = Some ([[459 # 200; 0; 0; 0]; [0; 0; 0; 0]; [0; 0; 153 # 5; 4131 # 1000];
           [0; 0; 0; 0]],
          18513 # 500, 11).
Proof. vm_compute. reflexivity. Qed.

(** * The treasury handlers *)

Lemma Math_min_spec (a b : Q) :
  (a <= b /\ Math_min a b = a) \/ (b < a /\ Math_min a b = b).
Proof.
  unfold Math_min. destruct (Qle_bool a b) eqn:E.
  - left. by apply Qle_bool_true in E.
  - right. by apply Qle_bool_false in E.
Qed.

Lemma Qgeb_true (a b : Q) : Qgeb a b = true <-> b <= a.
Proof. unfold Qgeb. apply Qle_bool_true. Qed.

Lemma Qgeb_false (a b : Q) : Qgeb a b = false <-> a < b.
Proof. unfold Qgeb. apply Qle_bool_false. Qed.

Lemma Math_min_glb (a b : Q) :
  Math_min a b <= a /\ Math_min a b <= b /\ (Math_min a b = a \/ Math_min a b = b).
Proof.
  destruct (Math_min_spec a b) as [[? ->]|[? ->]]; repeat split; try lra; auto.
Qed.



(** [X2] Shares.  A purchase is made only when the treasury covers ten
    shares at the current price, so it does not overdraw a treasury that
    is not negative; a sale is made only when ten shares are held, so it
    does not go short; and with the price unchanged, selling right after
    an accepted purchase gives back the money and the number of shares
    there were. *)
Theorem shares_buy_then_sell (st : AppState) :
  let s := stats st in
  (0 <= money s -> 0 <= money (stats (handleBuyShares st))) /\
  (0 <= investmentShares s -> 0 <= investmentShares (stats (handleSellShares st))) /\
  (money s < sharePrice s * 10 -> handleBuyShares st = st) /\
  (investmentShares s < 10 -> handleSellShares st = st) /\
  (0 <= investmentShares s -> sharePrice s * 10 <= money s ->
     money (stats (handleSellShares (handleBuyShares st))) == money s /\
     investmentShares (stats (handleSellShares (handleBuyShares st)))
     == investmentShares s).
Proof.
  destruct st as [g s]. cbv zeta.
  unfold handleBuyShares, handleSellShares, setStats. cbn [stats grid].
  split; [|split; [|split; [|split]]].
  - intros Hm. destruct (Qgeb (money s) _) eqn:E; [|done].
    apply Qgeb_true in E. cbn. lra.
  - intros Hn. destruct (Qgeb (investmentShares s) 10) eqn:E; [|done].
    apply Qgeb_true in E. cbn. lra.
  - intros Hm. apply Qgeb_false in Hm. by rewrite Hm.
  - intros Hn. apply Qgeb_false in Hn. by rewrite Hn.
  - intros Hn Hm. apply Qgeb_true in Hm. rewrite Hm.
    cbn [investmentShares set_investmentShares set_investmentAverageCost set_money].
    destruct (Qgeb (investmentShares s + 10) 10) eqn:E;
      [|apply Qgeb_false in E; lra].
    cbn. lra.
Qed.

Lemma shares_buy_then_sell_witness :
  money (stats (handleSellShares (handleBuyShares (riverTown 2000)))) == 2000 /\
  investmentShares (stats (handleSellShares (handleBuyShares (riverTown 2000)))) == 0.
Proof.
  destruct (shares_buy_then_sell (riverTown 2000)) as (_ & _ & _ & _ & H).
  apply H; vm_compute; discriminate.
Defined.

(** [X3] The average cost of the shares held is a weighted average.
    After an accepted purchase of ten shares, with a holding that is not
    negative (and numbers in the safe range, where the product and the
    quotient of the code are finite, the divisor being at least 10), the
    number of shares times the average cost is what it was plus the price
    paid, and the new average lies between the old one and the price; a
    sale leaves the average cost as it is.  The equations are those of
    exact arithmetic. *)
Theorem shares_average_cost (st : AppState) :
  let s := stats st in
  let s' := stats (handleBuyShares st) in
  safeNumber (investmentShares s) = true ->
  safeNumber (investmentAverageCost s) = true ->
  safeNumber (sharePrice s) = true ->
  0 <= investmentShares s -> sharePrice s * 10 <= money s ->
  investmentShares s' * investmentAverageCost s'
  == investmentShares s * investmentAverageCost s + sharePrice s * 10 /\
  (investmentAverageCost s <= sharePrice s ->
     investmentAverageCost s <= investmentAverageCost s' <= sharePrice s) /\
  (sharePrice s <= investmentAverageCost s ->
     sharePrice s <= investmentAverageCost s' <= investmentAverageCost s) /\
  investmentAverageCost (stats (handleSellShares st)) = investmentAverageCost s.
Proof.
  destruct st as [g s]. cbv zeta.
  unfold handleBuyShares, handleSellShares, setStats. cbn [stats grid].
  intros _ _ _ Hn Hm. apply Qgeb_true in Hm. rewrite Hm.
  cbn [investmentShares investmentAverageCost set_investmentShares
       set_investmentAverageCost set_money].
  set (n := investmentShares s) in *. set (a := investmentAverageCost s).
  set (p := sharePrice s) in *.
  set (q := (n * a + p * 10) / (n + 10)).
  assert (Hq : (n + 10) * q == n * a + p * 10).
  { subst q. rewrite Qmult_div_r; [reflexivity|]. lra. }
  split; [lra|]. split; [|split].
  - intros Hap. split; nra.
  - intros Hpa. split; nra.
  - by destruct (Qgeb n 10).
Qed.

(** A first purchase at the opening price of 100: the average cost of
    the ten shares is 100. *)
Lemma shares_average_cost_witness :
  investmentShares (stats (handleBuyShares (riverTown 2000)))
  * investmentAverageCost (stats (handleBuyShares (riverTown 2000)))
  == 0 * 0 + 100 * 10.
Proof.
  apply (shares_average_cost (riverTown 2000));
    first [reflexivity | vm_compute; discriminate].
Defined.

(** [X4] The tax rate cycles 5% -> 10% -> 20% -> 5%.  Whatever the rate
    was, after [cycleTax] it is one of the three; from a rate that is none
    of them it goes to 10%; and three presses bring back a rate that is
    one of the three.  No other field of the stats changes, nor the
    grid. *)
Theorem cycleTax_cycle (st : AppState) :
  let r := taxRate (stats st) in
  let r' := taxRate (stats (cycleTax st)) in
  (r == 0.05 -> r' == 0.1) /\ (r == 0.1 -> r' == 0.2) /\ (r == 0.2 -> r' == 0.05) /\
  (~ r == 0.05 -> ~ r == 0.1 -> ~ r == 0.2 -> r' == 0.1) /\
  (r' == 0.05 \/ r' == 0.1 \/ r' == 0.2) /\
  (r == 0.05 \/ r == 0.1 \/ r == 0.2 ->
     taxRate (stats (cycleTax (cycleTax (cycleTax st)))) == r) /\
  cycleTax st = {| grid := grid st; stats := set_taxRate r' (stats st) |}.
Proof.
  destruct st as [g s]. cbv zeta. unfold cycleTax, setStats. cbn [stats grid taxRate set_taxRate].
  set (r := taxRate s).
  assert (H5 : Qeq_bool r 0.05 = true <-> r == 0.05) by apply Qeq_bool_iff.
  assert (H10 : Qeq_bool r 0.10 = true <-> r == 0.1).
  { rewrite Qeq_bool_iff. split; intros ->; reflexivity. }
  assert (H20 : Qeq_bool r 0.20 = true <-> r == 0.2).
  { rewrite Qeq_bool_iff. split; intros ->; reflexivity. }
  assert (Hcases : r == 0.05 \/ r == 0.1 \/ r == 0.2 \/
                   (~ r == 0.05 /\ ~ r == 0.1 /\ ~ r == 0.2)).
  { destruct (Qeq_dec r 0.05); [tauto|]. destruct (Qeq_dec r 0.1); [tauto|].
    destruct (Qeq_dec r 0.2); tauto. }
  destruct (Qeq_bool r 0.05) eqn:E5; [|destruct (Qeq_bool r 0.10) eqn:E10;
    [|destruct (Qeq_bool r 0.20) eqn:E20]].
  - assert (Hr : r == 0.05) by (by apply H5).
    split; [intros; lra|]. split; [intros; lra|]. split; [intros; lra|].
    split; [intros; lra|]. split; [lra|]. split; [|reflexivity].
    intros _. match goal with |- ?l == _ => vm_at l end. lra.
  - assert (Hr : r == 0.1) by (by apply H10).
    split; [intros; lra|]. split; [intros; lra|]. split; [intros; lra|].
    split; [intros; lra|]. split; [lra|]. split; [|reflexivity].
    intros _. match goal with |- ?l == _ => vm_at l end. lra.
  - assert (Hr : r == 0.2) by (by apply H20).
    split; [intros; lra|]. split; [intros; lra|]. split; [intros; lra|].
    split; [intros; lra|]. split; [lra|]. split; [|reflexivity].
    intros _. match goal with |- ?l == _ => vm_at l end. lra.
  - assert (N5 : ~ r == 0.05) by (intros E; apply H5 in E; discriminate).
    assert (N10 : ~ r == 0.1) by (intros E; apply H10 in E; discriminate).
    assert (N20 : ~ r == 0.2) by (intros E; apply H20 in E; discriminate).
    split; [intros; tauto|]. split; [intros; tauto|]. split; [intros; tauto|].
    split; [intros; lra|]. split; [lra|]. split; [|reflexivity].
    intros; tauto.
Qed.

(** From the opening rate of 10%: 20%, 5%, and 10% again. *)
Lemma cycleTax_cycle_witness :
  taxRate (stats (cycleTax (cycleTax (cycleTax (riverTown 2000))))) == 1 # 10.
Proof.
  destruct (cycleTax_cycle (riverTown 2000)) as (_ & _ & _ & _ & _ & H & _).
  apply H. right. left. vm_compute. reflexivity.
Defined.

(** * Research *)

(** [X5] Research is paid for and bounded.  Whatever is researched, the
    grid is untouched, a treasury that is not negative stays so, and the
    unlocked size never shrinks and never passes GRID_SIZE once it is
    within it; a land grant costs 5000 times the level plus one, adds one
    level and at most 10 to the unlocked size, and is refused on a fully
    unlocked map; Mars and the nautical level can be bought once: a second
    purchase changes nothing. *)
Theorem handleResearch_bounds (type : ResearchType) (st : AppState) :
  let s := stats st in
  let st' := handleResearch type st in
  let s' := stats st' in
  grid st' = grid st /\
  (0 <= money s -> 0 <= money s') /\
  unlockedGridSize s <= unlockedGridSize s' /\
  (unlockedGridSize s <= inject_Z GRID_SIZE ->
     unlockedGridSize s' <= inject_Z GRID_SIZE) /\
  (type = LAND -> st' <> st ->
     money s' = money s - (5000 + landExpansionLevel (research s) * 5000) /\
     landExpansionLevel (research s') = landExpansionLevel (research s) + 1 /\
     unlockedGridSize s' <= unlockedGridSize s + 10 /\
     unlockedGridSize s < inject_Z GRID_SIZE) /\
  (type <> LAND -> handleResearch type st' = st').
Proof.
  destruct st as [g s]. cbv zeta. unfold handleResearch, setStats. cbn [stats grid].
  destruct type.
  - destruct (Qgeb (money s) _) eqn:Em; cbn [andb];
      [destruct (Qltb (unlockedGridSize s) _) eqn:Eu|].
    + apply Qgeb_true in Em. apply Qltb_true in Eu. cbn [stats grid].
      cbn [money unlockedGridSize research landExpansionLevel set_research
           set_unlockedGridSize set_money set_landExpansionLevel].
      pose proof (Math_min_glb (inject_Z GRID_SIZE) (unlockedGridSize s + 10))
        as (? & ? & [E|E]); rewrite ?E in *.
      * split; [done|]. split; [intros; lra|]. split; [lra|]. split; [intros; lra|].
        split; [|done]. intros _ _. repeat split; try lra.
      * split; [done|]. split; [intros; lra|]. split; [lra|]. split; [intros; lra|].
        split; [|done]. intros _ _. repeat split; try lra.
    + cbn [stats grid].
      split; [done|]. split; [done|]. split; [lra|]. split; [done|]. split; [|done].
      intros _ H. by destruct H.
    + cbn [stats grid].
      split; [done|]. split; [done|]. split; [lra|]. split; [done|]. split; [|done].
      intros _ H. by destruct H.
  - split; [by destruct (_ && _)|]. split.
    { intros Hm. destruct (Qgeb (money s) 20000) eqn:Em; cbn [andb];
        [destruct (isMarsDiscovered (research s))|]; cbn; try done.
      apply Qgeb_true in Em. lra. }
    split; [destruct (_ && _); cbn; lra|].
    split; [by destruct (_ && _)|]. split; [done|]. intros _.
    destruct (Qgeb (money s) 20000) eqn:Em; cbn [andb];
      [destruct (isMarsDiscovered (research s)) eqn:Ei|]; cbn [negb stats grid].
    + by rewrite Em, Ei.
    + cbn [research set_research set_isMarsDiscovered isMarsDiscovered negb andb].
      by rewrite andb_false_r.
    + by rewrite Em.
  - split; [by destruct (_ && _)|]. split.
    { intros Hm. destruct (Qgeb (money s) 10000) eqn:Em; cbn [andb];
        [destruct (Qeq_bool (nauticalLevel (research s)) 0)|]; cbn; try done.
      apply Qgeb_true in Em. lra. }
    split; [destruct (_ && _); cbn; lra|].
    split; [by destruct (_ && _)|]. split; [done|]. intros _.
    destruct (Qgeb (money s) 10000) eqn:Em; cbn [andb];
      [destruct (Qeq_bool (nauticalLevel (research s)) 0) eqn:Ei|]; cbn [stats grid].
    + cbn [research set_research set_nauticalLevel nauticalLevel].
      change (Qeq_bool 1 0) with false. by rewrite andb_false_r.
    + by rewrite Em, Ei.
    + by rewrite Em.
Qed.

(** With 30000 in the treasury and 35 tiles unlocked, a land grant
    unlocks the whole map. *)
Lemma handleResearch_bounds_witness :
  unlockedGridSize
    (stats (handleResearch LAND
              (setStats (set_unlockedGridSize 35) (riverTown 30000))))
  <= inject_Z GRID_SIZE.
Proof.
  destruct (handleResearch_bounds LAND
              (setStats (set_unlockedGridSize 35) (riverTown 30000)))
    as (_ & _ & _ & H & _).
  apply H. vm_compute. discriminate.
Defined.

(** * Travel between planets *)

(** [X6] A round trip brings the city back.  Leaving the active planet
    for another one stores its grid, so that coming back loads the grid
    that was left; the stats are those before the trip, and the grid of
    the planet visited is stored in its turn. *)
Theorem travelToPlanet_round_trip (host : Host) (r1 r2 : Q) (target : Planet)
    (w : Game) :
  let home := activePlanet (stats (current w)) in
  let w1 := travelToPlanet host r1 target w in
  let w2 := travelToPlanet host r2 home w1 in
  target <> home ->
  activePlanet (stats (current w1)) = target /\
  worlds w1 home = Some (grid (current w)) /\
  current w2 = current w /\
  worlds w2 target = Some (grid (current w1)) /\
  worlds w2 home = Some (grid (current w)).
Proof.
  destruct w as [[g s] ws]. cbv zeta. cbn [current stats grid].
  intros Hne. unfold travelToPlanet, setStats, setGrid. cbn [current stats grid worlds].
  assert (Hs : set_activePlanet (activePlanet s) (set_activePlanet target s) = s)
    by (by destruct s).
  assert (E1 : Planet_eqb (activePlanet s) (activePlanet s) = true)
    by (by destruct (activePlanet s)).
  assert (E2 : Planet_eqb target target = true) by (by destruct target).
  assert (E3 : Planet_eqb (activePlanet s) target = false)
    by (destruct (activePlanet s), target; done).
  assert (E4 : Planet_eqb target (activePlanet s) = false)
    by (destruct (activePlanet s), target; done).
  change (activePlanet (set_activePlanet target s)) with target.
  rewrite E1, E2, E3.
  split; [done|]. split; [done|]. split; [by rewrite Hs|]. split; done.
Qed.

(** From the river town on Earth to Mars and back. *)
Lemma travelToPlanet_round_trip_witness :
  current
    (travelToPlanet exampleHost 0 Earth
       (travelToPlanet exampleHost 0 Mars
          {| current := riverTown 2000; worlds := fun _ => None |}))
  = riverTown 2000.
Proof.
  destruct (travelToPlanet_round_trip exampleHost 0 0 Mars
              {| current := riverTown 2000; worlds := fun _ => None |})
    as (_ & _ & H & _); [discriminate|exact H].
Defined.

(** * Economic events *)

(** [X7] An economic event never starts on top of another one, and one
    that starts has time to run.  With an event active the handler does
    nothing, whatever the draw; otherwise it changes at most the event and
    its duration, a draw of 0.15 or more starts nothing, and an event it
    starts lasts 5, 10 or 20 days.  So [triggerEconomyEvent] keeps true
    that an active event has a positive duration left. *)
Theorem triggerEconomyEvent_no_overlap (roll : Q) (st : AppState) :
  let s := stats st in
  let st' := triggerEconomyEvent roll st in
  let s' := stats st' in
  (activeEvent s <> EconomicEvent.None -> st' = st) /\
  (0.15 <= roll -> st' = st) /\
  grid st' = grid st /\
  s' = set_eventDuration (eventDuration s') (set_activeEvent (activeEvent s') s) /\
  (st' <> st ->
     activeEvent s = EconomicEvent.None /\
     activeEvent s' <> EconomicEvent.None /\
     (eventDuration s' = 5 \/ eventDuration s' = 10 \/ eventDuration s' = 20)) /\
  ((activeEvent s <> EconomicEvent.None -> 0 < eventDuration s) ->
   activeEvent s' <> EconomicEvent.None -> 0 < eventDuration s').
Proof.
  destruct st as [g s]. cbv zeta. unfold triggerEconomyEvent, setStats. cbn [stats grid].
  assert (Hid : s = set_eventDuration (eventDuration s) (set_activeEvent (activeEvent s) s))
    by (by destruct s).
  destruct (EconomicEvent.eqb (activeEvent s) EconomicEvent.None) eqn:Ea; cbn [negb].
  - apply bool_decide_eq_true in Ea.
    destruct (Qltb roll 0.05) eqn:E1; [|destruct (Qltb roll 0.10) eqn:E2;
      [|destruct (Qltb (happiness s) 40 && Qltb roll 0.15) eqn:E3;
        [|destruct (Qgtb (money s) 5000 && Qltb roll 0.12) eqn:E4]]];
      cbn [stats grid activeEvent eventDuration set_activeEvent set_eventDuration].
    + apply Qltb_true in E1.
      split; [done|]. split; [intros; lra|]. split; [done|]. split; [done|].
      split; [|intros; reflexivity]. intros _. split; [done|]. split; [done|]. tauto.
    + apply Qltb_true in E2.
      split; [done|]. split; [intros; lra|]. split; [done|]. split; [done|].
      split; [|intros; reflexivity]. intros _. split; [done|]. split; [done|]. tauto.
    + apply andb_true_iff in E3 as [_ E3]. apply Qltb_true in E3.
      split; [done|]. split; [intros; lra|]. split; [done|]. split; [done|].
      split; [|intros; reflexivity]. intros _. split; [done|]. split; [done|]. tauto.
    + apply andb_true_iff in E4 as [_ E4]. apply Qltb_true in E4.
      split; [done|]. split; [intros; lra|]. split; [done|]. split; [done|].
      split; [|intros; reflexivity]. intros _. split; [done|]. split; [done|]. tauto.
    + split; [done|]. split; [done|]. split; [done|]. split; [exact Hid|].
      split; [intros H; by destruct H|]. intros _ H. by destruct H.
  - split; [done|]. split; [done|]. split; [done|]. split; [exact Hid|].
    split; [intros H; by destruct H|]. tauto.
Qed.

(** A draw of 0.07 in a quiet economy starts a recession of 20 days. *)
Lemma triggerEconomyEvent_no_overlap_witness :
  0 < eventDuration (stats (triggerEconomyEvent 0.07 (riverTown 2000))).
Proof.
  destruct (triggerEconomyEvent_no_overlap 0.07 (riverTown 2000))
    as (_ & _ & _ & _ & _ & H).
  apply H; [intros E; by destruct E|vm_compute; discriminate].
Defined.

(** * The map: its first grid, meteors, and the agent's actions *)

Lemma rectangular_setTile (w : nat) (g : Grid) (yi xi : nat) (t : Tile.t) :
  rectangular w g -> rectangular w (setTile g yi xi t).
Proof.
  unfold rectangular, setTile. intros H. apply Forall_alter; [done|].
  intros row _ Hrow. by rewrite length_insert.
Qed.

Lemma length_setTile (g : Grid) (yi xi : nat) (t : Tile.t) :
  length (setTile g yi xi t) = length g.
Proof. unfold setTile. apply length_alter. Qed.

Lemma tileAt_setTile_same (g : Grid) (yi xi : nat) (t : Tile.t) :
  tileAt g yi xi = Some t -> setTile g yi xi t = g.
Proof.
  intros H. apply tileAt_rows in H as (row & Hrow & Hx).
  unfold setTile. apply list_eq. intros i.
  destruct (decide (i = yi)) as [->|Hne].
  - rewrite list_lookup_alter_eq, Hrow. cbn. f_equal. by apply list_insert_id.
  - by rewrite list_lookup_alter_ne.
Qed.

Lemma setTile_setTile (g : Grid) (yi xi : nat) (t t' : Tile.t) :
  setTile (setTile g yi xi t) yi xi t' = setTile g yi xi t'.
Proof.
  unfold setTile. apply list_eq. intros i.
  destruct (decide (i = yi)) as [->|Hne].
  - rewrite !list_lookup_alter_eq. destruct (g !! yi); [|done]. cbn.
    f_equal. apply list_insert_insert_eq.
  - by rewrite !list_lookup_alter_ne.
Qed.

(** ** [createInitialGrid] *)

Lemma tileAt_map_seq (w h : nat) (f : nat -> nat -> Tile.t) (yi xi : nat) :
  tileAt (map (fun y => map (fun x => f y x) (seq 0 w)) (seq 0 h)) yi xi
  = if decide (yi < h /\ xi < w)%nat then Some (f yi xi) else None.
Proof.
  unfold tileAt.
  change (map (fun y => map (fun x => f y x) (seq 0 w)) (seq 0 h))
    with ((fun y => (fun x => f y x) <$> seq 0 w) <$> seq 0 h).
  rewrite list_lookup_fmap.
  destruct (decide (yi < h)%nat) as [Hy|Hy].
  - rewrite (lookup_seq_lt _ _ _ Hy). cbn. rewrite list_lookup_fmap.
    destruct (decide (xi < w)%nat) as [Hx|Hx].
    + rewrite (lookup_seq_lt _ _ _ Hx). cbn. by rewrite decide_True.
    + rewrite lookup_seq_ge by lia. cbn. rewrite decide_False; [done|tauto].
  - rewrite lookup_seq_ge by lia. cbn. rewrite decide_False; [done|tauto].
Qed.

(** [X8] The first grid is a map the rest of the code can run on.
    Whatever the seed and the host's sine and cosine, it has GRID_SIZE
    rows of GRID_SIZE tiles; the tile at row [yi], column [xi] has
    [x = xi], [y = yi], pollution 0 and no road flag, and is land or
    water, and land only on Mars.  So it has no pollution source and no
    pollution, and with a wind speed between 0 and 1 it meets what the
    Environment Stepper needs. *)
Theorem createInitialGrid_shape (host : Host) (random : Q) (planet : Planet) :
  let g := createInitialGrid host random planet in
  length g = Z.to_nat GRID_SIZE /\
  rectangular (Z.to_nat GRID_SIZE) g /\
  (forall yi xi, (yi < 45)%nat -> (xi < 45)%nat ->
     exists t, tileAt g yi xi = Some t /\
       Tile.x t = Z.of_nat xi /\ Tile.y t = Z.of_nat yi /\
       Tile.pollution t = Some 0 /\ Tile.hasRoadAccess t = None /\
       (Tile.buildingType t = BuildingType.None \/
        (planet = Earth /\ Tile.buildingType t = BuildingType.Water))) /\
  (forall yi xi t, tileAt g yi xi = Some t ->
     (yi < 45)%nat /\ (xi < 45)%nat) /\
  (forall speed, 0 <= speed <= 1 -> envInv (Z.to_nat GRID_SIZE) g speed) /\
  allClean g /\ boundedPollution g.
Proof.
  cbv zeta. unfold createInitialGrid.
  match goal with
  | |- context [map (fun y => map (fun x => @?F y x) _) _] => set (f := F)
  end.
  change (map _ (seq 0 (Z.to_nat GRID_SIZE)))
    with (map (fun y => map (fun x => f y x) (seq 0 45)) (seq 0 45)).
  set (g := map _ _).
  assert (Hat : forall yi xi, tileAt g yi xi
                = if decide (yi < 45 /\ xi < 45)%nat then Some (f yi xi) else None).
  { intros. subst g. apply (tileAt_map_seq 45 45). }
  assert (Hlen : length g = Z.to_nat GRID_SIZE).
  { subst g. by rewrite length_map, length_seq. }
  assert (Hrect : rectangular (Z.to_nat GRID_SIZE) g).
  { subst g. unfold rectangular. apply Forall_forall. intros row Hrow.
    apply list_elem_of_In, in_map_iff in Hrow as (y & <- & _).
    by rewrite length_map, length_seq. }
  assert (Hin : forall yi xi t, tileAt g yi xi = Some t ->
                  (yi < 45)%nat /\ (xi < 45)%nat /\ t = f yi xi).
  { intros yi xi t Ht. rewrite Hat in Ht. case_decide; [|done].
    inversion Ht. tauto. }
  assert (Hty : forall yi xi,
            Tile.buildingType (f yi xi) = BuildingType.None \/
            (planet = Earth /\ Tile.buildingType (f yi xi) = BuildingType.Water)).
  { intros yi xi. subst f. cbn. destruct planet; [|by left].
    destruct (Qltb _ _); [right|left]; done. }
  split; [exact Hlen|]. split; [exact Hrect|]. split; [|split; [|split]].
  - intros yi xi Hy Hx. exists (f yi xi). split.
    + rewrite Hat. by rewrite decide_True.
    + repeat split; try reflexivity. apply Hty.
  - intros yi xi t Ht. apply Hin in Ht. tauto.
  - intros speed Hs. split; [exact Hrect|]. split.
    { intros E. rewrite E in Hlen. discriminate. }
    split; [|split; [|exact Hs]].
    + apply grid_Forall_tileAt. intros y x t Ht. apply Hin in Ht as (_ & _ & ->).
      destruct (Hty y x) as [E|[_ E]]; rewrite E; vm_compute; discriminate.
    + apply grid_Forall_tileAt. intros y x t Ht. apply Hin in Ht as (_ & _ & ->).
      vm_compute. discriminate.
  - split; apply grid_Forall_tileAt; intros y x t Ht;
      apply Hin in Ht as (_ & _ & ->); [reflexivity|vm_compute; discriminate].
Qed.

(** The wind of INITIAL_STATS on a first grid of Mars. *)
Lemma createInitialGrid_shape_witness :
  envInv (Z.to_nat GRID_SIZE) (createInitialGrid exampleHost (1 # 2) Mars)
    (windSpeed INITIAL_STATS).
Proof.
  destruct (createInitialGrid_shape exampleHost (1 # 2) Mars) as (_ & _ & _ & _ & H & _).
  apply H. vm_compute. split; discriminate.
Defined.

(** ** Meteors *)

(** Whether the pair ([dy], [dx]) of the loops hits row [yi], column
    [xi]. *)
Lemma meteorCell_spec (tx ty : Z) (g : Grid) (d : Z * Z) :
  rectangular 45 g -> length g = 45%nat ->
  exists g1,
    meteorCell tx ty g d = Some g1 /\ rectangular 45 g1 /\ length g1 = 45%nat /\
    forall yi xi t, tileAt g yi xi = Some t ->
      tileAt g1 yi xi
      = Some (if bool_decide (Z.of_nat yi = ty + d.1 /\ Z.of_nat xi = tx + d.2)%Z
              then Tile.set_buildingType BuildingType.None t else t).
Proof.
  intros Hw Hh. destruct d as [dy dx]. unfold meteorCell. cbn [fst snd].
  destruct ((ty + dy >=? 0) && (ty + dy <? GRID_SIZE) && (tx + dx >=? 0)
            && (tx + dx <? GRID_SIZE))%Z eqn:E.
  - unfold GRID_SIZE in E.
    assert (Hy : (0 <= ty + dy < 45)%Z) by lia.
    assert (Hx : (0 <= tx + dx < 45)%Z) by lia.
    destruct (tileAt_in_range 45 g (Z.to_nat (ty + dy)) (Z.to_nat (tx + dx)) Hw)
      as [old Hold]; [lia|lia|].
    rewrite Hold. cbn [mbind option_bind]. eexists. split; [reflexivity|].
    split; [by apply rectangular_setTile|]. split; [by rewrite length_setTile|].
    intros yi xi t Ht. case_bool_decide as Hc.
    + destruct Hc as [Hc1 Hc2].
      assert (yi = Z.to_nat (ty + dy)) as -> by lia.
      assert (xi = Z.to_nat (tx + dx)) as -> by lia.
      rewrite (tileAt_setTile_eq _ _ _ old) by done. congruence.
    + rewrite tileAt_setTile_ne; [done|]. intros [=]. subst. lia.
  - exists g. split; [done|]. split; [done|]. split; [done|].
    intros yi xi t Ht. case_bool_decide as Hc; [|done].
    destruct (tileAt_in_bounds 45 g yi xi t Hw Ht). unfold GRID_SIZE in E. lia.
Qed.

Lemma meteor_fold_spec (tx ty : Z) (ds : list (Z * Z)) (g : Grid) :
  rectangular 45 g -> length g = 45%nat ->
  exists g',
    fold_left (fun acc d => acc ≫= fun g => meteorCell tx ty g d) ds (Some g)
    = Some g' /\
    rectangular 45 g' /\ length g' = 45%nat /\
    forall yi xi t, tileAt g yi xi = Some t ->
      tileAt g' yi xi
      = Some (if existsb (fun d : Z * Z =>
                   bool_decide (Z.of_nat yi = ty + d.1 /\ Z.of_nat xi = tx + d.2)%Z) ds
              then Tile.set_buildingType BuildingType.None t else t).
Proof.
  revert g. induction ds as [|d ds IH]; intros g Hw Hh.
  - exists g. by repeat split.
  - cbn [fold_left existsb].
    destruct (meteorCell_spec tx ty g d Hw Hh) as (g1 & H1 & Hw1 & Hh1 & Ht1).
    cbn [mbind option_bind]. rewrite H1.
    destruct (IH g1 Hw1 Hh1) as (g' & H' & Hw' & Hh' & Ht').
    exists g'. split; [exact H'|]. split; [done|]. split; [done|].
    intros yi xi t Ht. rewrite (Ht' yi xi _ (Ht1 yi xi t Ht)).
    destruct (bool_decide _); cbn [orb]; [|done].
    by destruct (existsb _ _), t.
Qed.

(** [X9] A meteor clears the 3 x 3 square around its target, and nothing
    else.  On a 45 x 45 grid the impact returns a 45 x 45 grid in which
    every tile at most one row and one column away from the target has
    building type None, whatever was there (water and roads too), with
    its other fields kept, and every other tile is as it was. *)
Theorem meteorImpact_blast (targetX targetY : Z) (g : Grid) :
  rectangular 45 g -> length g = 45%nat ->
  exists g',
    meteorImpact targetX targetY g = Some g' /\
    rectangular 45 g' /\ length g' = 45%nat /\
    forall yi xi t, tileAt g yi xi = Some t ->
      ((-1 <= Z.of_nat yi - targetY <= 1)%Z /\ (-1 <= Z.of_nat xi - targetX <= 1)%Z ->
         tileAt g' yi xi = Some (Tile.set_buildingType BuildingType.None t)) /\
      (~ ((-1 <= Z.of_nat yi - targetY <= 1)%Z /\ (-1 <= Z.of_nat xi - targetX <= 1)%Z) ->
         tileAt g' yi xi = Some t).
Proof.
  intros Hw Hh. unfold meteorImpact.
  destruct (meteor_fold_spec targetX targetY blast g Hw Hh) as (g' & H' & Hw' & Hh' & Ht').
  exists g'. split; [exact H'|]. split; [done|]. split; [done|].
  intros yi xi t Ht. rewrite (Ht' yi xi t Ht). clear Ht'.
  destruct (existsb _ blast) eqn:E.
  - split; [done|]. intros Hn. exfalso. apply Hn.
    apply existsb_exists in E as ([dy dx] & Hin & Hd).
    apply bool_decide_eq_true in Hd. cbn [fst snd] in Hd.
    unfold blast in Hin. cbn in Hin.
    repeat (destruct Hin as [Hd'|Hin]; [inversion Hd'; subst; lia|]). done.
  - split; [|done]. intros [Hy Hx]. exfalso.
    assert (Hex : existsb (fun d : Z * Z =>
               bool_decide (Z.of_nat yi = targetY + d.1 /\ Z.of_nat xi = targetX + d.2)%Z)
              blast = true); [|congruence].
    apply existsb_exists.
    exists ((Z.of_nat yi - targetY)%Z, (Z.of_nat xi - targetX)%Z). split.
    + assert (Hdy : (Z.of_nat yi - targetY = -1 \/ Z.of_nat yi - targetY = 0
                     \/ Z.of_nat yi - targetY = 1)%Z) by lia.
      assert (Hdx : (Z.of_nat xi - targetX = -1 \/ Z.of_nat xi - targetX = 0
                     \/ Z.of_nat xi - targetX = 1)%Z) by lia.
      unfold blast. destruct Hdy as [-> | [-> | ->]], Hdx as [-> | [-> | ->]]; cbn; tauto.
    + apply bool_decide_eq_true. cbn [fst snd]. lia.
Qed.

(** A meteor on the bridge of the river map: the house at (4, 4) and the
    river around the bridge become land. *)
Lemma meteorImpact_blast_witness :
  exists g',
    meteorImpact 3 5 riverMap = Some g' /\
    Tile.buildingType <$> tileAt g' 4 4 = Some BuildingType.None /\
    Tile.buildingType <$> tileAt g' 5 3 = Some BuildingType.None /\
    Tile.buildingType <$> tileAt g' 7 3 = Some BuildingType.Water.
Proof.
  destruct (meteorImpact_blast 3 5 riverMap) as (g' & H & _ & _ & Ht).
  - repeat constructor.
  - reflexivity.
  - exists g'. split; [exact H|]. split; [|split].
    + destruct (Ht 4 4 (mkTile BuildingType.Residential 4 4) eq_refl)%nat as [H1 _].
      rewrite H1; [reflexivity|lia].
    + destruct (Ht 5 3 (mkTile BuildingType.Bridge 3 5) eq_refl)%nat as [H1 _].
      rewrite H1; [reflexivity|lia].
    + destruct (Ht 7 3 (mkTile BuildingType.Water 3 7) eq_refl)%nat as [_ H1].
      rewrite H1; [reflexivity|lia].
Defined.

(** ** More on the action gate *)

Lemma offGrid_false (x y : Z) : offGrid x y = false -> in_bounds x y.
Proof. unfold offGrid, in_bounds, GRID_SIZE. intros H. lia. Qed.

(** The unlocked square: the distance of [x] and [y] from the centre, 22,
    is at most half the unlocked size, rounded down. *)
Lemma fog_false (x y : Z) (u : Q) :
  Qltb (inject_Z x) (Math_floor (inject_Z GRID_SIZE / 2) - Math_floor (u / 2))
  || Qgtb (inject_Z x) (Math_floor (inject_Z GRID_SIZE / 2) + Math_floor (u / 2))
  || Qltb (inject_Z y) (Math_floor (inject_Z GRID_SIZE / 2) - Math_floor (u / 2))
  || Qgtb (inject_Z y) (Math_floor (inject_Z GRID_SIZE / 2) + Math_floor (u / 2))
  = false ->
  (22 - Qfloor (u / 2) <= x <= 22 + Qfloor (u / 2))%Z /\
  (22 - Qfloor (u / 2) <= y <= 22 + Qfloor (u / 2))%Z.
Proof.
  intros H. apply orb_false_iff in H as [H H4]. apply orb_false_iff in H as [H H3].
  apply orb_false_iff in H as [H1 H2].
  unfold Qgtb in *. apply Qltb_false in H1, H2, H3, H4.
  unfold Math_floor in *.
  change (Qfloor (inject_Z GRID_SIZE / 2)) with 22%Z in *.
  unfold Qminus in H1, H3. rewrite <- inject_Z_opp in H1, H3.
  rewrite <- inject_Z_plus in H1, H2, H3, H4.
  rewrite <- Zle_Qle in H1, H2, H3, H4. lia.
Qed.

(** Decide the tests on building types in the hypotheses. *)
Ltac bt_cases :=
  repeat match goal with
         | H : context [BuildingType.eqb ?a ?b] |- _ =>
             let E := fresh "E" in
             destruct (decide (a = b)) as [E|E];
             [rewrite (proj2 (BuildingType_eqb_eq a b) E) in *
             |rewrite (BuildingType_eqb_neq a b E) in *]
         end;
  cbn [negb andb orb] in *; try discriminate; try tauto; try (intuition congruence).

Lemma App_build_accepted_full (st st' : AppState) (t : BuildingType.t) (x y : Z) :
  App.performAction st "BUILD" (Some t) x y = Some (true, st') ->
  in_bounds x y /\
  ((22 - Qfloor (unlockedGridSize (stats st) / 2) <= x
    <= 22 + Qfloor (unlockedGridSize (stats st) / 2))%Z /\
   (22 - Qfloor (unlockedGridSize (stats st) / 2) <= y
    <= 22 + Qfloor (unlockedGridSize (stats st) / 2))%Z) /\
  cost (BUILDINGS t) <= money (stats st) /\
  exists old, tileAt (grid st) (Z.to_nat y) (Z.to_nat x) = Some old /\
    ((Tile.buildingType old = BuildingType.Water /\ t = BuildingType.Bridge) \/
     (Tile.buildingType old = BuildingType.None /\ t <> BuildingType.Bridge)) /\
    grid st' = setTile (grid st) (Z.to_nat y) (Z.to_nat x) (Tile.set_buildingType t old) /\
    money (stats st') = money (stats st) - cost (BUILDINGS t).
Proof.
  intros H. gate_inv H; inversion H; subst; clear H; cbn [stats grid setStats setGrid];
    (split; [by apply offGrid_false|]); (split; [by apply fog_false|]);
    (split; [by apply Qgeb_true|]); eexists;
    (split; [apply tileAt_rows; eexists; split; eassumption|]);
    (split; [|split; reflexivity]);
    bt_cases.
Qed.

Lemma AppLegacy_build_accepted_full (st st' : AppState) (t : BuildingType.t) (x y : Z) :
  AppLegacy.performAction st "BUILD" (Some t) x y = Some (true, st') ->
  in_bounds x y /\
  cost (BUILDINGS t) <= money (stats st) /\
  exists old, tileAt (grid st) (Z.to_nat y) (Z.to_nat x) = Some old /\
    ((Tile.buildingType old = BuildingType.Water /\ t = BuildingType.Bridge) \/
     (Tile.buildingType old = BuildingType.None /\ t <> BuildingType.Bridge)) /\
    grid st' = setTile (grid st) (Z.to_nat y) (Z.to_nat x) (Tile.set_buildingType t old) /\
    stats st' = set_money (money (stats st) - cost (BUILDINGS t)) (stats st).
Proof.
  intros H. gate_inv H; inversion H; subst; clear H; cbn [stats grid setStats setGrid];
    (split; [by apply offGrid_false|]);
    (split; [by apply Qgeb_true|]); eexists;
    (split; [apply tileAt_rows; eexists; split; eassumption|]);
    (split; [|split; reflexivity]);
    bt_cases.
Qed.

(** [X10] A Build is accepted only where it may be and when it can be
    paid.  In both versions an accepted Build lies on the map and costs
    no more than the treasury holds, so it leaves the money at 0 or more;
    in App.tsx it also lies in the unlocked square: [x] and [y] are at
    most half the unlocked size, rounded down, away from the centre,
    22. *)
Theorem performAction_build_affordable_in_range
    (st st' : AppState) (t : BuildingType.t) (x y : Z) :
  (App.performAction st "BUILD" (Some t) x y = Some (true, st') ->
     in_bounds x y /\
     (Z.abs (x - 22) <= Qfloor (unlockedGridSize (stats st) / 2))%Z /\
     (Z.abs (y - 22) <= Qfloor (unlockedGridSize (stats st) / 2))%Z /\
     cost (BUILDINGS t) <= money (stats st) /\
     0 <= money (stats st')) /\
  (AppLegacy.performAction st "BUILD" (Some t) x y = Some (true, st') ->
     in_bounds x y /\
     cost (BUILDINGS t) <= money (stats st) /\
     0 <= money (stats st')).
Proof.
  split.
  - intros H. apply App_build_accepted_full in H
      as (Hb & [Hx Hy] & Hc & old & _ & _ & _ & Hm).
    split; [done|]. split; [lia|]. split; [lia|]. split; [done|].
    rewrite Hm. lra.
  - intros H. apply AppLegacy_build_accepted_full in H
      as (Hb & Hc & old & _ & _ & _ & Hm).
    split; [done|]. split; [done|]. rewrite Hm. cbn. lra.
Qed.

(** A shop at (10, 10) of the river map, with 2000 in the treasury. *)
Lemma performAction_build_affordable_in_range_witness :
  exists st',
    App.performAction (riverTown 2000) "BUILD" (Some BuildingType.Commercial) 10 10
    = Some (true, st') /\
    0 <= money (stats st').
Proof.
  eexists. split; [vm_compute; reflexivity|].
  eapply (proj1 (performAction_build_affordable_in_range (riverTown 2000) _
                   BuildingType.Commercial 10 10)).
  vm_compute. reflexivity.
Defined.

Lemma set_buildingType_back (t : BuildingType.t) (old : Tile.t) :
  Tile.set_buildingType (Tile.buildingType old) (Tile.set_buildingType t old) = old.
Proof. by destruct old. Qed.

(** [X11] Demolishing what was just built gives the map back.  After an
    accepted Build of a type other than None and Water, a Demolish at the
    same coordinates is accepted and its grid is the grid before the
    Build (the land under a building, the water under a bridge); the two
    together cost the catalog price plus the fee of 5. *)
Theorem performAction_build_then_demolish
    (st st1 : AppState) (t : BuildingType.t) (x y : Z) :
  t <> BuildingType.None -> t <> BuildingType.Water ->
  (App.performAction st "BUILD" (Some t) x y = Some (true, st1) ->
   exists st2,
     App.performAction st1 "DEMOLISH" None x y = Some (true, st2) /\
     grid st2 = grid st /\
     money (stats st2) == money (stats st) - cost (BUILDINGS t) - 5) /\
  (AppLegacy.performAction st "BUILD" (Some t) x y = Some (true, st1) ->
   exists st2,
     AppLegacy.performAction st1 "DEMOLISH" None x y = Some (true, st2) /\
     grid st2 = grid st /\
     money (stats st2) == money (stats st) - cost (BUILDINGS t) - 5).
Proof.
  intros HtN HtW. split.
  - intros H. apply App_build_accepted_full in H
      as (Hb & _ & _ & old & Hold & Hty & Hg & Hm).
    assert (Ht1 : tileAt (grid st1) (Z.to_nat y) (Z.to_nat x)
                  = Some (Tile.set_buildingType t old))
      by (rewrite Hg; by eapply tileAt_setTile_eq).
    destruct (proj1 (tileAt_rows _ _ _ _) Ht1) as (row1 & Hrow1 & Hx1).
    unfold App.performAction. rewrite (offGrid_in_bounds _ _ Hb). cbv beta zeta.
    change (String.eqb "DEMOLISH" "BUILD") with false. cbn [andb].
    rewrite Hrow1. cbn [mbind option_bind].
    change (String.eqb "DEMOLISH" "DEMOLISH") with true. cbv iota.
    rewrite Hx1. cbn [mbind option_bind]. rewrite Hg.
    change (Tile.buildingType (Tile.set_buildingType t old)) with t.
    rewrite (BuildingType_eqb_neq t BuildingType.None HtN),
            (BuildingType_eqb_neq t BuildingType.Water HtW). cbn [negb andb].
    eexists. split; [reflexivity|]. split.
    + destruct (BuildingType.eqb t BuildingType.ResearchCentre);
        cbn [grid setStats setGrid]; rewrite setTile_setTile;
        apply tileAt_setTile_same; rewrite Hold; f_equal;
        (destruct Hty as [[Ho ->]|[Ho Hnb]];
         [change (BuildingType.eqb BuildingType.Bridge BuildingType.Bridge) with true
         |rewrite (BuildingType_eqb_neq t BuildingType.Bridge Hnb)]);
        rewrite <- Ho; destruct old; reflexivity.
    + destruct (BuildingType.eqb t BuildingType.ResearchCentre);
        cbn [stats setStats setGrid money set_money set_research]; rewrite Hm; lra.
  - intros H. apply AppLegacy_build_accepted_full in H
      as (Hb & _ & old & Hold & Hty & Hg & Hs).
    assert (Ht1 : tileAt (grid st1) (Z.to_nat y) (Z.to_nat x)
                  = Some (Tile.set_buildingType t old))
      by (rewrite Hg; by eapply tileAt_setTile_eq).
    destruct (proj1 (tileAt_rows _ _ _ _) Ht1) as (row1 & Hrow1 & Hx1).
    unfold AppLegacy.performAction. rewrite (offGrid_in_bounds _ _ Hb). cbv beta zeta.
    rewrite Hrow1. cbn [mbind option_bind].
    change (String.eqb "DEMOLISH" "DEMOLISH") with true. cbv iota.
    rewrite Hx1. cbn [mbind option_bind]. rewrite Hg.
    change (Tile.buildingType (Tile.set_buildingType t old)) with t.
    rewrite (BuildingType_eqb_neq t BuildingType.None HtN),
            (BuildingType_eqb_neq t BuildingType.Water HtW). cbn [negb andb].
    eexists. split; [reflexivity|]. split.
    + cbn [grid setStats setGrid]. rewrite setTile_setTile.
      apply tileAt_setTile_same. rewrite Hold. f_equal.
      destruct Hty as [[Ho ->]|[Ho Hnb]];
        [change (BuildingType.eqb BuildingType.Bridge BuildingType.Bridge) with true
        |rewrite (BuildingType_eqb_neq t BuildingType.Bridge Hnb)];
        rewrite <- Ho; destruct old; reflexivity.
    + cbn [stats setStats setGrid money set_money]. rewrite Hs. cbn. lra.
Qed.

(** A bridge over the river at (3, 7), built and demolished. *)
Lemma performAction_build_then_demolish_witness :
  exists st1 st2,
    App.performAction (riverTown 2000) "BUILD" (Some BuildingType.Bridge) 3 7
    = Some (true, st1) /\
    App.performAction st1 "DEMOLISH" None 3 7 = Some (true, st2) /\
    grid st2 = riverMap.
Proof.
  destruct (App.performAction (riverTown 2000) "BUILD" (Some BuildingType.Bridge) 3 7)
    as [[[|] st1]|] eqn:E; try (vm_compute in E; discriminate E).
  destruct (proj1 (performAction_build_then_demolish (riverTown 2000) st1
                     BuildingType.Bridge 3 7 ltac:(discriminate) ltac:(discriminate)) E)
    as (st2 & H2 & Hg & _).
  exists st1, st2. split; [reflexivity|]. split; [exact H2|exact Hg].
Defined.

(** ** The agent loop *)

Lemma is_integer_spec (q : Q) : is_integer q = true <-> q == inject_Z (Qfloor q).
Proof. unfold is_integer. apply Qeq_bool_iff. Qed.

Lemma arrayIndex_of_integer (q : Q) :
  is_integer q = true -> (0 <= Qfloor q)%Z ->
  arrayIndex (Some q) = Some (Z.to_nat (Qfloor q)).
Proof.
  intros Hi Hq. unfold arrayIndex. rewrite Hi. cbn [andb].
  assert (H : Qle_bool 0 q = true).
  { apply Qle_bool_true. apply is_integer_spec in Hi. rewrite Hi.
    change 0 with (inject_Z 0). by rewrite <- Zle_Qle. }
  by rewrite H.
Qed.

Lemma performActionNum_rejected (st st' : AppState) action ty (x y : Q) :
  performActionNum st action ty x y = Some (false, st') -> st' = st.
Proof.
  unfold performActionNum. destruct (is_integer x && is_integer y).
  - apply App_rejected.
  - repeat match goal with
           | |- context [if ?c then _ else _] => destruct c
           end; intros [=]; done.
Qed.

(** [X12] The agent builds on empty land only.  Whatever BUILD action
    the agent loop is given, it leaves the grid and the stats as they
    were, or it changes one tile, which was empty land (None), to the
    building of the action and pays its price; the building is never a
    Bridge, since the loop blocks every BUILD on a tile that is not None
    and the gate accepts a Bridge on Water only. *)
Theorem agentStep_builds_on_empty_land (st : AppState) (a : AIAction.t) :
  AIAction.action a = "BUILD"%string ->
  let '(outcome, st') := agentStep st a in
  st' = st \/
  exists t yi xi old,
    outcome = Performed true /\
    AIAction.buildingType a = Some t /\ t <> BuildingType.Bridge /\
    tileAt (grid st) yi xi = Some old /\
    Tile.buildingType old = BuildingType.None /\
    only_tile_changes (grid st) (grid st') yi xi t /\
    money (stats st') = money (stats st) - cost (BUILDINGS t).
Proof.
  intros Ha. unfold agentStep. rewrite Ha.
  change (String.eqb "BUILD" "BUILD") with true.
  change (String.eqb "BUILD" "WAIT") with false.
  change (String.eqb "BUILD" "DEMOLISH") with false. cbv iota. cbn [andb].
  destruct (tileAtNum (grid st) (AIAction.y a) (AIAction.x a)) as [tile|] eqn:Etile.
  - destruct (_ || _) eqn:Eblocked; [by left|].
    apply orb_false_iff in Eblocked as [_ En]. apply negb_false_iff in En.
    apply BuildingType_eqb_eq in En.
    destruct (AIAction.x a) as [x|] eqn:Ex; [|by left].
    destruct (AIAction.y a) as [y|] eqn:Ey; [|by left].
    destruct (AIAction.buildingType a) as [t|] eqn:Et; [|by left].
    rewrite bool_decide_eq_true_2 by (by eexists). cbv iota.
    destruct (performActionNum st "BUILD" (Some t) x y) as [[[|] st']|] eqn:Ep;
      [|left; by eapply performActionNum_rejected|by left].
    right. unfold performActionNum in Ep.
    destruct (is_integer x && is_integer y) eqn:Ei.
    + apply andb_true_iff in Ei as [Hix Hiy].
      apply App_build_accepted_full in Ep
        as ([Hx Hy] & _ & _ & old & Hold & Hty & Hg & Hm).
      assert (Htile : tile = old).
      { unfold tileAtNum in Etile.
        rewrite (arrayIndex_of_integer y Hiy), (arrayIndex_of_integer x Hix) in Etile
          by lia.
        cbn [mbind option_bind] in Etile. congruence. }
      subst tile. destruct Hty as [[Hw _]|[_ Hnb]]; [congruence|].
      exists t, (Z.to_nat (Qfloor y)), (Z.to_nat (Qfloor x)), old.
      split; [done|]. split; [done|]. split; [done|]. split; [done|].
      split; [done|]. split; [|done]. rewrite Hg.
      by apply setTile_only_tile_changes.
    + exfalso. revert Ep.
      repeat match goal with
             | |- context [if ?c then _ else _] => destruct c
             end; intros [=].
  - destruct (AIAction.x a) as [x|] eqn:Ex; [|by left].
    destruct (AIAction.y a) as [y|] eqn:Ey; [|by left].
    destruct (AIAction.buildingType a) as [t|] eqn:Et; [|by left].
    rewrite bool_decide_eq_true_2 by (by eexists). cbv iota.
    destruct (performActionNum st "BUILD" (Some t) x y) as [[[|] st']|] eqn:Ep;
      [|left; by eapply performActionNum_rejected|by left].
    exfalso. unfold performActionNum in Ep.
    destruct (is_integer x && is_integer y) eqn:Ei.
    + apply andb_true_iff in Ei as [Hix Hiy].
      apply App_build_accepted_full in Ep
        as ([Hx Hy] & _ & _ & old & Hold & _).
      unfold tileAtNum in Etile.
      rewrite (arrayIndex_of_integer y Hiy), (arrayIndex_of_integer x Hix) in Etile
        by lia.
      cbn [mbind option_bind] in Etile. congruence.
    + revert Ep.
      repeat match goal with
             | |- context [if ?c then _ else _] => destruct c
             end; intros [=].
Qed.

(** The agent asks for a house on the land at (10, 10) of the river
    map: it is built.  It asks for a bridge on the river at (3, 7): the
    loop blocks it. *)
Lemma agentStep_builds_on_empty_land_witness :
  (agentStep (riverTown 2000)
     {| AIAction.action := "BUILD"; AIAction.buildingType := Some BuildingType.Bridge;
        AIAction.x := Some 3; AIAction.y := Some 7 |}).2
  = riverTown 2000 /\
  money (stats (agentStep (riverTown 2000)
     {| AIAction.action := "BUILD";
        AIAction.buildingType := Some BuildingType.Residential;
        AIAction.x := Some 10; AIAction.y := Some 10 |}).2) = 2000 - 200.
Proof.
  split.
  - pose proof (agentStep_builds_on_empty_land (riverTown 2000)
      {| AIAction.action := "BUILD"; AIAction.buildingType := Some BuildingType.Bridge;
         AIAction.x := Some 3; AIAction.y := Some 7 |} eq_refl) as H.
    destruct (agentStep _ _) as [o st']. destruct H as [H|(t & yi & xi & old & _ & Ht & Hnb & _)].
    + exact H.
    + exfalso. inversion Ht. by subst.
  - pose proof (agentStep_builds_on_empty_land (riverTown 2000)
      {| AIAction.action := "BUILD";
         AIAction.buildingType := Some BuildingType.Residential;
         AIAction.x := Some 10; AIAction.y := Some 10 |} eq_refl) as H.
    destruct (agentStep _ _) as [o st'] eqn:E.
    destruct H as [H|(t & yi & xi & old & _ & Ht & _ & _ & _ & _ & Hm)].
    + exfalso. subst st'. vm_compute in E. discriminate E.
    + inversion Ht. subst t. exact Hm.
Defined.

(** * The AI service *)

(** [X13] The retry policy of [callLocalAI].  At most two requests are
    made: the result depends on the first two attempts only.  A first
    attempt that answers is returned as it is; a first response below 500
    whose body can be read ends the call with [null], whatever a second
    attempt would give; after any other failure of the first attempt the
    result is that of the second attempt, which is not retried. *)
Theorem callLocalAI_retry_policy (net : nat -> Attempt) :
  (forall net', net' 0%nat = net 0%nat -> net' 1%nat = net 1%nat ->
                callLocalAI net' = callLocalAI net) /\
  (forall content, net 0%nat = Ok (Some content) -> callLocalAI net = content) /\
  (forall status errorText,
     net 0%nat = NotOk status (Some errorText) -> (status < 500)%Z ->
     callLocalAI net = None) /\
  (attemptFails (net 0%nat) = true -> retryable (net 0%nat) = true ->
     callLocalAI net
     = match net 1%nat with Ok (Some content) => content | _ => None end).
Proof.
  unfold callLocalAI. cbn [callLocalAI_from MAX_RETRIES].
  change (0 <? 1)%nat with true. change (1 <? 1)%nat with false.
  split; [|split; [|split]].
  - intros net' -> ->. reflexivity.
  - by intros content ->.
  - intros status errorText -> Hs.
    assert (E : (status >=? 500)%Z = false) by lia. by rewrite E.
  - intros Hf Hr. destruct (net 0%nat) as [|status [errorText|]|[content|]];
      cbn [attemptFails retryable] in Hf, Hr; try discriminate Hf.
    + by destruct (net 1%nat) as [|? [?|]|[?|]]; rewrite ?andb_false_r.
    + rewrite Hr. cbn [andb].
      by destruct (net 1%nat) as [|? [?|]|[?|]]; rewrite ?andb_false_r.
    + by destruct (net 1%nat) as [|? [?|]|[?|]]; rewrite ?andb_false_r.
    + by destruct (net 1%nat) as [|? [?|]|[?|]]; rewrite ?andb_false_r.
Qed.

(** A server error, and then an answer. *)
Lemma callLocalAI_retry_policy_witness :
  callLocalAI (fun i => match i with
                        | O => NotOk 503 (Some "busy")
                        | _ => Ok (Some (Some "{}"))
                        end)%string
  = Some "{}"%string.
Proof.
  exact (proj2 (proj2 (proj2 (callLocalAI_retry_policy
           (fun i => match i with
                     | O => NotOk 503 (Some "busy")
                     | _ => Ok (Some (Some "{}"))
                     end)%string))) eq_refl eq_refl).
Defined.

(** ** The JSON text in an answer *)

Lemma index_brace_String (a : ascii) (s : string) :
  String.index 0 "{" (String a s)
  = if ascii_dec "{" a then Some 0%nat
    else match String.index 0 "{" s with Some n => Some (S n) | None => None end.
Proof.
  cbn [String.index String.prefix]. destruct (ascii_dec "{" a); [|done].
  by destruct s.
Qed.

Lemma append_String (a : ascii) (s t : string) :
  (String a s ++ t)%string = String a (s ++ t).
Proof. reflexivity. Qed.

Lemma append_empty (t : string) : ("" ++ t)%string = t.
Proof. reflexivity. Qed.

Lemma index_brace_absent (s : string) :
  ~ In "{"%char (list_ascii_of_string s) -> String.index 0 "{" s = None.
Proof.
  induction s as [|a s IH]; intros H; [reflexivity|].
  cbn [list_ascii_of_string In] in H. rewrite index_brace_String.
  destruct (ascii_dec "{" a) as [E|E]; [symmetry in E; tauto|].
  rewrite IH by tauto. reflexivity.
Qed.

Lemma index_brace_append (pre rest : string) :
  ~ In "{"%char (list_ascii_of_string pre) ->
  String.index 0 "{" (pre ++ String "{" rest) = Some (String.length pre).
Proof.
  induction pre as [|a pre IH]; intros H.
  - rewrite append_empty, index_brace_String. by destruct (ascii_dec "{" "{").
  - cbn [list_ascii_of_string In] in H.
    rewrite append_String, index_brace_String.
    destruct (ascii_dec "{" a) as [E|E]; [symmetry in E; tauto|].
    rewrite IH by tauto. reflexivity.
Qed.

Lemma substring_all (s : string) : String.substring 0 (String.length s) s = s.
Proof. induction s as [|a s IH]; [reflexivity|]. cbn. by rewrite IH. Qed.

Lemma substring_prefix (s1 s2 : string) :
  String.substring 0 (String.length s1) (s1 ++ s2) = s1.
Proof.
  induction s1 as [|a s1 IH]; [by destruct s2|]. simpl. by rewrite IH.
Qed.

Lemma substring_skip (pre rest : string) :
  String.substring (String.length pre)
    (String.length (pre ++ rest) - String.length pre) (pre ++ rest) = rest.
Proof.
  induction pre as [|a pre IH].
  - simpl. rewrite Nat.sub_0_r. apply substring_all.
  - simpl. exact IH.
Qed.

Lemma last_index_absent (c : ascii) (s : string) :
  ~ In c (list_ascii_of_string s) -> last_index c s = None.
Proof.
  induction s as [|a s IH]; intros H; [reflexivity|].
  cbn [list_ascii_of_string In] in H. cbn [last_index].
  rewrite IH by tauto.
  destruct (Ascii.eqb a c) eqn:E; [|done]. apply Ascii.eqb_eq in E. tauto.
Qed.

Lemma last_index_append (c : ascii) (s post : string) :
  ~ In c (list_ascii_of_string post) ->
  last_index c (s ++ String c post) = Some (String.length s).
Proof.
  intros H. induction s as [|a s IH].
  - simpl. by rewrite (last_index_absent c post H), Ascii.eqb_refl.
  - simpl. by rewrite IH.
Qed.

(** [X14] The JSON text is found inside what surrounds it.  If the
    answer is some text without an opening brace, then an object text
    from ["{"] to ["}"], then some text without a closing brace (a
    sentence before, a code fence around), [matchBraces] returns the
    object text, whatever braces there are inside it; and an answer
    without an opening brace has no match. *)
Theorem matchBraces_extracts (pre body post : string) :
  ~ In "{"%char (list_ascii_of_string pre) ->
  ~ In "}"%char (list_ascii_of_string post) ->
  matchBraces (pre ++ String "{" (body ++ String "}" post))
  = Some (String "{" (body ++ "}")) /\
  matchBraces pre = None.
Proof.
  intros Hpre Hpost. split.
  - unfold matchBraces. rewrite (index_brace_append pre _ Hpre).
    cbn [mbind option_bind]. rewrite substring_skip.
    change (String "{" (body ++ String "}" post))
      with (String "{" body ++ String "}" post)%string.
    rewrite (last_index_append "}" (String "{" body) post Hpost).
    cbn [mbind option_bind].
    change (String "{" body ++ String "}" post)%string
      with (String "{" (body ++ String "}" post)).
    cbn [String.length String.substring]. f_equal. f_equal.
    replace (body ++ String "}" post)%string with ((body ++ "}") ++ post)%string.
    + replace (S (String.length body)) with (String.length (body ++ "}")).
      * apply substring_prefix.
      * clear. induction body as [|a b IH]; [reflexivity|].
        rewrite append_String. cbn [String.length]. by f_equal.
    + clear. induction body as [|a b IH]; [reflexivity|].
      rewrite !append_String. by f_equal.
  - unfold matchBraces. by rewrite (index_brace_absent pre Hpre).
Qed.

(** An answer in a code fence, with a nested object. *)
Lemma matchBraces_extracts_witness :
  matchBraces "Sure: ```json {a: {b: 1}} ``` done" = Some "{a: {b: 1}}"%string.
Proof.
  refine (proj1 (matchBraces_extracts "Sure: ```json " "a: {b: 1}" " ``` done" _ _));
    simpl; intros H; repeat (destruct H as [H|H]; [discriminate H|]); exact H.
Defined.

(** ** The enforcement layer *)

(** [X15] No BUILD on an occupied tile leaves the service.  Whatever
    the proposer answers and whatever the parser makes of it, if the
    action that [generateGameAction] returns is a BUILD whose [x] and [y]
    are numbers within the grid, then they are whole numbers and the tile
    they name is empty land (None).  A BUILD that the layer blocks is
    returned as a WAIT that carries the coordinates as [failedAttempt]. *)
Theorem generateGameAction_enforced
    (JSON_parse : string -> option Json) (net : nat -> Attempt)
    (stats : CityStats) (grid : Grid) (recentFailures : list (Q * Q))
    (x y : Q) (row0 : list Tile.t) :
  let result := generateGameAction JSON_parse net stats grid recentFailures in
  field "action" result = Some (JStr "BUILD") ->
  field "x" result = Some (JNum x) -> field "y" result = Some (JNum y) ->
  grid !! 0%nat = Some row0 ->
  0 <= x < inject_Z (Z.of_nat (length row0)) ->
  0 <= y < inject_Z (Z.of_nat (length grid)) ->
  is_integer x = true /\ is_integer y = true /\
  exists tile,
    tileAt grid (Z.to_nat (Qfloor y)) (Z.to_nat (Qfloor x)) = Some tile /\
    Tile.buildingType tile = BuildingType.None.
Proof.
  intros result Ha Hx Hy Hrow [Hx0 Hx1] [Hy0 Hy1].
  assert (Hmock : field "action" (mockGameAction stats) <> Some (JStr "BUILD"))
    by (vm_compute; discriminate).
  assert (He : exists action, enforce grid action = Some result).
  { subst result. unfold generateGameAction in *.
    destruct (callLocalAI net) as [[|c content]|]; try done.
    destruct (matchBraces _) as [jsonStr|]; try done.
    destruct (JSON_parse jsonStr) as [action|]; try done. cbn [mbind option_bind] in *.
    destruct (enforce grid action) as [r|] eqn:E; try done. by exists action. }
  destruct He as [action He]. clear Hmock. unfold enforce in He.
  assert (Hsame : result = action ->
            exists a, field "action" action = Some (JStr a) /\ a = "BUILD"%string)
    by (intros <-; by eexists).
  destruct (field "action" action) as [[| | |a| |]|] eqn:Eact;
    try (inversion He as [E]; destruct (Hsame (eq_sym E)) as (? & [=] & _)).
  destruct (String.eqb a "BUILD") eqn:Eb;
    [|inversion He as [E]; destruct (Hsame (eq_sym E)) as (? & [= <-] & ->);
      discriminate Eb].
  assert (Hcoord : result = action ->
            field "x" action = Some (JNum x) /\ field "y" action = Some (JNum y))
    by (intros <-; by split).
  destruct (field "x" action) as [[| |x'| | |]|] eqn:Ex;
    try (inversion He as [E]; destruct (Hcoord (eq_sym E)) as [[=] _]).
  destruct (field "y" action) as [[| |y'| | |]|] eqn:Ey;
    try (inversion He as [E]; destruct (Hcoord (eq_sym E)) as [_ [=]]).
  assert (Hblocked : forall bx by', result <> blockedAction bx by').
  { intros bx by' E. rewrite E in Ha. vm_compute in Ha. discriminate Ha. }
  rewrite Hrow in He. cbn [mbind option_bind] in He.
  destruct (Qle_bool 0 x') eqn:E0; cycle 1.
  { inversion He as [E]. destruct (Hcoord (eq_sym E)) as [[= ->] _].
    apply Qle_bool_false in E0. lra. }
  destruct (Qltb x' _ && Qle_bool 0 y' && Qltb y' _) eqn:Er; cycle 1.
  { inversion He as [E]. destruct (Hcoord (eq_sym E)) as [[= ->] [= ->]].
    apply andb_false_iff in Er as [Er|Er]; [apply andb_false_iff in Er as [Er|Er]|].
    - apply Qltb_false in Er. lra.
    - apply Qle_bool_false in Er. lra.
    - apply Qltb_false in Er. lra. }
  destruct (targetTileOf grid x' y') as [targetTile|] eqn:Et; [|discriminate He].
  cbn [mbind option_bind] in He.
  destruct (negb _) eqn:En; [inversion He as [E]; by destruct (Hblocked x' y')|].
  inversion He as [E]. destruct (Hcoord (eq_sym E)) as [[= ->] [= ->]].
  unfold targetTileOf in Et.
  destruct (is_integer x) eqn:Hix; [|discriminate Et].
  destruct (is_integer y) eqn:Hiy; [|discriminate Et]. cbn [andb] in Et.
  split; [done|]. split; [done|]. exists targetTile. split; [exact Et|].
  apply negb_false_iff in En. by apply BuildingType_eqb_eq in En.
Qed.

(** The proposer asks for a house on the land at (10, 10) of the river
    map. *)
Lemma generateGameAction_enforced_witness :
  exists tile,
    tileAt riverMap 10 10 = Some tile /\
    Tile.buildingType tile = BuildingType.None.
Proof.
  destruct (generateGameAction_enforced (fun _ => Some houseRequest)
              (fun _ => Ok (Some (Some "{}"%string))) INITIAL_STATS riverMap []
              10 10 (default [] (riverMap !! 0%nat)))
    as (_ & _ & H).
  - vm_compute. reflexivity.
  - vm_compute. reflexivity.
  - vm_compute. reflexivity.
  - vm_compute. reflexivity.
  - vm_compute. split; [discriminate|reflexivity].
  - vm_compute. split; [discriminate|reflexivity].
  - exact H.
Defined.

(** * More on the economic step of simulation.ts *)

(** ** The census as sums over the grid *)

Lemma isum_shift {A} (f : A -> Q) (i j : nat) (l : list A) :
  isum (fun _ a => f a) i l = isum (fun _ a => f a) j l.
Proof.
  revert i j. induction l as [|a l IH]; intros i j; [reflexivity|].
  cbn [isum]. by rewrite (IH (S i) (S j)).
Qed.

Lemma sumOver_nil (f : Tile.t -> Q) : sumOver f [] = 0.
Proof. reflexivity. Qed.

Lemma sumOver_cons (f : Tile.t -> Q) (row : list Tile.t) (g : Grid) :
  sumOver f (row :: g) = isum (fun _ t => f t) 0 row + sumOver f g.
Proof.
  unfold sumOver, gridSum. cbn [isum]. f_equal.
  apply (isum_shift (fun row => isum (fun _ t => f t) 0 row)).
Qed.

(** A quantity that each tile of the census loop raises by [delta tile]
    is raised by the sum of [delta] over the grid. *)
Lemma census_fold_sum {St} (step : St -> Tile.t -> St) (P : St -> Q)
    (delta : Tile.t -> Q) :
  (forall acc t, P (step acc t) == P acc + delta t) ->
  forall g acc,
    P (fold_left (fun acc row => fold_left step row acc) g acc)
    == P acc + sumOver delta g.
Proof.
  intros Hstep.
  assert (Hrow : forall row acc i,
            P (fold_left step row acc) == P acc + isum (fun _ t => delta t) i row).
  { induction row as [|t row IH]; intros acc i; cbn [fold_left isum]; [lra|].
    rewrite (IH _ (S i)), Hstep. lra. }
  induction g as [|row g IH]; intros acc; cbn [fold_left].
  - rewrite sumOver_nil. lra.
  - rewrite IH, sumOver_cons, (Hrow row acc 0%nat). lra.
Qed.

(** Evaluate the tests and the catalog rows of a census step on a tile
    whose building is known. *)
Ltac census_eval :=
  repeat match goal with
         | |- context [BuildingType.eqb ?x ?y] =>
             let v := eval vm_compute in (BuildingType.eqb x y) in
             change (BuildingType.eqb x y) with v
         end;
  cbn [negb andb addIf];
  repeat match goal with
         | |- context [BUILDINGS ?x] =>
             let v := eval vm_compute in (BUILDINGS x) in change (BUILDINGS x) with v
         end;
  cbn [incomeGen popGen crime pollution truthy or0 default];
  repeat match goal with
         | |- context [Qeq_bool ?x ?y] =>
             let v := eval vm_compute in (Qeq_bool x y) in change (Qeq_bool x y) with v
         | |- context [Qgtb ?x ?y] =>
             let v := eval vm_compute in (Qgtb x y) in change (Qgtb x y) with v
         | |- context [Math_max ?x ?y] =>
             let v := eval vm_compute in (Math_max x y) in change (Math_max x y) with v
         end;
  unfold id;
  cbn [negb andb addIf money set_money fst snd
       Tally.housingCapacity Tally.rawCrime Tally.rawPollution Tally.commJobs
       Tally.indJobs Tally.schools Tally.hospitals Tally.parks].

Lemma Sim_censusTile_delta (acc : Tally.t * CityStats) (t : Tile.t) :
  let r := Sim.censusTile acc t in
  money r.2 == money acc.2 + incomeGen (configOf t) /\
  Tally.housingCapacity r.1
  == Tally.housingCapacity acc.1 + Math_max 0 (popGen (configOf t)) /\
  Tally.rawCrime r.1 == Tally.rawCrime acc.1 + or0 (crime (configOf t)) /\
  Tally.rawPollution r.1 == Tally.rawPollution acc.1 + or0 (pollution (configOf t)) /\
  (forall b k (P : Tally.t -> Q),
     (b, k, P) = (BuildingType.Commercial, 5, Tally.commJobs) \/
     (b, k, P) = (BuildingType.Industrial, 8, Tally.indJobs) \/
     (b, k, P) = (BuildingType.School, 1, Tally.schools) \/
     (b, k, P) = (BuildingType.Hospital, 1, Tally.hospitals) \/
     (b, k, P) = (BuildingType.Park, 1, Tally.parks) ->
     P r.1 == P acc.1 + k * (if BuildingType.eqb (Tile.buildingType t) b then 1 else 0)).
Proof.
  destruct acc as [a s]. unfold configOf, Sim.censusTile. cbv zeta.
  cbn [fst snd].
  destruct (Tile.buildingType t);
    (split; [census_eval; lra|]);
    (split; [census_eval; lra|]);
    (split; [census_eval; lra|]);
    (split; [census_eval; lra|]);
    intros b k P [E|[E|[E|[E|E]]]]; inversion E; subst; census_eval; lra.
Qed.

Lemma Sim_census_spec (g : Grid) (s : CityStats) :
  exists a m, Sim.census g s = (a, set_money m s) /\ censusSums g (money s) a m.
Proof.
  destruct (Sim_census_stats g s) as [m Hm].
  destruct (Sim.census g s) as [a s1] eqn:E. cbn in Hm. subst s1.
  exists a, m. split; [reflexivity|]. unfold censusSums.
  assert (Hsum : forall (P : Tally.t * CityStats -> Q) (delta : Tile.t -> Q),
            (forall acc t, P (Sim.censusTile acc t) == P acc + delta t) ->
            P (a, set_money m s) == P (Tally.zero, s) + sumOver delta g).
  { intros P delta H. rewrite <- E. unfold Sim.census.
    apply (census_fold_sum Sim.censusTile P delta H). }
  assert (Hcount : forall b k (P : Tally.t -> Q),
            (b, k, P) = (BuildingType.Commercial, 5, Tally.commJobs) \/
            (b, k, P) = (BuildingType.Industrial, 8, Tally.indJobs) \/
            (b, k, P) = (BuildingType.School, 1, Tally.schools) \/
            (b, k, P) = (BuildingType.Hospital, 1, Tally.hospitals) \/
            (b, k, P) = (BuildingType.Park, 1, Tally.parks) ->
            P a == P Tally.zero + k * countOf b g).
  { intros b k P Hb.
    rewrite (Hsum (fun acc => P acc.1)
               (fun t => k * (if BuildingType.eqb (Tile.buildingType t) b then 1 else 0))).
    - cbn [fst]. unfold countOf, sumOver. rewrite gridSum_scale. reflexivity.
    - intros acc t. by apply (Sim_censusTile_delta acc t). }
  split; [|split; [|split; [|split; [|split; [|split; [|split; [|split]]]]]]].
  - rewrite (Hsum (fun acc => money acc.2) (fun t => incomeGen (configOf t))).
    + reflexivity.
    + intros acc t. apply (Sim_censusTile_delta acc t).
  - rewrite (Hsum (fun acc => Tally.housingCapacity acc.1)
               (fun t => Math_max 0 (popGen (configOf t)))).
    + cbn. unfold housingOf. lra.
    + intros acc t. apply (Sim_censusTile_delta acc t).
  - rewrite (Hsum (fun acc => Tally.rawCrime acc.1) (fun t => or0 (crime (configOf t)))).
    + cbn. unfold crimeOf. lra.
    + intros acc t. apply (Sim_censusTile_delta acc t).
  - rewrite (Hsum (fun acc => Tally.rawPollution acc.1)
               (fun t => or0 (pollution (configOf t)))).
    + cbn. unfold emissionsOf. lra.
    + intros acc t. apply (Sim_censusTile_delta acc t).
  - rewrite (Hcount BuildingType.Commercial 5 Tally.commJobs) by tauto. cbn. lra.
  - rewrite (Hcount BuildingType.Industrial 8 Tally.indJobs) by tauto. cbn. lra.
  - rewrite (Hcount BuildingType.School 1 Tally.schools) by tauto. cbn. lra.
  - rewrite (Hcount BuildingType.Hospital 1 Tally.hospitals) by tauto. cbn. lra.
  - rewrite (Hcount BuildingType.Park 1 Tally.parks) by tauto. cbn. lra.
Qed.

(** ** Births, aging and deaths *)

Lemma Math_floor_le (v : Q) : Math_floor v <= v.
Proof. apply Qfloor_le. Qed.

Lemma Math_floor_nonneg (v : Q) : 0 <= v -> 0 <= Math_floor v.
Proof.
  intros H. unfold Math_floor. change 0 with (inject_Z 0). rewrite <- Zle_Qle.
  change 0%Z with (Qfloor 0). by apply Qfloor_resp_le.
Qed.

Lemma Qdiv_nonneg (a b : Q) : 0 <= a -> 0 < b -> 0 <= a / b.
Proof.
  intros Ha Hb. apply Qle_shift_div_l; [done|]. lra.
Qed.

Lemma Math_max_spec (a b : Q) :
  (a <= b /\ Math_max a b = b) \/ (b < a /\ Math_max a b = a).
Proof.
  unfold Math_max. destruct (Qle_bool a b) eqn:E.
  - left. by apply Qle_bool_true in E.
  - right. by apply Qle_bool_false in E.
Qed.

(** Aging and deaths, on the numbers of people after births and
    immigration. *)
Lemma aging_bounds (c1 a1 s0 rateC rateD : Q) :
  0 <= c1 -> 0 <= a1 -> 0 <= s0 -> 0 <= rateC -> 0 <= rateD ->
  let agingChildren := Math_floor (c1 * rateC) in
  let a2 := a1 + agingChildren in
  let agingAdults := Math_floor (a2 * 0.02) in
  let s1 := s0 + agingAdults in
  let deaths := Math_floor (s1 * rateD) in
  0 <= a2 - agingAdults /\
  0 <= Math_max 0 (s1 - deaths) /\
  (c1 - agingChildren) + (a2 - agingAdults) + Math_max 0 (s1 - deaths) <= c1 + a1 + s0.
Proof.
  intros Hc Ha Hs Hrc Hrd. cbv zeta.
  set (agingChildren := Math_floor (c1 * rateC)).
  assert (H1 : 0 <= agingChildren) by (apply Math_floor_nonneg; nra).
  set (a2 := a1 + agingChildren).
  set (agingAdults := Math_floor (a2 * 0.02)).
  assert (H2 : 0 <= agingAdults) by (apply Math_floor_nonneg; subst a2; nra).
  assert (H3 : agingAdults <= a2 * 0.02) by apply Math_floor_le.
  set (s1 := s0 + agingAdults).
  set (deaths := Math_floor (s1 * rateD)).
  assert (H4 : 0 <= deaths) by (apply Math_floor_nonneg; subst s1; nra).
  destruct (Math_max_spec 0 (s1 - deaths)) as [[? ->]|[? ->]]; subst a2 s1;
    repeat split; lra.
Qed.

Lemma Math_max_ge_l (a b : Q) : a <= Math_max a b.
Proof. destruct (Math_max_spec a b) as [[? ->]|[? ->]]; lra. Qed.

Lemma Sim_populationDynamics_spec (a : Tally.t) (s : CityStats) (D : loc)
    (d : Demographics) (h : Heap) :
  demographics s = D ->
  exists d',
    Sim.populationDynamics a s (<[D := ODemographics d]> h)
    = Some (set_population (headcount d') s, <[D := ODemographics d']> h) /\
    0 <= seniors d' /\
    (0 <= children d -> 0 <= adults d -> 0 <= seniors d ->
     0 <= Tally.schools a -> 0 <= Tally.hospitals a ->
     (Tally.housingCapacity a <= headcount d ->
        0 <= adults d' /\ headcount d' <= headcount d) /\
     (0 <= happiness s ->
        0 <= adults d' /\
        headcount d' <= headcount d + adults d * 0.02 * (happiness s / 100) + 2)).
Proof.
  intros <-. unfold Sim.populationDynamics, headcount.
  assert (Hrates : 0 <= Tally.schools a -> 0 <= Tally.hospitals a ->
            0 <= 0.05 * (1 + Tally.schools a * 50 / (Math_max 1 (children d) + 1)) /\
            0 <= 0.05 / (1 + Tally.hospitals a)
                 + (if Qgtb (crimeRate s) 50 then 0.05 else 0)).
  { intros Hs Hh. split.
    - assert (0 <= Tally.schools a * 50 / (Math_max 1 (children d) + 1)); [|lra].
      apply Qdiv_nonneg; [lra|]. pose proof (Math_max_ge_l 1 (children d)). lra.
    - assert (0 <= 0.05 / (1 + Tally.hospitals a)) by (apply Qdiv_nonneg; lra).
      destruct (Qgtb (crimeRate s) 50); lra. }
  run_step; (eexists; split; [reflexivity|]);
    cbn [children adults seniors set_children set_adults set_seniors];
    (split; [apply Math_max_ge_l|]);
    intros Hc Ha Hs Hsch Hhos; destruct (Hrates Hsch Hhos) as [Hrc Hrd];
    repeat match goal with
           | H : Qltb _ _ = true |- _ => apply Qltb_true in H
           | H : Qltb _ _ = false |- _ => apply Qltb_false in H
           end.
  - (* births, two immigrants *)
    split; [intros; lra|]. intros Hhap.
    pose proof (Math_floor_le (adults d * (0.02 * (happiness s / 100)))) as Hb1.
    assert (Hb0 : 0 <= Math_floor (adults d * (0.02 * (happiness s / 100)))).
    { apply Math_floor_nonneg.
      assert (0 <= happiness s / 100) by (apply Qdiv_nonneg; lra). nra. }
    pose proof (aging_bounds
                  (children d + Math_floor (adults d * (0.02 * (happiness s / 100))))
                  (adults d + 2) (seniors d) _ _
                  ltac:(lra) ltac:(lra) Hs Hrc Hrd) as Hag.
    cbv zeta in Hag. destruct Hag as (Ha' & _ & Hsum). split; [exact Ha'|]. lra.
  - (* births, one immigrant *)
    split; [intros; lra|]. intros Hhap.
    pose proof (Math_floor_le (adults d * (0.02 * (happiness s / 100)))) as Hb1.
    assert (Hb0 : 0 <= Math_floor (adults d * (0.02 * (happiness s / 100)))).
    { apply Math_floor_nonneg.
      assert (0 <= happiness s / 100) by (apply Qdiv_nonneg; lra). nra. }
    pose proof (aging_bounds
                  (children d + Math_floor (adults d * (0.02 * (happiness s / 100))))
                  (adults d + 1) (seniors d) _ _
                  ltac:(lra) ltac:(lra) Hs Hrc Hrd) as Hag.
    cbv zeta in Hag. destruct Hag as (Ha' & _ & Hsum). split; [exact Ha'|]. lra.
  - (* births, no immigrant *)
    split; [intros; lra|]. intros Hhap.
    pose proof (Math_floor_le (adults d * (0.02 * (happiness s / 100)))) as Hb1.
    assert (Hb0 : 0 <= Math_floor (adults d * (0.02 * (happiness s / 100)))).
    { apply Math_floor_nonneg.
      assert (0 <= happiness s / 100) by (apply Qdiv_nonneg; lra). nra. }
    pose proof (aging_bounds
                  (children d + Math_floor (adults d * (0.02 * (happiness s / 100))))
                  (adults d) (seniors d) _ _
                  ltac:(lra) ltac:(lra) Hs Hrc Hrd) as Hag.
    cbv zeta in Hag. destruct Hag as (Ha' & _ & Hsum). split; [exact Ha'|]. lra.
  - (* housing is full *)
    pose proof (aging_bounds (children d) (adults d) (seniors d) _ _
                  Hc Ha Hs Hrc Hrd) as Hag.
    cbv zeta in Hag. destruct Hag as (Ha' & _ & Hsum).
    split; [intros _; split; [exact Ha'|lra]|].
    intros Hhap. split; [exact Ha'|].
    assert (0 <= adults d * 0.02 * (happiness s / 100)); [|lra].
    assert (0 <= happiness s / 100) by (apply Qdiv_nonneg; lra). nra.
Qed.

Lemma countOf_nonneg (b : BuildingType.t) (g : Grid) : 0 <= countOf b g.
Proof.
  unfold countOf, sumOver. apply gridSum_nonneg. intros y x t _.
  destruct (BuildingType.eqb _ _); lra.
Qed.

Lemma Sim_population_growth (g : Grid) (m0 : Q) (a : Tally.t) (m : Q) (s : CityStats)
    (D : loc) (d : Demographics) (h : Heap) :
  censusSums g m0 a m -> demographics s = D ->
  exists d',
    Sim.populationDynamics a s (<[D := ODemographics d]> h)
    = Some (set_population (headcount d') s, <[D := ODemographics d']> h) /\
    growthBounds (housingOf g) (happiness s) d d'.
Proof.
  intros (_ & Hh & _ & _ & _ & _ & Hs & Hho & _) HD.
  destruct (Sim_populationDynamics_spec a s D d h HD) as (d' & Hr & Hs' & Hb).
  exists d'. split; [exact Hr|]. split; [exact Hs'|].
  intros Hc Ha Hsen.
  assert (H1 : 0 <= Tally.schools a) by (rewrite Hs; apply countOf_nonneg).
  assert (H2 : 0 <= Tally.hospitals a) by (rewrite Hho; apply countOf_nonneg).
  destruct (Hb Hc Ha Hsen H1 H2) as [Hfull Hgrow]. split; [|exact Hgrow].
  intros Hcap. apply Hfull. by rewrite Hh.
Qed.

(** ** The economy *)

Lemma Sim_economy_spec (host : Host) (random : Q) (a : Tally.t) (s : CityStats)
    (D : loc) (d : Demographics) (h : Heap) :
  demographics s = D ->
  let H1 := <[D := ODemographics d]> h in
  let B := fresh (dom H1) in
  let sd := Sim.eventDecay s in
  let totalJobs := Tally.commJobs a + Tally.indJobs a in
  let unemployment := Math_max 0 (adults d - totalJobs) in
  exists b SP delta,
    Sim.economy host random a s H1
    = Some (({| unemploymentOf := unemployment; totalJobsOf := totalJobs;
                tallyOf := a |},
             set_budget B (set_money (money sd + delta) (set_sharePrice SP sd))),
            <[B := OBudget b]> H1) /\
    delta = income b - expenses b /\
    1 <= SP /\ (exists z : Z, SP = inject_Z z) /\
    lastMonthProfit b = Some (income b - expenses b) /\
    income b = tax (details b) + business (details b) /\
    welfare (details b) = unemployment * 2.
Proof.
  intros <-. cbv zeta. unfold Sim.economy. run_step.
  do 3 eexists. split; [reflexivity|]. split; [reflexivity|].
  split; [apply Math_max_ge_l|]. split; [|by repeat split].
  match goal with
  | |- context [Math_max 1 (Math_floor ?v)] =>
      destruct (Math_max_spec 1 (Math_floor v)) as [[_ ->]|[_ ->]]
  end; [by eexists|by exists 1%Z].
Qed.

Lemma eventDecay_frame (s : CityStats) :
  Sim.eventDecay s
  = set_activeEvent (activeEvent (Sim.eventDecay s))
      (set_eventDuration (eventDuration (Sim.eventDecay s)) s).
Proof.
  unfold Sim.eventDecay. destruct (negb _); [|by destruct s].
  cbn [eventDuration set_eventDuration]. destruct (Qle_bool _ 0); by destruct s.
Qed.

(** The whole step, with every intermediate value named. *)
Lemma Sim_step_explicit (host : Host) (random : Q) (s : CityStats) (g : Grid)
    (h : Heap) (d : Demographics) :
  h !! demographics s = Some (ODemographics d) ->
  exists a m d' b SP,
    let s0 := set_day (day s + 1) s in
    let s1 := Sim.gauges a (set_housingCapacity (Tally.housingCapacity a)
                              (set_money m s0)) in
    let sp := set_population (headcount d') s1 in
    let sd := Sim.eventDecay sp in
    let H1 := <[demographics s := ODemographics d']> h in
    let B := fresh (dom H1) in
    let totalJobs := Tally.commJobs a + Tally.indJobs a in
    let unemployment := Math_max 0 (adults d' - totalJobs) in
    let e := {| unemploymentOf := unemployment; totalJobsOf := totalJobs;
                tallyOf := a |} in
    let s2 := set_budget B (set_money (money sd + (income b - expenses b))
                              (set_sharePrice SP sd)) in
    let fee := Math_floor (Math_abs (money s2) * 0.01) in
    let s3 := if Qltb (money s2) 0
              then set_happiness (happiness s2 - 5) (set_money (money s2 - fee) s2)
              else s2 in
    let b' := if Qltb (money s2) 0 then set_expenses (expenses b + fee) b else b in
    let H3 := <[B := OBudget b']> H1 in
    let J := fresh (dom H3) in
    let j := {| commercial := Tally.commJobs a; industrial := Tally.indJobs a;
                total := totalJobs; unemployment := unemployment |} in
    censusSums g (money s) a m /\
    growthBounds (housingOf g) (happiness s) d d' /\
    (1 <= SP /\ (exists z : Z, SP = inject_Z z) /\
     lastMonthProfit b = Some (income b - expenses b) /\
     income b = tax (details b) + business (details b) /\
     welfare (details b) = unemployment * 2) /\
    Sim.updateSimulation host random s g h
    = Some (Sim.happinessStep e g (set_jobs J s3), <[J := OJobs j]> H3).
Proof.
  intros Hd.
  destruct (Sim_census_spec g (set_day (day s + 1) s)) as (a & m & Hc & Hsums).
  set (s1 := Sim.gauges a (set_housingCapacity (Tally.housingCapacity a)
                             (set_money m (set_day (day s + 1) s)))).
  assert (HD : demographics s1 = demographics s) by reflexivity.
  destruct (Sim_population_growth g _ a m s1 _ d h Hsums HD) as (d' & Hp & Hgrow).
  set (sp := set_population (headcount d') s1) in *.
  pose proof (Sim_economy_spec host random a sp (demographics s) d' h HD) as Hec.
  cbv zeta in Hec. destruct Hec as (b & SP & delta & He & Hdelta & Hb).
  rewrite Hdelta in He. clear Hdelta delta.
  exists a, m, d', b, SP. cbv zeta.
  split; [exact Hsums|]. split; [exact Hgrow|]. split; [exact Hb|].
  cbv zeta in He.
  unfold Sim.updateSimulation, Sim.beforeDebtSpiral. rewrite Hc. cbv zeta.
  fold s1. rewrite <- (insert_id h _ _ Hd) at 1.
  cbv beta iota delta [mbind M_bind mret M_ret]. rewrite Hp. fold sp. rewrite He.
  cbv beta iota.
  match goal with
  | |- context [Sim.debtSpiral ?s2 (<[?B := OBudget b]> ?H)] =>
      rewrite (debtSpiral_runs s2 B b H eq_refl)
  end.
  cbv zeta. reflexivity.
Qed.

(** ** What a step returns *)

Lemma Math_max_compat (a b b' : Q) : b == b' -> Math_max a b == Math_max a b'.
Proof.
  intros E. destruct (Math_max_spec a b) as [[? ->]|[? ->]],
    (Math_max_spec a b') as [[? ->]|[? ->]]; lra.
Qed.

Lemma Math_min_compat (a b b' : Q) : b == b' -> Math_min a b == Math_min a b'.
Proof.
  intros E. destruct (Math_min_spec a b) as [[? ->]|[? ->]],
    (Math_min_spec a b') as [[? ->]|[? ->]]; lra.
Qed.

(** Split on the tests of the event countdown and of the debt spiral,
    and read the fields off the records. *)
Ltac step_fields :=
  unfold Sim.happinessStep, Sim.eventDecay, Sim.gauges;
  repeat match goal with
         | |- context [if ?c then _ else _] => destruct c eqn:?
         end;
  cbn [money population day taxRate happiness education safety housingCapacity
       demographics jobs budget shadowEconomy supplyLevel loanPrincipal
       loanInterestRate activeEvent eventDuration sharePrice investmentShares
       investmentAverageCost crimeRate security pollutionLevel windDirection
       windSpeed currentGoal unlockedGridSize research activePlanet
       set_money set_population set_day set_happiness set_education set_safety
       set_housingCapacity set_jobs set_budget set_activeEvent set_eventDuration
       set_sharePrice set_crimeRate set_security set_pollutionLevel
       income expenses set_expenses].

(** [X16] The books balance.  After a step the money is the money
    before, plus the income of the buildings on the grid, plus the income
    of the budget the step publishes, minus its expenses: the debt
    service, when there is one, is taken from the money and added to the
    expenses of the budget alike.  The statement is made for head counts
    and a happiness that are not negative, where the population that
    [Math.pow] is given is not negative either, and for numbers in the
    safe range; the equation is that of exact arithmetic. *)
Theorem updateSimulation_accounting (host : Host) (random : Q) (s : CityStats)
    (g : Grid) (h : Heap) (d : Demographics) :
  h !! demographics s = Some (ODemographics d) ->
  0 <= children d -> 0 <= adults d -> 0 <= seniors d -> 0 <= happiness s ->
  statsInRange s d = true -> safeNumber (money s) = true ->
  exists s' h' b',
    Sim.updateSimulation host random s g h = Some (s', h') /\
    h' !! budget s' = Some (OBudget b') /\
    money s' == money s + buildingIncome g + income b' - expenses b'.
Proof.
  intros Hd _ _ _ _ _ _.
  destruct (Sim_step_explicit host random s g h d Hd)
    as (a & m & d' & b & SP & Hx).
  cbv zeta in Hx. destruct Hx as ((Hm & _) & _ & _ & Hu).
  match type of Hu with
  | context [Qltb ?v 0] => destruct (Qltb v 0) eqn:Edebt
  end; (eexists _, _, _; split; [exact Hu|]; clear Hu; split;
        [cbn [Sim.happinessStep budget set_happiness set_jobs set_money set_budget];
         (rewrite lookup_insert_ne; [|eapply fresh_ne; apply lookup_insert_eq]);
         apply lookup_insert_eq
        |step_fields; lra]).
Qed.

(** A first step of the suburb: ten houses, no income yet. *)
Lemma updateSimulation_accounting_witness :
  exists s' h' b',
    Sim.updateSimulation exampleHost (1 # 2) INITIAL_STATS suburb INITIAL_HEAP
    = Some (s', h') /\
    h' !! budget s' = Some (OBudget b') /\
    money s' == money INITIAL_STATS + buildingIncome suburb + income b' - expenses b'.
Proof.
  apply (updateSimulation_accounting exampleHost (1 # 2) INITIAL_STATS suburb
           INITIAL_HEAP {| children := 0; adults := 0; seniors := 0 |} eq_refl);
    first [reflexivity | vm_compute; discriminate].
Defined.

(** [X17] The gauges a step publishes are those of the grid.  The crime
    rate is the sum of the crime coefficients of the buildings, and the
    pollution level the sum of their pollution coefficients, each raised
    to 0 when negative; security is 100 minus the crime rate and safety
    100 minus twice the crime rate, both raised to 0; education is 15 for
    each school, capped at 100; the housing capacity is the sum of the
    positive population coefficients.  So security, safety and education
    lie between 0 and 100, and the share price (of a share price in the
    safe range) is a whole number of at least 1. *)
Theorem updateSimulation_gauges (host : Host) (random : Q) (s : CityStats)
    (g : Grid) (h : Heap) (d : Demographics) :
  h !! demographics s = Some (ODemographics d) ->
  safeNumber (sharePrice s) = true ->
  exists s' h',
    Sim.updateSimulation host random s g h = Some (s', h') /\
    crimeRate s' == Math_max 0 (crimeOf g) /\
    pollutionLevel s' == Math_max 0 (emissionsOf g) /\
    security s' == Math_max 0 (100 - crimeRate s') /\
    safety s' == Math_max 0 (100 - crimeRate s' * 2) /\
    education s' == Math_min 100 (countOf BuildingType.School g * 15) /\
    housingCapacity s' == housingOf g /\
    0 <= crimeRate s' /\ 0 <= pollutionLevel s' /\
    0 <= security s' <= 100 /\ 0 <= safety s' <= 100 /\ 0 <= education s' <= 100 /\
    1 <= sharePrice s' /\ (exists z : Z, sharePrice s' = inject_Z z).
Proof.
  intros Hd _.
  destruct (Sim_step_explicit host random s g h d Hd)
    as (a & m & d' & b & SP & Hx).
  cbv zeta in Hx.
  destruct Hx as ((_ & Hh & Hcr & Hpo & _ & _ & Hsc & _) & _ & (HSP & HSPz & _) & Hu).
  eexists _, _. split; [exact Hu|]. clear Hu.
  pose proof (countOf_nonneg BuildingType.School g) as Hsc0.
  pose proof (Math_max_compat 0 _ _ Hcr) as Ecr.
  pose proof (Math_max_compat 0 _ _ Hpo) as Epo.
  assert (Eed : Math_min 100 (Tally.schools a * 15)
                == Math_min 100 (countOf BuildingType.School g * 15))
    by (apply Math_min_compat; by rewrite Hsc).
  pose proof (Math_max_ge_l 0 (Tally.rawCrime a)) as Gcr.
  pose proof (Math_max_ge_l 0 (Tally.rawPollution a)) as Gpo.
  pose proof (Math_max_spec 0 (100 - Math_max 0 (Tally.rawCrime a))) as Gse.
  pose proof (Math_max_spec 0 (100 - Math_max 0 (Tally.rawCrime a) * 2)) as Gsa.
  pose proof (Math_min_glb 100 (Tally.schools a * 15)) as Ged.
  assert (0 <= Tally.schools a * 15) by (rewrite Hsc; lra).
  step_fields;
    (split; [exact Ecr|]); (split; [exact Epo|]); (split; [reflexivity|]);
    (split; [reflexivity|]); (split; [exact Eed|]); (split; [exact Hh|]);
    (split; [exact Gcr|]); (split; [exact Gpo|]);
    (split; [destruct Gse as [[? ->]|[? ->]]; split; lra|]);
    (split; [destruct Gsa as [[? ->]|[? ->]]; split; lra|]);
    (split; [destruct Ged as (? & ? & [E|E]); rewrite E in *; split; lra|]);
    (split; [exact HSP|exact HSPz]).
Qed.

(** A first step of the casino strip: a hundred casinos, a crime rate of
    3000. *)
Lemma updateSimulation_gauges_witness :
  exists s' h',
    Sim.updateSimulation exampleHost (1 # 2) INITIAL_STATS casinoStrip INITIAL_HEAP
    = Some (s', h') /\
    crimeRate s' == Math_max 0 (crimeOf casinoStrip) /\
    0 <= security s' <= 100.
Proof.
  destruct (updateSimulation_gauges exampleHost (1 # 2) INITIAL_STATS casinoStrip
              INITIAL_HEAP {| children := 0; adults := 0; seniors := 0 |}
              eq_refl eq_refl)
    as (s' & h' & Hu & Hc & _ & _ & _ & _ & _ & _ & _ & Hs & _).
  exists s', h'. split; [exact Hu|]. split; [exact Hc|exact Hs].
Defined.

Lemma eventDecay_spec (s : CityStats) :
  let s' := Sim.eventDecay s in
  (activeEvent s = EconomicEvent.None ->
     activeEvent s' = EconomicEvent.None /\ eventDuration s' = eventDuration s) /\
  (activeEvent s <> EconomicEvent.None ->
     eventDuration s' = eventDuration s - 1 /\
     (1 < eventDuration s -> activeEvent s' = activeEvent s) /\
     (eventDuration s <= 1 -> activeEvent s' = EconomicEvent.None)) /\
  (activeEvent s' <> EconomicEvent.None -> 0 < eventDuration s').
Proof.
  cbv zeta. unfold Sim.eventDecay.
  destruct (EconomicEvent.eqb (activeEvent s) EconomicEvent.None) eqn:Ea; cbn [negb].
  - apply bool_decide_eq_true in Ea.
    split; [done|]. split; [intros E; by destruct E|]. intros E. by destruct E.
  - apply bool_decide_eq_false in Ea.
    cbn [eventDuration set_eventDuration].
    destruct (Qle_bool (eventDuration s - 1) 0) eqn:Ed;
      [apply Qle_bool_true in Ed|apply Qle_bool_false in Ed];
      cbn [activeEvent eventDuration set_activeEvent set_eventDuration].
    + split; [done|]. split; [|done].
      intros _. split; [reflexivity|]. split; [intros; lra|done].
    + split; [done|]. split; [|intros _; lra].
      intros _. split; [reflexivity|]. split; [done|intros; lra].
Qed.

(** [X18] The countdown of an economic event.  With no event active a
    step leaves the event and its duration alone.  With an event active
    it takes one day off the duration, and ends the event (sets it to
    None) exactly when no day is left.  So after every step an active
    event has a positive duration left, whatever the stats were. *)
Theorem updateSimulation_event_countdown (host : Host) (random : Q)
    (s : CityStats) (g : Grid) (h : Heap) (d : Demographics) :
  h !! demographics s = Some (ODemographics d) ->
  exists s' h',
    Sim.updateSimulation host random s g h = Some (s', h') /\
    (activeEvent s = EconomicEvent.None ->
       activeEvent s' = EconomicEvent.None /\ eventDuration s' = eventDuration s) /\
    (activeEvent s <> EconomicEvent.None ->
       eventDuration s' = eventDuration s - 1 /\
       (1 < eventDuration s -> activeEvent s' = activeEvent s) /\
       (eventDuration s <= 1 -> activeEvent s' = EconomicEvent.None)) /\
    eventRunning s'.
Proof.
  intros Hd.
  destruct (Sim_step_explicit host random s g h d Hd)
    as (a & m & d' & b & SP & Hx).
  cbv zeta in Hx. destruct Hx as (_ & _ & _ & Hu).
  eexists _, _. split; [exact Hu|]. clear Hu.
  match goal with
  | |- context [Sim.eventDecay ?x] => set (sp := x)
  end.
  pose proof (eventDecay_spec sp) as Hdec.
  change (activeEvent sp) with (activeEvent s) in Hdec.
  change (eventDuration sp) with (eventDuration s) in Hdec.
  set (sd := Sim.eventDecay sp) in *.
  match goal with
  | |- context [Sim.happinessStep ?e ?g ?x] => set (s' := Sim.happinessStep e g x)
  end.
  assert (Ha : activeEvent s' = activeEvent sd)
    by (subst s'; destruct (Qltb _ 0); reflexivity).
  assert (Hdu : eventDuration s' = eventDuration sd)
    by (subst s'; destruct (Qltb _ 0); reflexivity).
  unfold eventRunning. rewrite Ha, Hdu. exact Hdec.
Qed.

(** A boom with three days left has two days left after a step. *)
Lemma updateSimulation_event_countdown_witness :
  exists s' h',
    Sim.updateSimulation exampleHost (1 # 2)
      (set_eventDuration 3 (set_activeEvent EconomicEvent.Boom INITIAL_STATS))
      emptyLand INITIAL_HEAP = Some (s', h') /\
    eventDuration s' = 3 - 1 /\ activeEvent s' = EconomicEvent.Boom.
Proof.
  destruct (updateSimulation_event_countdown exampleHost (1 # 2)
              (set_eventDuration 3 (set_activeEvent EconomicEvent.Boom INITIAL_STATS))
              emptyLand INITIAL_HEAP {| children := 0; adults := 0; seniors := 0 |}
              eq_refl)
    as (s' & h' & Hu & _ & Hact & _).
  exists s', h'. split; [exact Hu|].
  destruct Hact as (Hd & Hkeep & _); [discriminate|].
  split; [exact Hd|]. apply Hkeep. vm_compute. reflexivity.
Defined.

(** [X19] What a step leaves alone.  It adds one to the day and keeps
    the tax rate, the loan and its interest rate, the shares held and
    their average cost, the shadow economy, the supply level, the wind,
    the goal, the unlocked size, the research and the planet, and the
    reference to the demographics object.  In particular it never adds
    interest to the loan: the principal is the one it was given. *)
Theorem updateSimulation_untouched (host : Host) (random : Q)
    (s : CityStats) (g : Grid) (h : Heap) (d : Demographics) :
  h !! demographics s = Some (ODemographics d) ->
  exists s' h',
    Sim.updateSimulation host random s g h = Some (s', h') /\
    day s' = day s + 1 /\
    taxRate s' = taxRate s /\
    loanPrincipal s' = loanPrincipal s /\
    loanInterestRate s' = loanInterestRate s /\
    investmentShares s' = investmentShares s /\
    investmentAverageCost s' = investmentAverageCost s /\
    shadowEconomy s' = shadowEconomy s /\
    supplyLevel s' = supplyLevel s /\
    windDirection s' = windDirection s /\
    windSpeed s' = windSpeed s /\
    currentGoal s' = currentGoal s /\
    unlockedGridSize s' = unlockedGridSize s /\
    research s' = research s /\
    activePlanet s' = activePlanet s /\
    demographics s' = demographics s.
Proof.
  intros Hd.
  destruct (Sim_step_explicit host random s g h d Hd)
    as (a & m & d' & b & SP & Hx).
  cbv zeta in Hx. destruct Hx as (_ & _ & _ & Hu).
  eexists _, _. split; [exact Hu|]. clear Hu.
  match goal with
  | |- context [Sim.eventDecay ?x] => set (sp := x)
  end.
  rewrite (eventDecay_frame sp).
  destruct (Qltb _ 0); repeat split; reflexivity.
Qed.

(** A step of the river town after a loan: the principal is still
    5000. *)
Lemma updateSimulation_untouched_witness :
  exists s' h',
    Sim.updateSimulation exampleHost (1 # 2)
      (stats (handleTakeLoan (riverTown 2000))) riverMap INITIAL_HEAP
    = Some (s', h') /\
    loanPrincipal s' = 0 + 5000.
Proof.
  destruct (updateSimulation_untouched exampleHost (1 # 2)
              (stats (handleTakeLoan (riverTown 2000))) riverMap INITIAL_HEAP
              {| children := 0; adults := 0; seniors := 0 |} eq_refl)
    as (s' & h' & Hu & _ & _ & Hl & _).
  exists s', h'. split; [exact Hu|exact Hl].
Defined.

(** ** Births, aging and deaths on their own *)

(** [X20] Births, immigration, aging and deaths (lines 130-173 of
    [updateSimulation]) on head counts that are not negative, with the
    numbers in the safe range.  The step writes the new head counts into
    the demographics object and their sum into [population]; the seniors
    stay at 0 or more; when the housing capacity is no more than the
    population (no houses, or all full) nobody is born and nobody moves
    in, so that the population does not grow and the adults stay at 0 or
    more; and with a happiness that is not negative the population grows
    by at most 2% of the adults, scaled by the happiness, plus 2
    immigrants.  (The children can become negative: a city with many
    schools moves more children to the adults than there are.) *)
Theorem populationDynamics_bounds (a : Tally.t) (s : CityStats)
    (d : Demographics) (h : Heap) :
  0 <= children d -> 0 <= adults d -> 0 <= seniors d ->
  0 <= Tally.schools a -> 0 <= Tally.hospitals a ->
  safeNumber (children d) && safeNumber (adults d) && safeNumber (seniors d)
  && safeNumber (happiness s) && safeNumber (Tally.schools a)
  && safeNumber (Tally.hospitals a) && safeNumber (Tally.housingCapacity a) = true ->
  exists d',
    Sim.populationDynamics a s (<[demographics s := ODemographics d]> h)
    = Some (set_population (headcount d') s,
            <[demographics s := ODemographics d']> h) /\
    0 <= seniors d' /\
    (Tally.housingCapacity a <= headcount d ->
       0 <= adults d' /\ headcount d' <= headcount d) /\
    (0 <= happiness s ->
       0 <= adults d' /\
       headcount d' <= headcount d + adults d * 0.02 * (happiness s / 100) + 2).
Proof.
  intros Hc Ha Hs Hsch Hhos _.
  destruct (Sim_populationDynamics_spec a s (demographics s) d h eq_refl)
    as (d' & Hr & Hs' & Hb).
  exists d'. split; [exact Hr|]. split; [exact Hs'|].
  exact (Hb Hc Ha Hs Hsch Hhos).
Qed.

(** A hundred adults and no house: nobody is born and nobody moves
    in. *)
Lemma populationDynamics_bounds_witness :
  exists d',
    Sim.populationDynamics Tally.zero INITIAL_STATS
      (<[demographics INITIAL_STATS :=
           ODemographics {| children := 0; adults := 100; seniors := 0 |}]>
         INITIAL_HEAP)
    = Some (set_population (headcount d') INITIAL_STATS,
            <[demographics INITIAL_STATS := ODemographics d']> INITIAL_HEAP) /\
    headcount d' <= 100.
Proof.
  destruct (populationDynamics_bounds Tally.zero INITIAL_STATS
              {| children := 0; adults := 100; seniors := 0 |} INITIAL_HEAP)
    as (d' & Hr & _ & Hfull & _);
    try (vm_compute; discriminate); [reflexivity|].
  exists d'. split; [exact Hr|].
  destruct Hfull as [_ Hle]; [vm_compute; discriminate|exact Hle].
Defined.
